(** * ISO 8601 dates, times and durations of Pacemaker (lib/common/iso8601.c)

    A shallow embedding of the date/time library and machine-checked
    statements about it.

    Conventions of the embedding.

    - A C [int] is a [Z].  Signed overflow is undefined in C, so the
      embedding describes the executions in which no [int] operation
      overflows; [/] and [%] are C's truncating [Z.quot] and [Z.rem].
    - Values of type [uint32_t]/[uint] wrap modulo 2^32 ([u32]); storing
      such a value back into an [int] reinterprets it ([s32]).
    - A [crm_time_t *] that may be NULL is an [option crm_time]; functions
      that update their argument in place take the old record and return
      the new one.
    - A read outside the [month_days] table, a read past the end of a
      string and a division by zero are reported as [Undefined].
    - Allocation never fails and log output is not part of the model. *)

From Stdlib Require Import ZArith List String Ascii Bool Lia DecimalString.
Import ListNotations.
Open Scope Z_scope.

(** ** C integers *)

Module CInt.

Definition INT_MIN : Z := -2147483648.
Definition INT_MAX : Z := 2147483647.

Definition in_int (z : Z) : Prop := INT_MIN <= z <= INT_MAX.

(** Conversion to a 32-bit unsigned value. *)
Definition u32 (z : Z) : Z := z mod 4294967296.

(** Conversion of a 32-bit unsigned value to [int]. *)
Definition s32 (z : Z) : Z :=
  let w := z mod 4294967296 in
  if w <? 2147483648 then w else w - 4294967296.

(** Conversion to [long long]. *)
Definition s64 (z : Z) : Z :=
  let w := z mod 18446744073709551616 in
  if w <? 9223372036854775808 then w else w - 18446744073709551616.

End CInt.
Import CInt.

(** ** Outcomes of code that can run into undefined behaviour *)

Inductive result (A : Type) : Type :=
| Ok (a : A)
| Undefined.
Arguments Ok {A} a.
Arguments Undefined {A}.

Definition bind {A B : Type} (r : result A) (k : A -> result B) : result B :=
  match r with
  | Ok a => k a
  | Undefined => Undefined
  end.

Notation "'do' x <- e ; k" := (bind e (fun x => k))
  (at level 10, x pattern, e at level 100, k at level 200).

(** ** The time value *)

(** [struct crm_time_s]. *)
Record crm_time : Type := mk_time {
  years : Z;
  months : Z;                  (* only for durations *)
  days : Z;
  seconds : Z;
  offset : Z;                  (* seconds *)
  duration : bool
}.

(** What [calloc(1, sizeof(crm_time_t))] returns. *)
Definition calloc_time : crm_time := mk_time 0 0 0 0 0 false.

Definition set_years (t : crm_time) (v : Z) : crm_time :=
  mk_time v (months t) (days t) (seconds t) (offset t) (duration t).
Definition set_months (t : crm_time) (v : Z) : crm_time :=
  mk_time (years t) v (days t) (seconds t) (offset t) (duration t).
Definition set_days (t : crm_time) (v : Z) : crm_time :=
  mk_time (years t) (months t) v (seconds t) (offset t) (duration t).
Definition set_seconds (t : crm_time) (v : Z) : crm_time :=
  mk_time (years t) (months t) (days t) v (offset t) (duration t).
Definition set_offset (t : crm_time) (v : Z) : crm_time :=
  mk_time (years t) (months t) (days t) (seconds t) v (duration t).
Definition set_duration (t : crm_time) (v : bool) : crm_time :=
  mk_time (years t) (months t) (days t) (seconds t) (offset t) v.

(** ** Calendar primitives *)

Definition crm_time_leapyear (year : Z) : bool :=
  let is_leap := if Z.rem year 4 =? 0 then true else false in
  if (Z.rem year 100 =? 0) && negb (Z.rem year 400 =? 0) then false else is_leap.

Definition year_days (year : Z) : Z :=
  let d := 365 in
  if crm_time_leapyear year then d + 1 else d.

Definition crm_time_january1_weekday (year : Z) : Z :=
  let YY := Z.rem (year - 1) 100 in
  let C := (year - 1) - YY in
  let G := YY + Z.quot YY 4 in
  1 + Z.rem (Z.rem (Z.quot C 100) 4 * 5 + G) 7.

Definition crm_time_weeks_in_year (year : Z) : Z :=
  let weeks := 52 in
  let jan1 := crm_time_january1_weekday year in
  if jan1 =? 4 then weeks + 1
  else
    let jan1 := crm_time_january1_weekday (year + 1) in
    if jan1 =? 5 then weeks + 1 else weeks.

Definition month_days : list Z :=
  [0; 31; 28; 31; 30; 31; 30; 31; 31; 30; 31; 30; 31; 29].

(** [month_days[i]]; the table has 14 entries. *)
Definition month_days_at (i : Z) : result Z :=
  if (0 <=? i) && (i <? 14) then Ok (nth (Z.to_nat i) month_days 0)
  else Undefined.

Definition crm_time_days_in_month (month year : Z) : result Z :=
  let month := if (month =? 2) && crm_time_leapyear year then 13 else month in
  month_days_at month.

(** The loop of [get_ordinal_days]: [lpc] is an [int] compared with the
    unsigned [m]; [d] is unsigned and [y] is converted to [int] at the call.
    Index 14 is already outside the table, so 15 rounds of fuel are never
    used up. *)
Fixpoint get_ordinal_days_loop (fuel : nat) (y m lpc d : Z) : result Z :=
  match fuel with
  | O => Undefined
  | S k =>
      if u32 lpc <? m then
        do md <- crm_time_days_in_month lpc (s32 y);
        get_ordinal_days_loop k y m (lpc + 1) (u32 (d + md))
      else Ok d
  end.

(** [get_ordinal_days(uint32_t y, uint32_t m, uint32_t d)]; the arguments
    are converted to [uint32_t] here. *)
Definition get_ordinal_days (y m d : Z) : result Z :=
  get_ordinal_days_loop 15 (u32 y) (u32 m) 1 (u32 d).

(** [crm_time_get_sec]: hours, minutes and seconds of a second count, all
    [uint]. *)
Definition crm_time_get_sec (sec : Z) : Z * Z * Z :=
  let seconds := if sec <? 0 then u32 (0 - sec) else u32 sec in
  let hours := seconds / (60 * 60) in
  let seconds := u32 (seconds - u32 (60 * 60 * hours)) in
  let minutes := seconds / 60 in
  let seconds := u32 (seconds - u32 (60 * minutes)) in
  (hours, minutes, seconds).

Definition crm_time_get_timeofday (dt : crm_time) : Z * Z * Z :=
  crm_time_get_sec (seconds dt).

(** ** Normalizing arithmetic *)

(** First loop of [crm_time_add_days]. *)
Fixpoint add_days_carry (fuel : nat) (years days ydays : Z) : Z * Z :=
  match fuel with
  | O => (years, days)
  | S k =>
      if ydays <? days then
        let years := years + 1 in
        let days := days - ydays in
        add_days_carry k years days (if crm_time_leapyear years then 366 else 365)
      else (years, days)
  end.

(** Second loop of [crm_time_add_days]. *)
Fixpoint add_days_borrow (fuel : nat) (years days lower_bound : Z) : Z * Z :=
  match fuel with
  | O => (years, days)
  | S k =>
      if days <? lower_bound then
        let years := years - 1 in
        add_days_borrow k years
          (days + (if crm_time_leapyear years then 366 else 365)) lower_bound
      else (years, days)
  end.

(** Rounds that the loops of [crm_time_add_days] can need from [days]. *)
Definition day_rounds (days : Z) : nat := Z.to_nat (Z.abs days / 365 + 1).

Definition crm_time_add_days (a_time : crm_time) (extra : Z) : crm_time :=
  let ydays := if crm_time_leapyear (years a_time) then 366 else 365 in
  let days0 := days a_time + extra in
  let '(y1, d1) := add_days_carry (day_rounds days0) (years a_time) days0 ydays in
  let lower_bound := if duration a_time then 0 else 1 in
  let '(y2, d2) := add_days_borrow (day_rounds d1) y1 d1 lower_bound in
  set_days (set_years a_time y2) d2.

(** First loop of [crm_time_add_seconds]. *)
Fixpoint add_seconds_carry (fuel : nat) (secs days : Z) : Z * Z :=
  match fuel with
  | O => (secs, days)
  | S k =>
      if 24 * 60 * 60 <=? secs then add_seconds_carry k (secs - 24 * 60 * 60) (days + 1)
      else (secs, days)
  end.

(** Second loop of [crm_time_add_seconds]. *)
Fixpoint add_seconds_borrow (fuel : nat) (secs days : Z) : Z * Z :=
  match fuel with
  | O => (secs, days)
  | S k =>
      if secs <? 0 then add_seconds_borrow k (secs + 24 * 60 * 60) (days - 1)
      else (secs, days)
  end.

(** Rounds that the loops of [crm_time_add_seconds] can need from [secs]. *)
Definition second_rounds (secs : Z) : nat := Z.to_nat (Z.abs secs / 86400 + 1).

Definition crm_time_add_seconds (a_time : crm_time) (extra : Z) : crm_time :=
  let secs0 := seconds a_time + extra in
  let '(s1, d1) := add_seconds_carry (second_rounds secs0) secs0 0 in
  let '(s2, d2) := add_seconds_borrow (second_rounds s1) s1 d1 in
  crm_time_add_days (set_seconds a_time s2) d2.

Definition crm_time_add_minutes (a_time : crm_time) (extra : Z) : crm_time :=
  crm_time_add_seconds a_time (extra * 60).

Definition crm_time_add_hours (a_time : crm_time) (extra : Z) : crm_time :=
  crm_time_add_seconds a_time (extra * 60 * 60).

Definition crm_time_add_weeks (a_time : crm_time) (extra : Z) : crm_time :=
  crm_time_add_days a_time (extra * 7).

Definition crm_time_add_years (a_time : crm_time) (extra : Z) : crm_time :=
  set_years a_time (years a_time + extra).

(** ** Gregorian view of the ordinal day *)

(** The loop of [crm_time_get_gregorian]; it runs for months 1 to 12. *)
Fixpoint get_gregorian_loop (fuel : nat) (year months days : Z) : result (Z * Z) :=
  match fuel with
  | O => Ok (months, days)
  | S k =>
      if (months <=? 12) && (0 <? days) then
        do mdays <- crm_time_days_in_month months year;
        if days <=? mdays then Ok (months, days)
        else get_gregorian_loop k year (months + 1) (days - mdays)
      else Ok (months, days)
  end.

(** [crm_time_get_gregorian]: the three [uint] outputs [(y, m, d)]. *)
Definition crm_time_get_gregorian (dt : crm_time) : result (Z * Z * Z) :=
  do md <-
    (if negb (years dt =? 0) then get_gregorian_loop 12 (years dt) 1 (days dt)
     else if negb (months dt =? 0) then
       (* a duration including months: the days field is not converted *)
       Ok (months dt, days dt)
     else Ok (0, days dt));
  let '(months, days) := md in
  Ok (u32 (years dt), u32 months, u32 days).

Definition crm_time_get_ordinal (dt : crm_time) : Z * Z :=
  (u32 (years dt), u32 (days dt)).

(** ** Adding months *)

(** [for (lpc = extra; lpc > 0; lpc--) { m++; if (m == 13) { m = 1; y++; } }] *)
Fixpoint months_forward (n : nat) (y m : Z) : Z * Z :=
  match n with
  | O => (y, m)
  | S k =>
      let m := u32 (m + 1) in
      if m =? 13 then months_forward k (u32 (y + 1)) 1 else months_forward k y m
  end.

(** [for (lpc = -extra; lpc > 0; lpc--) { m--; if (m == 0) { m = 12; y--; } }] *)
Fixpoint months_backward (n : nat) (y m : Z) : Z * Z :=
  match n with
  | O => (y, m)
  | S k =>
      let m := u32 (m - 1) in
      if m =? 0 then months_backward k (u32 (y - 1)) 12 else months_backward k y m
  end.

Definition crm_time_add_months (a_time : crm_time) (extra : Z) : result crm_time :=
  do ymd <- crm_time_get_gregorian a_time;
  let '(y, m, d) := ymd in
  let '(y, m) :=
    if 0 <? extra then months_forward (Z.to_nat extra) y m
    else months_backward (Z.to_nat (- extra)) y m in
  do dmax <- crm_time_days_in_month (s32 m) (s32 y);
  let dmax := u32 dmax in
  (* Preserve day-of-month unless the month doesn't have enough days *)
  let d := if dmax <? d then dmax else d in
  do od <- get_ordinal_days y m d;
  let a_time := set_days (set_years a_time (s32 y)) (s32 od) in
  do _ <- crm_time_get_gregorian a_time;
  Ok a_time.

(** ** UTC normalization, sums and differences *)

Definition crm_get_utc_time (dt : crm_time) : crm_time :=
  let utc := mk_time (years dt) 0 (days dt) (seconds dt) 0 false in
  if negb (offset dt =? 0) then crm_time_add_seconds utc (- offset dt)
  else
    (* Durations (the only things that can include months) never have a
       timezone *)
    set_months utc (months dt).

(** [crm_time_set] on a target that is not NULL; the duration flag is not
    copied. *)
Definition crm_time_set (target source : crm_time) : crm_time :=
  mk_time (years source) (months source) (days source) (seconds source)
          (offset source) (duration target).

Definition crm_time_add (dt value : option crm_time) : result (option crm_time) :=
  match dt, value with
  | Some dt, Some value =>
      let answer := crm_time_set calloc_time dt in
      let utc := crm_get_utc_time value in
      let answer := set_years answer (years answer + years utc) in
      do answer <- crm_time_add_months answer (months utc);
      let answer := crm_time_add_days answer (days utc) in
      let answer := crm_time_add_seconds answer (seconds utc) in
      Ok (Some answer)
  | _, _ => Ok None
  end.

Definition crm_time_subtract (dt value : option crm_time) : result (option crm_time) :=
  match dt, value with
  | Some dt, Some value =>
      let answer := crm_time_set calloc_time dt in
      let utc := crm_get_utc_time value in
      let answer := set_years answer (years answer - years utc) in
      do answer <-
        (if negb (months utc =? 0) then crm_time_add_months answer (- months utc)
         else Ok answer);
      let answer := crm_time_add_days answer (- days utc) in
      let answer := crm_time_add_seconds answer (- seconds utc) in
      Ok (Some answer)
  | _, _ => Ok None
  end.

Definition crm_time_calculate_duration (dt value : option crm_time)
  : result (option crm_time) :=
  match dt, value with
  | Some dt, Some value =>
      let utc := crm_get_utc_time value in
      let answer := crm_get_utc_time dt in
      let answer := set_duration answer true in
      let answer := set_years answer (years answer - years utc) in
      do answer <-
        (if negb (months utc =? 0) then crm_time_add_months answer (- months utc)
         else Ok answer);
      let answer := crm_time_add_days answer (- days utc) in
      let answer := crm_time_add_seconds answer (- seconds utc) in
      Ok (Some answer)
  | _, _ => Ok None
  end.

(** ** Validation and comparison *)

Definition crm_time_check (dt : option crm_time) : bool :=
  match dt with
  | None => false
  | Some dt =>
      let ydays := year_days (years dt) in
      if negb (0 <? days dt) then false
      else if negb (days dt <=? ydays) then false
      else if negb (0 <=? seconds dt) then false
      else if negb (seconds dt <? 24 * 60 * 60) then false
      else true
  end.

(** The macro [do_cmp_field(l, r, field)], given the two field values. *)
Definition do_cmp_field (rc l r : Z) : Z :=
  if rc =? 0 then
    if r <? l then 1 else if l <? r then -1 else rc
  else rc.

Definition crm_time_compare (a b : option crm_time) : Z :=
  match a, b with
  | None, None => 0
  | None, _ => -1
  | _, None => 1
  | Some a, Some b =>
      let rc := 0 in
      let t1 := crm_get_utc_time a in
      let t2 := crm_get_utc_time b in
      let rc := do_cmp_field rc (years t1) (years t2) in
      let rc := do_cmp_field rc (days t1) (days t2) in
      let rc := do_cmp_field rc (seconds t1) (seconds t2) in
      rc
  end.

(** ** Seconds from the origin *)

(** [for (lpc = 1; lpc < utc->years; lpc++) in_seconds += 60*60*24*year_days(lpc)] *)
Fixpoint get_seconds_loop (fuel : nat) (lpc upto in_seconds : Z) : Z :=
  match fuel with
  | O => in_seconds
  | S k =>
      if lpc <? upto then
        get_seconds_loop k (lpc + 1) upto (in_seconds + 60 * 60 * 24 * year_days lpc)
      else in_seconds
  end.

Definition crm_time_get_seconds (dt : crm_time) : Z :=
  let utc := crm_get_utc_time dt in
  let in_seconds := get_seconds_loop (Z.to_nat (years utc)) 1 (years utc) 0 in
  (* Force 30-day months so that something vaguely sane happens *)
  let in_seconds :=
    if 0 <? months utc then in_seconds + 60 * 60 * 24 * 30 * months utc
    else in_seconds in
  let in_seconds :=
    if 0 <? days utc then in_seconds + 60 * 60 * 24 * (days utc - 1)
    else in_seconds in
  in_seconds + seconds utc.

Definition EPOCH_SECONDS : Z := 62135596800.

(** The subtraction is done in [unsigned long long] and converted back. *)
Definition crm_time_get_seconds_since_epoch (dt : crm_time) : Z :=
  s64 (crm_time_get_seconds dt - EPOCH_SECONDS).

(** ** ISO week view *)

(** [crm_time_get_isoweek]: [None] when the check [dt->days > 0] fails,
    otherwise the three [uint] outputs [(y, w, d)].  Every path of the
    source assigns [*w] before it is read. *)
Definition crm_time_get_isoweek (dt : crm_time) : option (Z * Z * Z) :=
  let jan1 := crm_time_january1_weekday (years dt) in
  if negb (0 <? days dt) then None
  else
    (* 6. Find the Weekday for Y M D *)
    let h := days dt + jan1 - 1 in
    let d := u32 (1 + Z.rem (h - 1) 7) in
    (* 7. Find if Y M D falls in YearNumber Y-1, WeekNumber 52 or 53 *)
    let '(year_num, w) :=
      if (days dt <=? 8 - jan1) && (4 <? jan1)
      then (years dt - 1, u32 (crm_time_weeks_in_year (years dt - 1)))
      else (years dt, 0) in
    (* 8. Find if Y M D falls in YearNumber Y+1, WeekNumber 1 *)
    let '(year_num, w) :=
      if year_num =? years dt then
        let dmax := year_days year_num in
        let correction := s32 (4 - d) in
        if dmax - days dt <? correction then (years dt + 1, 1) else (year_num, w)
      else (year_num, w) in
    (* 9. Find if Y M D falls in YearNumber Y, WeekNumber 1 through 53 *)
    let w :=
      if year_num =? years dt then
        let j := s32 (days dt + (7 - d) + (jan1 - 1)) in
        let w := u32 (Z.quot j 7) in
        if 4 <? jan1 then u32 (w - 1) else w
      else w in
    Some (u32 year_num, w, d).

(** ** The C library as the code uses it *)

Module Libc.

Local Open Scope char_scope.

Definition NUL : ascii := Ascii.zero.

(** [isspace] in the C locale. *)
Definition isspace (c : ascii) : bool :=
  let n := N_of_ascii c in
  (N.eqb n 32 || (N.leb 9 n && N.leb n 13))%bool.

Definition isdigit (c : ascii) : bool :=
  let n := N_of_ascii c in
  (N.leb 48 n && N.leb n 57)%bool.

Definition digit_value (c : ascii) : Z := Z.of_N (N_of_ascii c) - 48.

(** [s[i]]: the characters of the string, then the terminating NUL. *)
Definition char_at (s : string) (i : nat) : result ascii :=
  match String.get i s with
  | Some c => Ok c
  | None => if (i =? String.length s)%nat then Ok NUL else Undefined
  end.

(** The first character of a string, NUL for the empty string. *)
Definition head (s : string) : ascii :=
  match s with
  | EmptyString => NUL
  | String c _ => c
  end.

(** [s + 1] for a string that is not empty. *)
Definition tail (s : string) : string :=
  match s with
  | EmptyString => EmptyString
  | String _ r => r
  end.

(** [strstr]: the suffix that starts at the first occurrence. *)
Fixpoint strstr (haystack needle : string) : option string :=
  if String.prefix needle haystack then Some haystack
  else
    match haystack with
    | EmptyString => None
    | String _ r => strstr r needle
    end.

(** *** [sscanf] for formats made of [%d], [%<width>d] and ordinary
    characters *)

Inductive directive : Type :=
| Lit (c : ascii)
| Int (width : option nat).

Fixpoint format_width (s : string) (acc : option nat) : option nat * string :=
  match s with
  | String c r =>
      if isdigit c then
        let n := Z.to_nat (digit_value c) in
        format_width r (Some (match acc with Some a => a * 10 + n | None => n end)%nat)
      else (acc, s)
  | EmptyString => (acc, s)
  end.

Fixpoint format_of_aux (fuel : nat) (s : string) : list directive :=
  match fuel with
  | O => []
  | S k =>
      match s with
      | EmptyString => []
      | String "%" r =>
          let '(w, r') := format_width r None in
          match r' with
          | String "d" r'' => Int w :: format_of_aux k r''
          | _ => []
          end
      | String c r => Lit c :: format_of_aux k r
      end
  end.

Definition format_of (s : string) : list directive :=
  format_of_aux (String.length s) s.

Fixpoint skip_space (s : string) : string :=
  match s with
  | String c r => if isspace c then skip_space r else s
  | EmptyString => s
  end.

Definition room (w : option nat) : bool :=
  match w with
  | Some O => false
  | _ => true
  end.

Definition used (w : option nat) : option nat := option_map Nat.pred w.

Fixpoint scan_digits (w : option nat) (s : string) (acc : Z) (n : nat)
  : Z * nat * string :=
  match s with
  | String c r =>
      if (isdigit c && room w)%bool
      then scan_digits (used w) r (acc * 10 + digit_value c) (S n)
      else (acc, n, s)
  | EmptyString => (acc, n, s)
  end.

Inductive scanned : Type :=
| Converted (v : Z) (rest : string)
| MatchingFailure
| InputFailure.

(** One [%d] conversion: white space is skipped, then an optional sign and
    at least one digit are read, within the field width. *)
Definition scan_int (w : option nat) (s : string) : scanned :=
  match skip_space s with
  | EmptyString => InputFailure
  | String c r as s' =>
      let '(negative, w', s'') :=
        if (room w && Ascii.eqb c "-")%bool then (true, used w, r)
        else if (room w && Ascii.eqb c "+")%bool then (false, used w, r)
        else (false, w, s') in
      let '(v, n, rest) := scan_digits w' s'' 0 0 in
      match n with
      | O => MatchingFailure
      | S _ => Converted (if negative then - v else v) rest
      end
  end.

Definition EOF : Z := -1.

Fixpoint set_nth (n : nat) (v : Z) (vars : list Z) : list Z :=
  match n, vars with
  | _, [] => []
  | O, _ :: r => v :: r
  | S k, x :: r => x :: set_nth k v r
  end.

(** [done] conversions have been stored; the [k]-th conversion goes to the
    [k]-th variable and the others keep their values. *)
Fixpoint scan (fmt : list directive) (s : string) (done : nat) (vars : list Z)
  : Z * list Z :=
  match fmt with
  | [] => (Z.of_nat done, vars)
  | Lit c :: fmt' =>
      match s with
      | EmptyString => (match done with O => EOF | _ => Z.of_nat done end, vars)
      | String c' r =>
          if Ascii.eqb c c' then scan fmt' r done vars else (Z.of_nat done, vars)
      end
  | Int w :: fmt' =>
      match scan_int w s with
      | Converted v rest => scan fmt' rest (S done) (set_nth done v vars)
      | MatchingFailure => (Z.of_nat done, vars)
      | InputFailure => (match done with O => EOF | _ => Z.of_nat done end, vars)
      end
  end.

(** [sscanf(str, format, &v0, &v1, ...)]: the return value and the
    variables afterwards. *)
Definition sscanf (str format : string) (vars : list Z) : Z * list Z :=
  scan (format_of format) str 0 vars.

(** *** [printf] conversions *)

Definition decimal (v : Z) : string := NilZero.string_of_uint (N.to_uint (Z.to_N v)).

Fixpoint repeat_char (c : ascii) (n : nat) : string :=
  match n with
  | O => EmptyString
  | S k => String c (repeat_char c k)
  end.

(** [%.<prec>u] of an unsigned value: at least [prec] digits. *)
Definition fmt_u (prec : nat) (v : Z) : string :=
  let ds := decimal v in
  (repeat_char "0" (prec - String.length ds) ++ ds)%string.

(** [%<width>d] of a signed value: padded with blanks on the left. *)
Definition fmt_d (width : nat) (v : Z) : string :=
  let ds := if (v <? 0)%Z then String "-" (decimal (- v)) else decimal v in
  (repeat_char " " (width - String.length ds) ++ ds)%string.

(** What [snprintf(buf, size, ...)] leaves in [buf] when the full output
    would be [out]. *)
Definition snprintf (size : nat) (out : string) : string :=
  String.substring 0 (size - 1) out.

End Libc.
Import Libc.

(** ** What the host supplies *)

(** The two readings of the environment: the local UTC offset in seconds
    that [GMTOFF] yields for the current time, and the value that
    [crm_time_new(NULL)] builds from the clock. *)
Record host : Type := mk_host {
  gmtoff : Z;
  now : crm_time
}.

(** ** Parser *)

(** Modelled from the spec: [safe_str_eq], a macro of crm/crm.h that is not
    among the sources; the spec has the parser recognize the literal
    "epoch". *)
Definition safe_str_eq (a b : string) : bool := String.eqb a b.

Definition crm_time_parse_sec (time_str : string) : Z :=
  let '(rc, vars) := sscanf time_str "%d:%d:%d" [0; 0; 0] in
  let '(rc, vars) :=
    if rc =? 1 then sscanf time_str "%2d%2d%2d" vars else (rc, vars) in
  let hour := u32 (nth 0 vars 0) in
  let minute := u32 (nth 1 vars 0) in
  let second := u32 (nth 2 vars 0) in
  let second :=
    if (0 <? rc) && (rc <? 4) then
      if 24 <=? hour then second
      else if 60 <=? minute then second
      else if 60 <=? second then second
      else
        let second := u32 (second + u32 (minute * 60)) in
        u32 (second + u32 (hour * 60 * 60))
    else second in
  s32 second.

Definition crm_time_parse_offset (h : host) (offset_str : option string) : Z :=
  match offset_str with
  | None =>
      let h_offset := Z.quot (gmtoff h) 3600 in
      let m_offset := Z.quot (gmtoff h - 3600 * h_offset) 60 in
      let m_offset :=
        if (h_offset <? 0) && (m_offset <? 0) then 0 - m_offset else m_offset in
      60 * 60 * h_offset + 60 * m_offset
  | Some offset_str =>
      let c := head offset_str in
      if Ascii.eqb c "Z" then 0
      else if Ascii.eqb c "+" || Ascii.eqb c "-" || isdigit c then
        let negate := Ascii.eqb c "-" in
        let offset_str := if negate then tail offset_str else offset_str in
        let offset := crm_time_parse_sec offset_str in
        if negate then 0 - offset else offset
      else 0
  end.

(** [crm_time_parse(time_str, a_time)] for a [time_str] and an [a_time]
    that are not NULL. *)
Definition crm_time_parse (h : host) (time_str : string) (a_time : crm_time)
  : crm_time :=
  let dt := set_seconds a_time (crm_time_parse_sec time_str) in
  let offset_s :=
    match strstr time_str "Z" with
    | Some s => Some s
    | None => strstr time_str " "
    end in
  let offset_s := option_map skip_space offset_s in
  set_offset dt (crm_time_parse_offset h offset_s).

(** The body of the YYYY-Www-D case of [parse_date], once the week and the
    day have passed their checks. *)
Definition week_date (dt : crm_time) (year week day : Z) : crm_time :=
  let jan1 := crm_time_january1_weekday year in
  let dt := set_years dt year in
  let dt := crm_time_add_days dt ((week - 1) * 7) in
  let dt :=
    if jan1 <=? 4 then crm_time_add_days dt (1 - jan1)
    else crm_time_add_days dt (8 - jan1) in
  crm_time_add_days dt day.

(** The three date notations of [parse_date], from the first [sscanf] to
    the label [done]; [dt] is the zeroed value. *)
Definition parse_date_notation (date_str : string) (dt : crm_time)
  : result crm_time :=
  (* YYYY-MM-DD *)
  let '(rc, vars) := sscanf date_str "%d-%d-%d" [0; 0; 0] in
  let '(rc, vars) :=
    (* YYYYMMDD *)
    if rc =? 1 then sscanf date_str "%4d%2d%2d" vars else (rc, vars) in
  let year := nth 0 vars 0 in
  let month := nth 1 vars 0 in
  let day := nth 2 vars 0 in
  if rc =? 3 then
    if 12 <? month then Ok dt
    else if 31 <? day then Ok dt
    else
      do od <- get_ordinal_days year month day;
      Ok (set_days (set_years dt year) (s32 od))
  else
    (* YYYY-DDD *)
    let '(rc, vars) := sscanf date_str "%d-%d" [year; day] in
    let year := nth 0 vars 0 in
    let day := nth 1 vars 0 in
    if rc =? 2 then
      if year_days year <? day then Ok dt
      else Ok (set_years (set_days dt day) year)
    else
      (* YYYY-Www-D *)
      let '(rc, vars) := sscanf date_str "%d-W%d-%d" [year; 0; day] in
      let year := nth 0 vars 0 in
      let week := nth 1 vars 0 in
      let day := nth 2 vars 0 in
      if rc =? 3 then
        if crm_time_weeks_in_year year <? week then Ok dt
        else if (day <? 1) || (7 <? day) then Ok dt
        else Ok (week_date dt year week day)
      else Ok dt.

(** [parse_date] for a [date_str] that is not NULL; [None] is the NULL
    result. *)
Definition parse_date (h : host) (date_str : string) : result (option crm_time) :=
  if (String.length date_str =? 0)%nat then Ok None
  else
    do time_only <-
      (if Ascii.eqb (head date_str) "T" then Ok true
       else do c <- char_at date_str 2; Ok (Ascii.eqb c ":"));
    if negb time_only && safe_str_eq "epoch" date_str then
      Ok (Some (set_years (set_days calloc_time 1) 1970))
    else
      do dt <-
        (if time_only then
           (* Just a time supplied - Infer current date *)
           Ok (crm_time_parse h date_str (now h))
         else parse_date_notation date_str calloc_time);
      let time_s :=
        match strstr date_str " " with
        | Some s => Some s
        | None => strstr date_str "T"
        end in
      let dt :=
        match time_s with
        | Some time_s => crm_time_parse h (tail time_s) dt
        | None => dt
        end in
      if crm_time_check (Some dt) then Ok (Some dt) else Ok None.

(** ** Durations *)

(** The digit loop of [parse_int] over the rest of the string; the
    denominator of a fractional digit is the source's [10 ^ lpc], an
    exclusive or. *)
Fixpoint parse_int_digits (s : string) (fraction : bool)
    (field_width lpc offset res : Z) : result (Z * Z * Z) :=
  match s with
  | String c r =>
      if (fraction || (lpc <? field_width)) && isdigit c then
        do res <-
          (if fraction then
             let den := Z.lxor 10 lpc in
             if den =? 0 then Undefined
             else Ok (res + Z.quot (digit_value c) den)
           else Ok (res * 10 + digit_value c));
        parse_int_digits r fraction field_width (lpc + 1) (offset + 1) res
      else Ok (lpc, offset, res)
  | EmptyString => Ok (lpc, offset, res)
  end.

(** [parse_int(str, field_width, uppper_bound, &result)]: the return value
    and [*result]. *)
Definition parse_int (str : string) (field_width uppper_bound : Z)
  : result (Z * Z) :=
  match str with
  | EmptyString => Ok (0, 0)
  | _ =>
      let '(str, offset) :=
        if Ascii.eqb (head str) "T" then (tail str, 1) else (str, 0) in
      let c := head str in
      let '(fraction, negate, field_width, str, offset) :=
        if Ascii.eqb c "." || Ascii.eqb c "," then
          (true, false, -1, tail str, offset + 1)
        else if Ascii.eqb c "-" then
          (false, true, field_width, tail str, offset + 1)
        else if Ascii.eqb c "+" || Ascii.eqb c ":" then
          (false, false, field_width, tail str, offset + 1)
        else (false, false, field_width, str, offset) in
      do r <- parse_int_digits str fraction field_width 0 offset 0;
      let '(lpc, offset, res) := r in
      let res :=
        if fraction then res * uppper_bound
        else if (0 <? uppper_bound) && (uppper_bound <? res) then uppper_bound
        else res in
      let res := if negate then 0 - res else res in
      if 0 <? lpc then Ok (offset, res) else Ok (0, res)
  end.

(** [period_s += n], for [n] characters that the string has. *)
Fixpoint advance (n : nat) (s : string) : string :=
  match n, s with
  | S k, String _ r => advance k r
  | _, _ => s
  end.

(** The [while] loop of [crm_time_parse_duration]; every round that does
    not leave the loop moves [period_s] forward. *)
Fixpoint parse_duration_loop (fuel : nat) (period_s : string) (is_time : bool)
    (diff : crm_time) : result (option crm_time) :=
  match fuel with
  | O => Undefined
  | S k =>
      if isspace (head period_s) then Ok (Some diff)
      else
        let '(is_time, period_s) :=
          if Ascii.eqb (head period_s) "T" then (true, tail period_s)
          else (is_time, period_s) in
        do r <- parse_int period_s 10 0;
        let '(rc, an_int) := r in
        if rc =? 0 then Ok (Some diff)
        else
          let period_s := advance (Z.to_nat rc) period_s in
          let ch := head period_s in
          let period_s := tail period_s in
          if Ascii.eqb ch NUL then Ok (Some diff)
          else if Ascii.eqb ch "Y" then
            parse_duration_loop k period_s is_time (set_years diff an_int)
          else if Ascii.eqb ch "M" then
            if is_time then
              (* Minutes *)
              parse_duration_loop k period_s is_time
                (set_seconds diff (seconds diff + an_int * 60))
            else parse_duration_loop k period_s is_time (set_months diff an_int)
          else if Ascii.eqb ch "W" then
            parse_duration_loop k period_s is_time
              (set_days diff (days diff + an_int * 7))
          else if Ascii.eqb ch "D" then
            parse_duration_loop k period_s is_time
              (set_days diff (days diff + an_int))
          else if Ascii.eqb ch "H" then
            parse_duration_loop k period_s is_time
              (set_seconds diff (seconds diff + an_int * 60 * 60))
          else if Ascii.eqb ch "S" then
            parse_duration_loop k period_s is_time
              (set_seconds diff (seconds diff + an_int))
          else Ok None
  end.

(** [crm_time_parse_duration] for a [period_s] that is not NULL. *)
Definition crm_time_parse_duration (period_s : string) : result (option crm_time) :=
  if (String.length period_s =? 0)%nat then Ok None
  else if negb (Ascii.eqb (head period_s) "P") then Ok None
  else
    let period_s := tail period_s in
    parse_duration_loop (S (String.length period_s)) period_s false calloc_time.

(** ** Formatter *)

(** Modelled from the spec: the flag constants of crm/common/iso8601.h, a
    header that is not among the sources; the spec's flag set has one bit
    per flag. *)
Definition crm_time_log_date : Z := 1.
Definition crm_time_log_timeofday : Z := 2.
Definition crm_time_log_with_timezone : Z := 4.
Definition crm_time_log_duration : Z := 8.
Definition crm_time_ordinal : Z := 16.
Definition crm_time_weeks : Z := 32.
Definition crm_time_seconds : Z := 64.
Definition crm_time_epoch : Z := 128.

(** [flags & flag] as a condition. *)
Definition has_flag (flags flag : Z) : bool := negb (Z.land flags flag =? 0).

Definition DATE_MAX : nat := 128.

(** ["s"] when [n > 1]. *)
Definition plural (n : Z) : string := if 1 <? n then "s" else "".

(** One [offset += snprintf(date_s + offset, DATE_MAX - offset, ...)]: the
    buffer and [offset] afterwards. *)
Definition append_field (buf : string * nat) (out : string) : string * nat :=
  let '(date_s, offset) := buf in
  ((date_s ++ snprintf (DATE_MAX - offset) out)%string,
   (offset + String.length out)%nat).

(** The duration form of [crm_time_as_string]. *)
Definition duration_string (dt : crm_time) : string :=
  let '(h, m, s) := crm_time_get_sec (seconds dt) in
  let buf := (EmptyString, O) in
  let buf :=
    if negb (years dt =? 0)
    then append_field buf (fmt_d 4 (years dt) ++ " year" ++ plural (years dt) ++ " ")
    else buf in
  let buf :=
    if negb (months dt =? 0)
    then append_field buf (fmt_d 2 (months dt) ++ " month" ++ plural (months dt) ++ " ")
    else buf in
  let buf :=
    if negb (days dt =? 0)
    then append_field buf (fmt_d 2 (days dt) ++ " day" ++ plural (days dt) ++ " ")
    else buf in
  let buf :=
    if negb (seconds dt =? 0) then
      let buf := append_field buf (fmt_d 0 (seconds dt) ++ " seconds ( ") in
      let buf :=
        if negb (h =? 0) then append_field buf (fmt_u 0 h ++ " hour" ++ plural h ++ " ")
        else buf in
      let buf :=
        if negb (m =? 0) then append_field buf (fmt_u 0 m ++ " minute" ++ plural m ++ " ")
        else buf in
      let buf :=
        if negb (s =? 0) then append_field buf (fmt_u 0 s ++ " second" ++ plural s ++ " ")
        else buf in
      append_field buf ")"
    else buf in
  fst buf.

(** The date form of [crm_time_as_string]: [date_s] and whether the code
    jumps to [done] past the time of day. *)
Definition date_string (date_time dt : crm_time) (flags : Z)
  : result (string * bool) :=
  if has_flag flags crm_time_seconds then
    Ok (snprintf 32 (fmt_d 0 (crm_time_get_seconds date_time)), true)
  else if has_flag flags crm_time_epoch then
    Ok (snprintf 32 (fmt_d 0 (crm_time_get_seconds_since_epoch date_time)), true)
  else if has_flag flags crm_time_weeks then
    (* YYYY-Www-D *)
    match crm_time_get_isoweek dt with
    | Some (y, w, d) =>
        Ok (snprintf 34 (fmt_u 0 y ++ "-W" ++ fmt_u 2 w ++ "-" ++ fmt_u 0 d), false)
    | None => Ok (EmptyString, false)
    end
  else if has_flag flags crm_time_ordinal then
    (* YYYY-DDD *)
    let '(y, d) := crm_time_get_ordinal dt in
    Ok (snprintf 22 (fmt_u 0 y ++ "-" ++ fmt_u 3 d), false)
  else
    (* YYYY-MM-DD *)
    do ymd <- crm_time_get_gregorian dt;
    let '(y, m, d) := ymd in
    Ok (snprintf 33 (fmt_u 4 y ++ "-" ++ fmt_u 2 m ++ "-" ++ fmt_u 2 d), false).

(** The time-of-day form of [crm_time_as_string]: [time_s] and
    [offset_s]. *)
Definition time_string (dt : crm_time) (flags : Z) : string * string :=
  let '(h, m, s) := crm_time_get_timeofday dt in
  let time_s := snprintf 33 (fmt_u 2 h ++ ":" ++ fmt_u 2 m ++ ":" ++ fmt_u 2 s) in
  let '(h, m, s) :=
    if negb (offset dt =? 0) then crm_time_get_sec (offset dt) else (h, m, s) in
  let offset_s :=
    if negb (has_flag flags crm_time_log_with_timezone) || (offset dt =? 0)
    then snprintf 31 "Z"
    else snprintf 24 (" " ++ (if offset dt <? 0 then "-" else "+")
                        ++ fmt_u 2 h ++ ":" ++ fmt_u 2 m) in
  (time_s, offset_s).

(** The label [done]: the three parts, NULL ([None]) when not produced. *)
Definition compose (date_s time_s offset_s : option string) : string :=
  let part (p : option string) := match p with Some s => s | None => EmptyString end in
  snprintf 100
    (part date_s
     ++ (match date_s, time_s with Some _, Some _ => " " | _, _ => "" end)
     ++ part time_s ++ part offset_s).

(** [crm_time_as_string]; [None] is the NULL result. *)
Definition crm_time_as_string (date_time : option crm_time) (flags : Z)
  : result (option string) :=
  match date_time with
  | None => Ok (Some EmptyString)
  | Some date_time =>
      let dt :=
        if negb (offset date_time =? 0)
           && negb (has_flag flags crm_time_log_with_timezone)
        then Some (crm_get_utc_time date_time)
        else Some date_time in
      match dt with
      | None => Ok None
      | Some dt =>
          if has_flag flags crm_time_log_duration then
            Ok (Some (compose (Some (duration_string dt)) None None))
          else
            do ds <-
              (if has_flag flags crm_time_log_date then
                 do r <- date_string date_time dt flags;
                 let '(s, stop) := r in Ok (Some s, stop)
               else Ok (None, false));
            let '(date_s, stop) := ds in
            if stop then Ok (Some (compose date_s None None))
            else if has_flag flags crm_time_log_timeofday then
              let '(time_s, offset_s) := time_string dt flags in
              Ok (Some (compose date_s (Some time_s) (Some offset_s)))
            else Ok (Some (compose date_s None None))
      end
  end.

(** ** Notions used by the statements *)

(** Days from 0001-01-01 to January 1 of [y] in the proleptic Gregorian
    calendar, for every integer [y]. *)
Definition days_before_year (y : Z) : Z :=
  365 * (y - 1) + (y - 1) / 4 - (y - 1) / 100 + (y - 1) / 400.

(** The day number of ordinal day [d] of year [y]. *)
Definition day_number (y d : Z) : Z := days_before_year y + d.

(** The date part of a value is in range. *)
Definition valid_date (t : crm_time) : Prop :=
  1 <= days t <= year_days (years t).

(** The conversion of an ISO week date as the specification words it:
    start at January 1 of the year, then the same three additions as
    [week_date]. *)
Definition spec_week_date (year week day : Z) : crm_time :=
  let jan1 := crm_time_january1_weekday year in
  let dt := set_days (set_years calloc_time year) 1 in
  let dt := crm_time_add_days dt ((week - 1) * 7) in
  let dt :=
    if jan1 <=? 4 then crm_time_add_days dt (1 - jan1)
    else crm_time_add_days dt (8 - jan1) in
  crm_time_add_days dt day.

(** The integers [lo, lo + 1, ..., lo + n - 1]. *)
Definition Zrange (lo : Z) (n : nat) : list Z :=
  map (fun k => lo + Z.of_nat k) (seq 0 n).

(** A year of each kind that is its own [int] image: 2000 is a leap year,
    2001 is not. *)
Definition sample_year (leap : bool) : Z := if leap then 2000 else 2001.

(** Ordinal day [d] of year [y] has a Gregorian form [(m, dd)] with a month
    between 1 and 12 and a day of that month, and [get_ordinal_days] takes
    the form back to [d]. *)
Definition check_gregorian (y d : Z) : bool :=
  match get_gregorian_loop 12 y 1 d with
  | Ok (m, dd) =>
      (1 <=? m) && (m <=? 12) && (1 <=? dd)
      && match crm_time_days_in_month m y with
         | Ok x => dd <=? x
         | Undefined => false
         end
      && match get_ordinal_days y m dd with
         | Ok od => od =? d
         | Undefined => false
         end
  | Undefined => false
  end.

(** Day [dd] of month [m], clamped to the length of the month in year [y],
    has an ordinal day within the year whose Gregorian form is month [m]
    and the clamped day. *)
Definition check_ordinal (y m dd : Z) : bool :=
  match crm_time_days_in_month m y with
  | Ok x =>
      let dd := if u32 x <? dd then u32 x else dd in
      match get_ordinal_days y m dd with
      | Ok od =>
          (1 <=? od) && (od <=? year_days y)
          && match get_gregorian_loop 12 y 1 od with
             | Ok (m', d') => (m' =? m) && (d' =? dd)
             | Undefined => false
             end
      | Undefined => false
      end
  | Undefined => false
  end.

(** The two checks over both kinds of year, every day of the year, and
    every month with every day number from 1 to 31. *)
Definition check_calendar : bool :=
  forallb (fun leap =>
    let y := sample_year leap in
    forallb (check_gregorian y) (Zrange 1 (Z.to_nat (year_days y)))
    && forallb (fun m => forallb (check_ordinal y m) (Zrange 1 31)) (Zrange 1 12))
    [true; false].

(** The sign of the lexicographic order of two triples (years, days,
    seconds). *)
Definition sign_of_order (l r : Z * Z * Z) : Z :=
  let '(y1, d1, s1) := l in
  let '(y2, d2, s2) := r in
  if y1 <? y2 then -1 else if y2 <? y1 then 1
  else if d1 <? d2 then -1 else if d2 <? d1 then 1
  else if s1 <? s2 then -1 else if s2 <? s1 then 1
  else 0.

(** The triple (years, days, seconds) of the UTC form of a value. *)
Definition utc_triple (t : crm_time) : Z * Z * Z :=
  let utc := crm_get_utc_time t in
  (years utc, days utc, seconds utc).

(** The form Gregorian date, time of day and timezone of the formatter. *)
Definition gregorian_timeofday_timezone : Z :=
  Z.lor crm_time_log_date (Z.lor crm_time_log_timeofday crm_time_log_with_timezone).

(** ** Moments *)

(** The moment of a value counted in seconds from 0001-01-01 00:00:00 UTC,
    shifted by a day: the seconds of its day number and of its time of
    day, less its offset. *)
Definition utc_seconds (t : crm_time) : Z :=
  86400 * day_number (years t) (days t) + seconds t - offset t.

(** ** Periods *)

(** [crm_time_period_t]: the three pointers. *)
Record crm_time_period : Type := mk_period {
  period_start : option crm_time;
  period_end : option crm_time;
  period_diff : option crm_time
}.

(** One side of a period string: a duration when it begins with "P", a
    date otherwise; the pointer that is set and its value. *)
Definition parse_period_side (h : host) (period_str : string)
  : result (bool * option crm_time) :=
  if Ascii.eqb (head period_str) "P" then
    do d <- crm_time_parse_duration period_str; Ok (true, d)
  else
    do d <- parse_date h period_str; Ok (false, d).

(** [crm_time_parse_period] for a [period_str] that is not NULL; [None] is
    the NULL result. *)
Definition crm_time_parse_period (h : host) (period_str : string)
  : result (option crm_time_period) :=
  if (String.length period_str =? 0)%nat then Ok None
  else
    let original := period_str in
    do first <- parse_period_side h period_str;
    let '(is_diff, v) := first in
    let period :=
      if is_diff then mk_period None None v else mk_period v None None in
    do r <-
      match strstr original "/" with
      | Some period_str =>
          let period_str := tail period_str in
          do second <- parse_period_side h period_str;
          let '(is_diff, v) := second in
          if is_diff
          then Ok (mk_period (period_start period) (period_end period) v, false)
          else Ok (mk_period (period_start period) v (period_diff period), false)
      | None =>
          match period_diff period with
          | Some _ =>
              (* just a duration starting from now *)
              Ok (mk_period (Some (now h)) (period_end period) (period_diff period), false)
          | None => Ok (period, true)
          end
      end;
    let '(period, invalid) := r in
    (* sanity checks *)
    let invalid :=
      if invalid then true
      else
        match period_start period, period_end period, period_diff period with
        | None, None, _ => true
        | None, _, None => true
        | _, None, None => true
        | _, _, _ => false
        end in
    if invalid then Ok None
    else
      match period_start period, period_end period with
      | None, _ =>
          do s <- crm_time_subtract (period_end period) (period_diff period);
          Ok (Some (mk_period s (period_end period) (period_diff period)))
      | Some _, None =>
          do e <- crm_time_add (period_start period) (period_diff period);
          Ok (Some (mk_period (period_start period) e (period_diff period)))
      | Some _, Some _ => Ok (Some period)
      end.

(** ** Values from the clock *)

(** The fields of [struct tm] that [ha_set_tm_time] reads; [tm_gmtoff]
    stands for what [GMTOFF] yields. *)
Record tm : Type := mk_tm {
  tm_year : Z;
  tm_yday : Z;
  tm_hour : Z;
  tm_min : Z;
  tm_sec : Z;
  tm_gmtoff : Z
}.

Definition ha_set_tm_time (source : tm) : crm_time :=
  (* Ensure target is fully initialized *)
  let years := 0 in
  let days := 0 in
  let seconds := 0 in
  let offset := 0 in
  (* years since 1900 *)
  let years := if 0 <? tm_year source then 1900 + tm_year source else years in
  (* days since January 1 [0-365] *)
  let days := if 0 <=? tm_yday source then 1 + tm_yday source else days in
  let seconds := if 0 <=? tm_hour source then seconds + 60 * 60 * tm_hour source else seconds in
  let seconds := if 0 <=? tm_min source then seconds + 60 * tm_min source else seconds in
  let seconds := if 0 <=? tm_sec source then seconds + tm_sec source else seconds in
  (* tm_gmtoff == offset from UTC in seconds *)
  let h_offset := Z.quot (tm_gmtoff source) 3600 in
  let m_offset := Z.quot (tm_gmtoff source - 3600 * h_offset) 60 in
  let offset := offset + 60 * 60 * h_offset in
  let offset := offset + 60 * m_offset in
  mk_time years 0 days seconds offset false.

(** ** The timezone view *)

(** [crm_time_get_timezone]: the two [uint] outputs [(h, m)]. *)
Definition crm_time_get_timezone (dt : crm_time) : Z * Z :=
  let '(h, m, s) := crm_time_get_sec (seconds dt) in
  (h, m).

(** ** Week years *)

(** The day number of the Monday that begins ISO week 1 of year [y]: the
    week of January 1 when that day is a Monday to a Thursday, the week
    after it otherwise. *)
Definition iso_week1_monday (y : Z) : Z :=
  let jan1 := crm_time_january1_weekday y in
  day_number y 1 + (if jan1 <=? 4 then 1 - jan1 else 8 - jan1).

(** ** Decimal strings *)

(** Every character of the string is a decimal digit. *)
Fixpoint all_digits (s : string) : bool :=
  match s with
  | EmptyString => true
  | String c r => isdigit c && all_digits r
  end.

(** The number that the digits of [s] denote, after the digits [acc]. *)
Fixpoint digits_value (s : string) (acc : Z) : Z :=
  match s with
  | EmptyString => acc
  | String c r => digits_value r (acc * 10 + digit_value c)
  end.

(** The character [c] does not occur in [s]. *)
Fixpoint lacks (c : ascii) (s : string) : bool :=
  match s with
  | EmptyString => true
  | String c' r => negb (Ascii.eqb c c') && lacks c r
  end.

(** [f] holds of the [n] integers from [lo] on. *)
Fixpoint forall_from (f : Z -> bool) (lo : Z) (n : nat) : bool :=
  match n with
  | O => true
  | S k => f lo && forall_from f (lo + 1) k
  end.

(** [%.<prec>u] of [v] is [prec] digits that denote [v]. *)
Definition check_fmt_u (prec : nat) (v : Z) : bool :=
  let s := fmt_u prec v in
  all_digits s && (String.length s =? prec)%nat && (digits_value s 0 =? v).

(** [%u] of [v] is one to four digits that denote [v]. *)
Definition check_decimal (v : Z) : bool :=
  let s := fmt_u 0 v in
  all_digits s && (1 <=? String.length s)%nat && (String.length s <=? 4)%nat
  && (digits_value s 0 =? v).

(** The three ways in which the formatter writes an offset [o] of whole
    minutes: "Z", " +hh:mm" and " -hh:mm". *)
Definition offset_text (o : Z) (off : string) : Prop :=
  (off = "Z"%string /\ o = 0) \/
  (exists oh om, 0 <= oh < 24 /\ 0 <= om < 60 /\
     ((off = String " " (String "+" (fmt_u 2 oh ++ String ":" (fmt_u 2 om)))
       /\ o = 3600 * oh + 60 * om) \/
      (off = String " " (String "-" (fmt_u 2 oh ++ String ":" (fmt_u 2 om)))
       /\ o = 0 - (3600 * oh + 60 * om)))).

(** * Properties *)

(** Goals about [/] and [mod] with literal divisors. *)
Ltac euclid := Z.to_euclidean_division_equations; lia.

(** ** C integers *)

Lemma s32_u32 (z : Z) : s32 (u32 z) = s32 z.
Proof. unfold s32, u32. rewrite Z.mod_mod by lia. reflexivity. Qed.

Lemma u32_u32 (z : Z) : u32 (u32 z) = u32 z.
Proof. unfold u32. rewrite Z.mod_mod by lia. reflexivity. Qed.

Lemma u32_small (z : Z) : 0 <= z < 4294967296 -> u32 z = z.
Proof. intros H. unfold u32. apply Z.mod_small. exact H. Qed.

Lemma s32_in_int (z : Z) : in_int z -> s32 z = z.
Proof.
  unfold in_int, INT_MIN, INT_MAX, s32. intros H.
  destruct (Z.ltb_spec (z mod 4294967296) 2147483648);
    euclid.
Qed.

Lemma s32_u32_add (a b : Z) : s32 (u32 a + b) = s32 (a + b).
Proof.
  unfold s32, u32. rewrite Zplus_mod_idemp_l. reflexivity.
Qed.

Lemma u32_add_l (a b : Z) : u32 (u32 a + b) = u32 (a + b).
Proof. unfold u32. rewrite Zplus_mod_idemp_l. reflexivity. Qed.

Lemma s32_s32 (z : Z) : s32 (s32 z) = s32 z.
Proof.
  unfold s32. destruct (Z.ltb_spec (z mod 4294967296) 2147483648).
  - rewrite Z.mod_mod by lia. destruct (Z.ltb_spec (z mod 4294967296) 2147483648); lia.
  - replace ((z mod 4294967296 - 4294967296) mod 4294967296) with (z mod 4294967296)
      by (euclid).
    destruct (Z.ltb_spec (z mod 4294967296) 2147483648); lia.
Qed.

(** ** Leap years and day numbers *)

Lemma leapyear_divides (y : Z) :
  crm_time_leapyear y = (y mod 4 =? 0) && negb ((y mod 100 =? 0) && negb (y mod 400 =? 0)).
Proof.
  unfold crm_time_leapyear.
  assert (H4 : (Z.rem y 4 =? 0) = (y mod 4 =? 0)).
  { apply Bool.eq_true_iff_eq. rewrite !Z.eqb_eq. 
    rewrite Z.rem_divide, Z.mod_divide by lia. tauto. }
  assert (H100 : (Z.rem y 100 =? 0) = (y mod 100 =? 0)).
  { apply Bool.eq_true_iff_eq. rewrite !Z.eqb_eq. 
    rewrite Z.rem_divide, Z.mod_divide by lia. tauto. }
  assert (H400 : (Z.rem y 400 =? 0) = (y mod 400 =? 0)).
  { apply Bool.eq_true_iff_eq. rewrite !Z.eqb_eq. 
    rewrite Z.rem_divide, Z.mod_divide by lia. tauto. }
  rewrite H4, H100, H400.
  destruct (y mod 4 =? 0), (y mod 100 =? 0), (y mod 400 =? 0); reflexivity.
Qed.

Lemma year_days_cases (y : Z) : year_days y = 365 \/ year_days y = 366.
Proof. unfold year_days. destruct (crm_time_leapyear y); lia. Qed.

Lemma days_before_year_succ (y : Z) :
  days_before_year (y + 1) = days_before_year y + year_days y.
Proof.
  unfold days_before_year, year_days. rewrite leapyear_divides.
  replace (y + 1 - 1) with y by lia.
  destruct (Z.eqb_spec (y mod 4) 0), (Z.eqb_spec (y mod 100) 0), (Z.eqb_spec (y mod 400) 0);
    cbn [andb negb]; euclid.
Qed.

Lemma days_before_year_mono (a b : Z) :
  a <= b -> days_before_year a <= days_before_year b.
Proof.
  unfold days_before_year. intros H.
  Z.to_euclidean_division_equations. lia.
Qed.

Lemma leap_length_year_days (y : Z) : (if crm_time_leapyear y then 366 else 365) = year_days y.
Proof. unfold year_days. destruct (crm_time_leapyear y); reflexivity. Qed.

Lemma day_number_inj (y1 d1 y2 d2 : Z) :
  1 <= d1 <= year_days y1 -> 1 <= d2 <= year_days y2 ->
  day_number y1 d1 = day_number y2 d2 -> y1 = y2 /\ d1 = d2.
Proof.
  unfold day_number. intros H1 H2 E.
  assert (y1 = y2).
  { destruct (Z.lt_trichotomy y1 y2) as [L | [L | L]]; [exfalso | exact L | exfalso].
    - pose proof (days_before_year_mono (y1 + 1) y2 ltac:(lia)) as M.
      rewrite days_before_year_succ in M. lia.
    - pose proof (days_before_year_mono (y2 + 1) y1 ltac:(lia)) as M.
      rewrite days_before_year_succ in M. lia. }
  subst. split; [reflexivity | lia].
Qed.

(** ** Carrying days and seconds *)

Lemma add_days_carry_spec (fuel : nat) :
  forall y d,
    d <= 365 * (Z.of_nat fuel + 1) ->
    let r := add_days_carry fuel y d (if crm_time_leapyear y then 366 else 365) in
    snd r <= year_days (fst r) /\
    day_number (fst r) (snd r) = day_number y d /\
    (1 <= d -> 1 <= snd r).
Proof.
  induction fuel as [| k IH]; intros y d Hd; cbn [add_days_carry].
  - cbn [fst snd]. pose proof (year_days_cases y). repeat split; lia.
  - rewrite leap_length_year_days. destruct (Z.ltb_spec (year_days y) d) as [L | L].
    + pose proof (year_days_cases y) as C.
      destruct (IH (y + 1) (d - year_days y) ltac:(lia)) as (A & B & D).
      cbv zeta. repeat split.
      * exact A.
      * rewrite B. unfold day_number. rewrite days_before_year_succ. lia.
      * intros _. apply D. lia.
    + cbn [fst snd]. repeat split; lia.
Qed.

Lemma add_days_borrow_spec (fuel : nat) :
  forall y d lb,
    lb <= 1 -> lb - 365 * Z.of_nat fuel <= d -> d <= year_days y ->
    let r := add_days_borrow fuel y d lb in
    lb <= snd r <= year_days (fst r) /\
    day_number (fst r) (snd r) = day_number y d.
Proof.
  induction fuel as [| k IH]; intros y d lb Hlb Hd Hy; cbn [add_days_borrow].
  - cbn [fst snd]. repeat split; lia.
  - destruct (Z.ltb_spec d lb) as [L | L].
    + rewrite leap_length_year_days. pose proof (year_days_cases (y - 1)) as C.
      destruct (IH (y - 1) (d + year_days (y - 1)) lb Hlb ltac:(lia) ltac:(lia)) as (A & B).
      cbv zeta. split; [exact A |].
      rewrite B. unfold day_number.
      pose proof (days_before_year_succ (y - 1)) as S. replace (y - 1 + 1) with y in S by lia.
      lia.
    + cbn [fst snd]. repeat split; lia.
Qed.

Lemma day_rounds_enough (d : Z) : Z.abs d < 365 * Z.of_nat (day_rounds d).
Proof.
  unfold day_rounds. rewrite Z2Nat.id by (euclid).
  euclid.
Qed.

(** What [crm_time_add_days] does: both loops come to their exit
    conditions within the rounds they are given, and the day number moves
    by [n]. *)
Lemma crm_time_add_days_spec (a : crm_time) (n : Z) :
  let r := crm_time_add_days a n in
  (if duration a then 0 else 1) <= days r <= year_days (years r) /\
  day_number (years r) (days r) = day_number (years a) (days a) + n /\
  seconds r = seconds a /\ offset r = offset a /\ months r = months a /\
  duration r = duration a.
Proof.
  unfold crm_time_add_days.
  pose proof (add_days_carry_spec (day_rounds (days a + n)) (years a) (days a + n)) as C.
  pose proof (day_rounds_enough (days a + n)) as E.
  specialize (C ltac:(lia)). cbv zeta in C.
  destruct (add_days_carry _ _ _ _) as [y1 d1]. cbn [fst snd] in C.
  destruct C as (C1 & C2 & _).
  set (lb := if duration a then 0 else 1).
  assert (Hlb : lb <= 1) by (unfold lb; destruct (duration a); lia).
  assert (Hlb0 : 0 <= lb) by (unfold lb; destruct (duration a); lia).
  pose proof (add_days_borrow_spec (day_rounds d1) y1 d1 lb) as B.
  pose proof (day_rounds_enough d1) as E1.
  specialize (B Hlb ltac:(lia) C1). cbv zeta in B.
  destruct (add_days_borrow _ _ _ _) as [y2 d2]. cbn [fst snd] in B.
  destruct B as (B1 & B2).
  cbn. repeat split; try lia.
  rewrite B2, C2. unfold day_number. lia.
Qed.

(** [crm_time_add_days] on a value whose duration flag is clear. *)
Lemma crm_time_add_days_instant (a : crm_time) (n : Z) :
  duration a = false ->
  let r := crm_time_add_days a n in
  valid_date r /\
  day_number (years r) (days r) = day_number (years a) (days a) + n /\
  seconds r = seconds a /\ offset r = offset a /\ months r = months a /\
  duration r = false.
Proof.
  intros Hd. pose proof (crm_time_add_days_spec a n) as S. cbv zeta in *.
  rewrite Hd in S. destruct S as (V & N & S & O & M & D).
  unfold valid_date. repeat split; try assumption; lia.
Qed.

Lemma add_seconds_carry_spec (fuel : nat) :
  forall s d,
    s < 86400 * (Z.of_nat fuel + 1) ->
    let r := add_seconds_carry fuel s d in
    fst r < 86400 /\ fst r + 86400 * snd r = s + 86400 * d /\ (0 <= s -> 0 <= fst r).
Proof.
  induction fuel as [| k IH]; intros s d Hs; cbn [add_seconds_carry].
  - cbn [fst snd]. repeat split; lia.
  - change (24 * 60 * 60) with 86400.
    destruct (Z.leb_spec 86400 s) as [L | L].
    + destruct (IH (s - 86400) (d + 1) ltac:(lia)) as (A & B & C).
      cbv zeta. repeat split; [exact A | lia | intros _; apply C; lia].
    + cbn [fst snd]. repeat split; lia.
Qed.

Lemma add_seconds_borrow_spec (fuel : nat) :
  forall s d,
    - 86400 * Z.of_nat fuel <= s -> s < 86400 ->
    let r := add_seconds_borrow fuel s d in
    0 <= fst r < 86400 /\ fst r + 86400 * snd r = s + 86400 * d.
Proof.
  induction fuel as [| k IH]; intros s d Hs Hu; cbn [add_seconds_borrow].
  - cbn [fst snd]. repeat split; lia.
  - change (24 * 60 * 60) with 86400.
    destruct (Z.ltb_spec s 0) as [L | L].
    + destruct (IH (s + 86400) (d - 1) ltac:(lia) ltac:(lia)) as (A & B).
      cbv zeta. split; [exact A | lia].
    + cbn [fst snd]. repeat split; lia.
Qed.

Lemma second_rounds_enough (s : Z) : Z.abs s < 86400 * Z.of_nat (second_rounds s).
Proof.
  unfold second_rounds. rewrite Z2Nat.id by (euclid).
  euclid.
Qed.

(** What [crm_time_add_seconds] does: the second of the day is normalized
    and the whole days are carried into the date. *)
Lemma crm_time_add_seconds_spec (a : crm_time) (n : Z) :
  let r := crm_time_add_seconds a n in
  (if duration a then 0 else 1) <= days r <= year_days (years r) /\
  0 <= seconds r < 86400 /\
  86400 * day_number (years r) (days r) + seconds r
    = 86400 * day_number (years a) (days a) + seconds a + n /\
  offset r = offset a /\ months r = months a /\ duration r = duration a.
Proof.
  unfold crm_time_add_seconds.
  pose proof (add_seconds_carry_spec (second_rounds (seconds a + n)) (seconds a + n) 0) as C.
  pose proof (second_rounds_enough (seconds a + n)) as E.
  specialize (C ltac:(lia)). cbv zeta in C.
  destruct (add_seconds_carry _ _ _) as [s1 d1]. cbn [fst snd] in C.
  destruct C as (C1 & C2 & _).
  pose proof (add_seconds_borrow_spec (second_rounds s1) s1 d1) as B.
  pose proof (second_rounds_enough s1) as E1.
  specialize (B ltac:(lia) C1). cbv zeta in B.
  destruct (add_seconds_borrow _ _ _) as [s2 d2]. cbn [fst snd] in B.
  destruct B as (B1 & B2).
  pose proof (crm_time_add_days_spec (set_seconds a s2) d2) as D.
  cbv zeta in D. cbn [set_seconds years days seconds offset months duration] in D.
  destruct D as (D1 & D2 & D3 & D4 & D5 & D6).
  split; [exact D1 |]. repeat split; try assumption; lia.
Qed.

(** [crm_time_add_seconds] on a value whose duration flag is clear. *)
Lemma crm_time_add_seconds_instant (a : crm_time) (n : Z) :
  duration a = false ->
  let r := crm_time_add_seconds a n in
  valid_date r /\ 0 <= seconds r < 86400 /\
  86400 * day_number (years r) (days r) + seconds r
    = 86400 * day_number (years a) (days a) + seconds a + n /\
  offset r = offset a /\ months r = months a /\ duration r = false.
Proof.
  intros Hd. pose proof (crm_time_add_seconds_spec a n) as S. cbv zeta in *.
  rewrite Hd in S. destruct S as (V & R & N & O & M & D).
  unfold valid_date. repeat split; try assumption; lia.
Qed.

(** ** The calendar tables *)

Lemma In_Zrange (lo : Z) (n : nat) (z : Z) :
  lo <= z < lo + Z.of_nat n -> In z (Zrange lo n).
Proof.
  intros H. unfold Zrange. apply in_map_iff.
  exists (Z.to_nat (z - lo)). split; [lia | apply in_seq; lia].
Qed.

Lemma leapyear_sample_year (b : bool) : crm_time_leapyear (sample_year b) = b.
Proof. destruct b; reflexivity. Qed.

(** The calendar functions see a year only through its kind, leap or
    common. *)
Section SameKind.

Variables y1 y2 : Z.
Hypothesis same_kind : crm_time_leapyear y1 = crm_time_leapyear y2.

Lemma days_in_month_leap (m : Z) :
  crm_time_days_in_month m y1 = crm_time_days_in_month m y2.
Proof. unfold crm_time_days_in_month. rewrite same_kind. reflexivity. Qed.

Lemma year_days_leap : year_days y1 = year_days y2.
Proof. unfold year_days. rewrite same_kind. reflexivity. Qed.

Lemma get_gregorian_loop_leap (fuel : nat) :
  forall m d, get_gregorian_loop fuel y1 m d = get_gregorian_loop fuel y2 m d.
Proof.
  induction fuel as [| k IH]; intros m d; cbn [get_gregorian_loop].
  - reflexivity.
  - rewrite (days_in_month_leap m).
    destruct ((m <=? 12) && (0 <? d)); [| reflexivity].
    destruct (crm_time_days_in_month m y2) as [x |]; cbn [bind]; [| reflexivity].
    destruct (d <=? x); [reflexivity | apply IH].
Qed.

End SameKind.

Lemma get_ordinal_days_loop_leap (y1 y2 : Z) :
  crm_time_leapyear (s32 y1) = crm_time_leapyear (s32 y2) ->
  forall fuel m lpc d,
    get_ordinal_days_loop fuel y1 m lpc d = get_ordinal_days_loop fuel y2 m lpc d.
Proof.
  intros E. induction fuel as [| k IH]; intros m lpc d; cbn [get_ordinal_days_loop].
  - reflexivity.
  - rewrite (days_in_month_leap _ _ E lpc).
    destruct (u32 lpc <? m); [| reflexivity].
    destruct (crm_time_days_in_month lpc (s32 y2)) as [x |]; cbn [bind];
      [apply IH | reflexivity].
Qed.

Lemma get_ordinal_days_leap (y1 y2 m d : Z) :
  crm_time_leapyear (s32 y1) = crm_time_leapyear (s32 y2) ->
  get_ordinal_days y1 m d = get_ordinal_days y2 m d.
Proof.
  intros E. unfold get_ordinal_days. apply get_ordinal_days_loop_leap.
  rewrite !s32_u32. exact E.
Qed.

Lemma check_calendar_holds : check_calendar = true.
Proof. vm_compute. reflexivity. Qed.

(** The Gregorian form of a day of the year [y]. *)
Lemma gregorian_of_ordinal (y d : Z) :
  1 <= d <= year_days y ->
  exists m dd x,
    get_gregorian_loop 12 y 1 d = Ok (m, dd) /\
    1 <= m <= 12 /\ crm_time_days_in_month m y = Ok x /\ 1 <= dd <= x /\
    get_ordinal_days (sample_year (crm_time_leapyear y)) m dd = Ok d.
Proof.
  intros H. set (b := crm_time_leapyear y).
  assert (E : crm_time_leapyear y = crm_time_leapyear (sample_year b))
    by (rewrite leapyear_sample_year; reflexivity).
  pose proof check_calendar_holds as K. unfold check_calendar in K.
  rewrite forallb_forall in K.
  specialize (K b ltac:(destruct b; cbn; auto)). cbv zeta in K.
  apply andb_true_iff in K. destruct K as [K _].
  rewrite forallb_forall in K. specialize (K d).
  rewrite (year_days_leap _ _ E) in H.
  specialize (K ltac:(apply In_Zrange; pose proof (year_days_cases (sample_year b)); lia)).
  unfold check_gregorian in K.
  rewrite (get_gregorian_loop_leap _ _ E).
  destruct (get_gregorian_loop 12 (sample_year b) 1 d) as [[m dd] |]; [| discriminate].
  pose proof (days_in_month_leap _ _ E m) as Em.
  destruct (crm_time_days_in_month m (sample_year b)) as [x |];
    [| rewrite andb_false_r in K; discriminate].
  destruct (get_ordinal_days (sample_year b) m dd) as [od |] eqn:Eo;
    [| rewrite andb_false_r in K; discriminate].
  rewrite !andb_true_iff, !Z.leb_le, Z.eqb_eq in K.
  destruct K as ((((K1 & K2) & K3) & K4) & K5).
  exists m, dd, x. subst od. repeat split; try lia; assumption.
Qed.

(** The ordinal day of a day of a month, clamped to the month's length. *)
Lemma ordinal_of_gregorian (y m dd : Z) :
  1 <= m <= 12 -> 1 <= dd <= 31 ->
  exists x od,
    crm_time_days_in_month m (s32 y) = Ok x /\
    get_ordinal_days y m (if u32 x <? dd then u32 x else dd) = Ok od /\
    1 <= od <= year_days (s32 y) /\
    get_gregorian_loop 12 (s32 y) 1 od = Ok (m, if u32 x <? dd then u32 x else dd).
Proof.
  intros Hm Hd. set (b := crm_time_leapyear (s32 y)).
  assert (E : crm_time_leapyear (s32 y) = crm_time_leapyear (sample_year b))
    by (rewrite leapyear_sample_year; reflexivity).
  assert (E' : crm_time_leapyear (s32 y) = crm_time_leapyear (s32 (sample_year b)))
    by (rewrite E; destruct b; reflexivity).
  pose proof check_calendar_holds as K. unfold check_calendar in K.
  rewrite forallb_forall in K.
  specialize (K b ltac:(destruct b; cbn; auto)). cbv zeta in K.
  apply andb_true_iff in K. destruct K as [_ K].
  rewrite forallb_forall in K. specialize (K m ltac:(apply In_Zrange; lia)).
  rewrite forallb_forall in K. specialize (K dd ltac:(apply In_Zrange; lia)).
  unfold check_ordinal in K.
  pose proof (days_in_month_leap _ _ E m) as Em.
  destruct (crm_time_days_in_month m (sample_year b)) as [x |]; [| discriminate].
  cbv zeta in K.
  pose proof (get_ordinal_days_leap y (sample_year b) m
                (if u32 x <? dd then u32 x else dd) E') as Eo.
  destruct (get_ordinal_days (sample_year b) m _) as [od |]; [| discriminate].
  rewrite (year_days_leap _ _ E).
  pose proof (get_gregorian_loop_leap _ _ E 12%nat 1 od) as Eg.
  destruct (get_gregorian_loop 12 (sample_year b) 1 od) as [[m' d'] |];
    [| rewrite andb_false_r in K; discriminate].
  rewrite !andb_true_iff, !Z.leb_le, !Z.eqb_eq in K.
  destruct K as ((K1 & K2) & (K3 & K4)).
  exists x, od. repeat split; try lia; try assumption.
  rewrite Eg. f_equal. f_equal; lia.
Qed.

(** ** Stepping through the months *)

Lemma months_forward_spec (n : nat) :
  forall y m,
    1 <= m <= 12 -> u32 y = y ->
    months_forward n y m =
      (u32 (y + (m - 1 + Z.of_nat n) / 12), (m - 1 + Z.of_nat n) mod 12 + 1).
Proof.
  induction n as [| k IH]; intros y m Hm Hy.
  - cbn [months_forward]. f_equal.
    + rewrite <- Hy at 1. f_equal. euclid.
    + euclid.
  - cbn [months_forward]. rewrite Nat2Z.inj_succ.
    rewrite (u32_small (m + 1)) by lia.
    destruct (Z.eqb_spec (m + 1) 13) as [E | E].
    + rewrite IH by (try lia; apply u32_u32). rewrite u32_add_l. f_equal.
      * f_equal. euclid.
      * euclid.
    + rewrite IH by (try lia; exact Hy). f_equal.
      * f_equal. euclid.
      * euclid.
Qed.

Lemma months_backward_spec (n : nat) :
  forall y m,
    1 <= m <= 12 -> u32 y = y ->
    months_backward n y m =
      (u32 (y + (m - 1 - Z.of_nat n) / 12), (m - 1 - Z.of_nat n) mod 12 + 1).
Proof.
  induction n as [| k IH]; intros y m Hm Hy.
  - cbn [months_backward]. f_equal.
    + rewrite <- Hy at 1. f_equal. euclid.
    + euclid.
  - cbn [months_backward]. rewrite Nat2Z.inj_succ.
    rewrite (u32_small (m - 1)) by lia.
    destruct (Z.eqb_spec (m - 1) 0) as [E | E].
    + rewrite IH by (try lia; apply u32_u32). rewrite u32_add_l. f_equal.
      * f_equal. euclid.
      * euclid.
    + rewrite IH by (try lia; exact Hy). f_equal.
      * f_equal. euclid.
      * euclid.
Qed.

(** Both loops of [crm_time_add_months] at once: [extra] months after month
    [m] of year [y]. *)
Lemma months_step_spec (extra y m : Z) :
  1 <= m <= 12 -> u32 y = y ->
  (if 0 <? extra then months_forward (Z.to_nat extra) y m
   else months_backward (Z.to_nat (- extra)) y m)
  = (u32 (y + (m - 1 + extra) / 12), (m - 1 + extra) mod 12 + 1).
Proof.
  intros Hm Hy. destruct (Z.ltb_spec 0 extra) as [L | L].
  - rewrite months_forward_spec by assumption. rewrite Z2Nat.id by lia. reflexivity.
  - rewrite months_backward_spec by assumption. rewrite Z2Nat.id by lia.
    replace (m - 1 - - extra) with (m - 1 + extra) by lia. reflexivity.
Qed.

Lemma days_in_month_bounds (m y x : Z) :
  crm_time_days_in_month m y = Ok x -> 0 <= x <= 31.
Proof.
  unfold crm_time_days_in_month, month_days_at.
  set (i := if (m =? 2) && crm_time_leapyear y then 13 else m).
  destruct (Z.leb_spec 0 i); [| discriminate].
  destruct (Z.ltb_spec i 14); [| discriminate].
  cbn [andb]. intros E.
  assert (Ex : x = nth (Z.to_nat i) month_days 0) by congruence.
  rewrite Ex. clear E Ex.
  assert (F : Forall (fun x => 0 <= x <= 31) month_days)
    by (unfold month_days; repeat constructor; lia).
  rewrite Forall_forall in F. apply F. apply nth_In.
  change (List.length month_days) with 14%nat. lia.
Qed.

Lemma days_in_month_ok (m y : Z) :
  1 <= m <= 12 -> exists x, crm_time_days_in_month m y = Ok x.
Proof.
  intros H. unfold crm_time_days_in_month, month_days_at.
  set (i := if (m =? 2) && crm_time_leapyear y then 13 else m).
  assert (Hi : 0 <= i < 14) by (subst i; destruct ((m =? 2) && crm_time_leapyear y); lia).
  destruct (Z.leb_spec 0 i); [| lia]. destruct (Z.ltb_spec i 14); [| lia].
  cbn [andb]. eexists. reflexivity.
Qed.

Lemma get_gregorian_loop_ok (fuel : nat) :
  forall y m d, 1 <= m -> exists r, get_gregorian_loop fuel y m d = Ok r.
Proof.
  induction fuel as [| k IH]; intros y m d Hm; cbn [get_gregorian_loop].
  - eexists. reflexivity.
  - destruct (Z.leb_spec m 12) as [L | L]; cbn [andb]; [| eexists; reflexivity].
    destruct (0 <? d); [| eexists; reflexivity].
    destruct (days_in_month_ok m y ltac:(lia)) as [x ->]. cbn [bind].
    destruct (d <=? x); [eexists; reflexivity | apply IH; lia].
Qed.

(** [crm_time_get_gregorian] never reads outside the table. *)
Lemma crm_time_get_gregorian_ok (dt : crm_time) :
  exists r, crm_time_get_gregorian dt = Ok r.
Proof.
  unfold crm_time_get_gregorian.
  destruct (negb (years dt =? 0)).
  - destruct (get_gregorian_loop_ok 12 (years dt) 1 (days dt) ltac:(lia)) as [[m d] ->].
    cbn [bind]. eexists. reflexivity.
  - destruct (negb (months dt =? 0)); cbn [bind]; eexists; reflexivity.
Qed.

(** [crm_time_add_months] on a value with a date in range and a year other
    than 0: the Gregorian form [(m, dd)] of the date, the month reached and
    its length [x], and the result [r]. *)
Lemma crm_time_add_months_spec (v : crm_time) (n : Z) :
  valid_date v -> years v <> 0 ->
  exists m dd x r,
    crm_time_get_gregorian v = Ok (u32 (years v), m, dd) /\
    1 <= m <= 12 /\ 1 <= dd <= 31 /\
    crm_time_days_in_month ((m - 1 + n) mod 12 + 1)
      (s32 (years v + (m - 1 + n) / 12)) = Ok x /\
    crm_time_add_months v n = Ok r /\
    years r = s32 (years v + (m - 1 + n) / 12) /\
    get_ordinal_days (years r) ((m - 1 + n) mod 12 + 1) (Z.min dd x) = Ok (days r) /\
    get_gregorian_loop 12 (years r) 1 (days r) = Ok ((m - 1 + n) mod 12 + 1, Z.min dd x) /\
    valid_date r /\
    months r = months v /\ seconds r = seconds v /\ offset r = offset v /\
    duration r = duration v.
Proof.
  intros Hv Hy.
  destruct (gregorian_of_ordinal (years v) (days v) Hv) as (m & dd & x0 & G & Hm & Dx0 & Hdd & _).
  pose proof (days_in_month_bounds _ _ _ Dx0) as Bx0.
  set (t := m - 1 + n).
  set (y' := u32 (u32 (years v) + t / 12)).
  assert (Hm' : 1 <= t mod 12 + 1 <= 12) by (euclid).
  assert (Sy : s32 y' = s32 (years v + t / 12))
    by (unfold y'; rewrite s32_u32, s32_u32_add; reflexivity).
  destruct (ordinal_of_gregorian y' (t mod 12 + 1) dd Hm' ltac:(lia))
    as (x & od & Dx & O & Hod & G').
  pose proof (days_in_month_bounds _ _ _ Dx) as Bx.
  rewrite (u32_small x) in O, G' by lia.
  assert (Ec : (if x <? dd then x else dd) = Z.min dd x)
    by (destruct (Z.ltb_spec x dd); lia).
  rewrite Ec in O, G'.
  assert (Sod : s32 od = od).
  { apply s32_in_int. unfold in_int, INT_MIN, INT_MAX.
    pose proof (year_days_cases (s32 y')). lia. }
  set (r := set_days (set_years v (s32 y')) od).
  exists m, dd, x, r.
  assert (Gv : crm_time_get_gregorian v = Ok (u32 (years v), m, dd)).
  { unfold crm_time_get_gregorian.
    destruct (Z.eqb_spec (years v) 0) as [E | E]; [contradiction |].
    cbn [negb]. rewrite G. cbn [bind].
    rewrite (u32_small m), (u32_small dd) by lia. reflexivity. }
  assert (A : crm_time_add_months v n = Ok r).
  { unfold crm_time_add_months. rewrite Gv. cbn [bind].
    rewrite (months_step_spec n (u32 (years v)) m Hm (u32_u32 _)).
    fold t. fold y'.
    rewrite (s32_in_int (t mod 12 + 1)) by (unfold in_int, INT_MIN, INT_MAX; lia).
    rewrite Dx. cbn [bind]. rewrite (u32_small x) by lia. rewrite Ec, O. cbn [bind].
    rewrite Sod. fold r.
    destruct (crm_time_get_gregorian_ok r) as [g ->]. reflexivity. }
  fold t. rewrite <- Sy.
  repeat split; try assumption; try reflexivity; try lia.
  - cbn. rewrite <- O. apply get_ordinal_days_leap. rewrite s32_s32. reflexivity.
  - cbn. exact (proj1 Hod).
  - cbn. exact (proj2 Hod).
Qed.

(** ** Rounds of the loops *)

Lemma days_in_month_outside (m y : Z) :
  14 <= m -> crm_time_days_in_month m y = Undefined.
Proof.
  intros H. unfold crm_time_days_in_month, month_days_at.
  destruct (Z.eqb_spec m 2) as [E | E]; [lia |]. cbn [andb].
  destruct (Z.leb_spec 0 m), (Z.ltb_spec m 14); try lia; reflexivity.
Qed.

(** One more round than 15 does not change what [get_ordinal_days_loop]
    returns: the loop has left or has read outside the table before. *)
Lemma get_ordinal_days_loop_rounds (k : nat) :
  forall y m lpc d,
    15 <= Z.of_nat k + lpc -> (1 <= k)%nat ->
    get_ordinal_days_loop (S k) y m lpc d = get_ordinal_days_loop k y m lpc d.
Proof.
  induction k as [| j IH]; intros y m lpc d Hk H1; [lia |].
  change (get_ordinal_days_loop (S (S j)) y m lpc d)
    with (if u32 lpc <? m
          then do md <- crm_time_days_in_month lpc (s32 y);
               get_ordinal_days_loop (S j) y m (lpc + 1) (u32 (d + md))
          else Ok d).
  change (get_ordinal_days_loop (S j) y m lpc d)
    with (if u32 lpc <? m
          then do md <- crm_time_days_in_month lpc (s32 y);
               get_ordinal_days_loop j y m (lpc + 1) (u32 (d + md))
          else Ok d).
  destruct (u32 lpc <? m); [| reflexivity].
  destruct (Z.le_gt_cases 14 lpc) as [L | L].
  - rewrite days_in_month_outside by exact L. reflexivity.
  - destruct (crm_time_days_in_month lpc (s32 y)) as [md |]; [| reflexivity].
    cbn [bind]. apply IH; lia.
Qed.

Lemma get_ordinal_days_rounds (extra : nat) (y m d : Z) :
  get_ordinal_days_loop (15 + extra) (u32 y) (u32 m) 1 (u32 d) = get_ordinal_days y m d.
Proof.
  unfold get_ordinal_days. induction extra as [| e IH].
  - reflexivity.
  - rewrite <- IH. replace (15 + S e)%nat with (S (15 + e)) by lia.
    apply get_ordinal_days_loop_rounds; lia.
Qed.

Lemma length_advance (n : nat) :
  forall s, (n <= String.length s)%nat ->
            String.length (advance n s) = (String.length s - n)%nat.
Proof.
  induction n as [| k IH]; intros s H.
  - destruct s; cbn; lia.
  - destruct s as [| c r]; cbn in *; [lia | apply IH; lia].
Qed.

Lemma length_tail (s : string) : String.length (tail s) = (String.length s - 1)%nat.
Proof. destruct s; cbn; lia. Qed.

Lemma parse_int_digits_offset (s : string) :
  forall fraction field_width lpc offset res lpc' offset' res',
    parse_int_digits s fraction field_width lpc offset res = Ok (lpc', offset', res') ->
    offset <= offset' <= offset + Z.of_nat (String.length s).
Proof.
  induction s as [| c r IH]; intros f w lpc off res lpc' off' res' H; cbn in H.
  - injection H as _ <- _. cbn. lia.
  - destruct ((f || (lpc <? w)) && isdigit c).
    + destruct (if f then _ else _) as [res1 |]; cbn [bind] in H; [| discriminate].
      apply IH in H. cbn [String.length]. lia.
    + injection H as _ <- _. cbn [String.length]. lia.
Qed.

(** [parse_int] returns no more than the length of the string. *)
Lemma parse_int_return (str : string) (field_width uppper_bound rc v : Z) :
  parse_int str field_width uppper_bound = Ok (rc, v) ->
  0 <= rc <= Z.of_nat (String.length str).
Proof.
  unfold parse_int. destruct str as [| c0 r0]; [intros [= <- _]; cbn; lia |].
  set (str := String c0 r0).
  assert (L0 : (1 <= String.length str)%nat) by (cbn; lia).
  destruct (Ascii.eqb (head str) "T") eqn:ET.
  - pose proof (length_tail str) as LT. set (s1 := tail str) in *.
    destruct (Ascii.eqb (head s1) "." || Ascii.eqb (head s1) ",") eqn:E1;
      [| destruct (Ascii.eqb (head s1) "-") eqn:E2;
         [| destruct (Ascii.eqb (head s1) "+" || Ascii.eqb (head s1) ":") eqn:E3]].
    all: try (assert (N1 : (1 <= String.length s1)%nat)
                by (destruct s1; [cbn in *; discriminate | cbn; lia]);
              pose proof (length_tail s1) as LT1).
    all: destruct (parse_int_digits _ _ _ _ _ _) as [[[lpc off] res] |] eqn:P;
      cbn [bind]; [| discriminate];
      apply parse_int_digits_offset in P;
      destruct (0 <? lpc); intros [= <- _]; lia.
  - set (s1 := str) in *.
    destruct (Ascii.eqb (head s1) "." || Ascii.eqb (head s1) ",") eqn:E1;
      [| destruct (Ascii.eqb (head s1) "-") eqn:E2;
         [| destruct (Ascii.eqb (head s1) "+" || Ascii.eqb (head s1) ":") eqn:E3]].
    all: pose proof (length_tail s1) as LT1.
    all: destruct (parse_int_digits _ _ _ _ _ _) as [[[lpc off] res] |] eqn:P;
      cbn [bind]; [| discriminate];
      apply parse_int_digits_offset in P;
      destruct (0 <? lpc); intros [= <- _]; lia.
Qed.

(** More rounds than the string has characters do not change what
    [parse_duration_loop] returns: every round that goes on has moved
    [period_s] forward. *)
Lemma parse_duration_loop_rounds (fuel : nat) :
  forall period_s is_time diff,
    (String.length period_s < fuel)%nat ->
    parse_duration_loop (S fuel) period_s is_time diff
    = parse_duration_loop fuel period_s is_time diff.
Proof.
  induction fuel as [| k IH]; intros s t d H; [lia |].
  cbn [parse_duration_loop] in IH |- *.
  destruct (isspace (head s)); [reflexivity |].
  assert (L1 : (String.length (snd (if Ascii.eqb (head s) "T" then (true, tail s) else (t, s)))
                <= String.length s)%nat)
    by (destruct (Ascii.eqb (head s) "T"); cbn [snd]; rewrite ?length_tail; lia).
  destruct (if Ascii.eqb (head s) "T" then (true, tail s) else (t, s)) as [t1 s1].
  cbn [snd] in L1.
  destruct (parse_int s1 10 0) as [[rc n] |] eqn:P; cbn [bind]; [| reflexivity].
  apply parse_int_return in P.
  destruct (Z.eqb_spec rc 0) as [E | E]; [reflexivity |].
  pose proof (length_advance (Z.to_nat rc) s1 ltac:(lia)) as LA.
  set (s2 := advance (Z.to_nat rc) s1) in *.
  destruct (Ascii.eqb (head s2) NUL) eqn:EN; [reflexivity |].
  assert (N2 : (1 <= String.length s2)%nat).
  { destruct s2; [cbn in EN; discriminate | cbn; lia]. }
  pose proof (length_tail s2) as LT.
  assert (L3 : (String.length (tail s2) < k)%nat) by lia.
  destruct (Ascii.eqb (head s2) "Y"); [apply IH; exact L3 |].
  destruct (Ascii.eqb (head s2) "M");
    [destruct t1; apply IH; exact L3 |].
  destruct (Ascii.eqb (head s2) "W"); [apply IH; exact L3 |].
  destruct (Ascii.eqb (head s2) "D"); [apply IH; exact L3 |].
  destruct (Ascii.eqb (head s2) "H"); [apply IH; exact L3 |].
  destruct (Ascii.eqb (head s2) "S"); [apply IH; exact L3 |].
  reflexivity.
Qed.

(** [crm_time_parse_duration] returns the same with any number of further
    rounds. *)
Lemma crm_time_parse_duration_rounds (extra : nat) (period_s : string) :
  parse_duration_loop (S (String.length period_s) + extra) period_s false calloc_time
  = parse_duration_loop (S (String.length period_s)) period_s false calloc_time.
Proof.
  induction extra as [| e IH].
  - rewrite Nat.add_0_r. reflexivity.
  - rewrite <- IH. replace (S (String.length period_s) + S e)%nat
      with (S (S (String.length period_s) + e)) by lia.
    apply parse_duration_loop_rounds. lia.
Qed.

(** ** The validator *)

Lemma crm_time_check_iff (t : crm_time) :
  crm_time_check (Some t) = true <-> valid_date t /\ 0 <= seconds t < 86400.
Proof.
  unfold crm_time_check, valid_date. change (24 * 60 * 60) with 86400.
  destruct (Z.ltb_spec 0 (days t)), (Z.leb_spec (days t) (year_days (years t))),
    (Z.leb_spec 0 (seconds t)), (Z.ltb_spec (seconds t) 86400);
    cbn [negb]; split; intros; try discriminate; try reflexivity; lia.
Qed.

Lemma time_ext (a b : crm_time) :
  years a = years b -> months a = months b -> days a = days b ->
  seconds a = seconds b -> offset a = offset b -> duration a = duration b ->
  a = b.
Proof. destruct a, b. cbn. intros. subst. reflexivity. Qed.

(** ** Arithmetic and the validator *)

(** C1, as stated, fails: December 31 of the leap year 2020 passes
    [crm_time_check]; after [crm_time_add_years] with 1 it is day 366 of
    2021, a year of 365 days, and the check fails. *)
Lemma add_years_leap_day_counterexample :
  crm_time_check (Some (mk_time 2020 0 366 0 0 false)) = true /\
  crm_time_check (Some (crm_time_add_years (mk_time 2020 0 366 0 0 false) 1)) = false.
Proof. split; reflexivity. Qed.

(** C1, amended.  For a value [v] that passes [crm_time_check] and has its
    duration flag clear, and every integer [n]: [crm_time_add_seconds] and
    [crm_time_add_days] leave a value that passes the check;
    [crm_time_add_months] returns such a value when the year of [v] is not
    0; [crm_time_add_years] only adds [n] to the year, and its result
    passes the check exactly when the day of [v] exists in year
    [years v + n]. *)
Theorem arithmetic_preserves_check (v : crm_time) (n : Z) :
  crm_time_check (Some v) = true -> duration v = false ->
  crm_time_check (Some (crm_time_add_seconds v n)) = true /\
  crm_time_check (Some (crm_time_add_days v n)) = true /\
  (years v <> 0 ->
   exists r, crm_time_add_months v n = Ok r /\ crm_time_check (Some r) = true) /\
  (crm_time_check (Some (crm_time_add_years v n)) = true
   <-> days v <= year_days (years v + n)).
Proof.
  intros Hc Hd. apply crm_time_check_iff in Hc. destruct Hc as [Hv Hs].
  split; [| split; [| split]].
  - apply crm_time_check_iff.
    destruct (crm_time_add_seconds_instant v n Hd) as (A & B & _). split; assumption.
  - apply crm_time_check_iff.
    destruct (crm_time_add_days_instant v n Hd) as (A & _ & B & _).
    split; [assumption | rewrite B; assumption].
  - intros Hy.
    destruct (crm_time_add_months_spec v n Hv Hy)
      as (m & dd & x & r & _ & _ & _ & _ & A & _ & _ & _ & V & _ & S & _).
    exists r. split; [exact A |]. apply crm_time_check_iff.
    split; [assumption | rewrite S; assumption].
  - rewrite crm_time_check_iff. unfold valid_date, crm_time_add_years. cbn.
    unfold valid_date in Hv. split; intros; repeat split; lia.
Qed.

(** The four operations on 2020-366 at 23:59:59 with [n = 1]. *)
Lemma arithmetic_preserves_check_witness :
  crm_time_check (Some (mk_time 2020 0 366 86399 0 false)) = true /\
  duration (mk_time 2020 0 366 86399 0 false) = false /\
  crm_time_check (Some (crm_time_add_seconds (mk_time 2020 0 366 86399 0 false) 1)) = true /\
  crm_time_check (Some (crm_time_add_days (mk_time 2020 0 366 86399 0 false) 1)) = true /\
  (2020 <> 0 ->
   exists r, crm_time_add_months (mk_time 2020 0 366 86399 0 false) 1 = Ok r
             /\ crm_time_check (Some r) = true) /\
  (crm_time_check (Some (crm_time_add_years (mk_time 2020 0 366 86399 0 false) 1)) = true
   <-> 366 <= year_days (2020 + 1)).
Proof.
  split; [reflexivity |]. split; [reflexivity |].
  apply (arithmetic_preserves_check (mk_time 2020 0 366 86399 0 false) 1);
    reflexivity.
Defined.

(** ** Adding months *)

Lemma february_after_january_31 (y : Z) :
  get_ordinal_days y 2 (if crm_time_leapyear (s32 y) then 29 else 28)
  = Ok (if crm_time_leapyear (s32 y) then 60 else 59).
Proof.
  rewrite (get_ordinal_days_leap y (sample_year (crm_time_leapyear (s32 y)))).
  - destruct (crm_time_leapyear (s32 y)); reflexivity.
  - destruct (crm_time_leapyear (s32 y)); reflexivity.
Qed.

(** C6, as stated, fails at the year 0, which [crm_time_get_gregorian]
    takes for the mark of a duration: "0000-04-09" is parsed to day 100 of
    year 0 and passes [crm_time_check], but [crm_time_add_months] with 0
    months leaves day 0, which fails the check, and one month after
    January 31 of year 0, a leap year, is still day 31.  One month back
    from January 15 of year 1 leads into year 0. *)
Lemma add_months_year_zero_counterexample :
  parse_date (mk_host 0 calloc_time) "0000-04-09"
    = Ok (Some (mk_time 0 0 100 0 0 false)) /\
  crm_time_check (Some (mk_time 0 0 100 0 0 false)) = true /\
  crm_time_add_months (mk_time 0 0 100 0 0 false) 0 = Ok (mk_time 0 0 0 0 0 false) /\
  crm_time_check (Some (mk_time 0 0 0 0 0 false)) = false /\
  crm_time_leapyear 0 = true /\
  crm_time_add_months (mk_time 0 0 31 0 0 false) 1 = Ok (mk_time 0 0 31 0 0 false) /\
  crm_time_add_months (mk_time 1 0 15 0 0 false) (-1) = Ok (mk_time 0 0 350 0 0 false).
Proof. repeat split; vm_compute; reflexivity. Qed.

(** C6, amended.  On a value [v] that passes [crm_time_check] in a year
    other than 0, [crm_time_add_months v n] takes the Gregorian form
    [(y, m, d)] of [v], reaches month [(m - 1 + n) mod 12 + 1] of year
    [y + (m - 1 + n) / 12] (what the loop of [n] steps of one month, with
    a roll of the year at each boundary, comes to), takes the smaller of
    [d] and the length [dmax] of that month, and stores the ordinal day of
    that date; the result passes [crm_time_check].  From January 31 one
    month leads to day 59, February 28, in a common year and to day 60,
    February 29, in a leap year. *)
Theorem crm_time_add_months_gregorian (v : crm_time) (n : Z) :
  crm_time_check (Some v) = true -> years v <> 0 ->
  exists m d dmax r,
    crm_time_get_gregorian v = Ok (u32 (years v), m, d) /\
    1 <= m <= 12 /\
    (if 0 <? n then months_forward (Z.to_nat n) (u32 (years v)) m
     else months_backward (Z.to_nat (- n)) (u32 (years v)) m)
    = (u32 (u32 (years v) + (m - 1 + n) / 12), (m - 1 + n) mod 12 + 1) /\
    crm_time_days_in_month ((m - 1 + n) mod 12 + 1)
      (s32 (years v + (m - 1 + n) / 12)) = Ok dmax /\
    crm_time_add_months v n = Ok r /\
    years r = s32 (years v + (m - 1 + n) / 12) /\
    get_ordinal_days (years r) ((m - 1 + n) mod 12 + 1) (Z.min d dmax) = Ok (days r) /\
    (years r <> 0 ->
     crm_time_get_gregorian r
     = Ok (u32 (years r), (m - 1 + n) mod 12 + 1, Z.min d dmax)) /\
    crm_time_check (Some r) = true /\
    (days v = 31 -> n = 1 -> in_int (years v) ->
     m = 1 /\ d = 31 /\ years r = years v /\
     days r = (if crm_time_leapyear (years v) then 60 else 59) /\
     crm_time_get_gregorian r
     = Ok (u32 (years v), 2, if crm_time_leapyear (years v) then 29 else 28)).
Proof.
  intros Hc Hy. apply crm_time_check_iff in Hc. destruct Hc as [Hv Hs].
  destruct (crm_time_add_months_spec v n Hv Hy)
    as (m & d & x & r & G & Hm & Hd & Dx & A & Yr & O & G' & V & _ & S & _).
  pose proof (days_in_month_bounds _ _ _ Dx) as Bx.
  assert (Gr : years r <> 0 ->
               crm_time_get_gregorian r
               = Ok (u32 (years r), (m - 1 + n) mod 12 + 1, Z.min d x)).
  { intros Nz. unfold crm_time_get_gregorian.
    destruct (Z.eqb_spec (years r) 0) as [E | E]; [contradiction |].
    cbn [negb]. rewrite G'. cbn [bind].
    rewrite (u32_small ((m - 1 + n) mod 12 + 1))
      by (euclid).
    rewrite (u32_small (Z.min d x)) by lia. reflexivity. }
  exists m, d, x, r.
  split; [exact G |]. split; [exact Hm |].
  split; [exact (months_step_spec n (u32 (years v)) m Hm (u32_u32 _)) |].
  split; [exact Dx |].
  split; [exact A |]. split; [exact Yr |]. split; [exact O |]. split; [exact Gr |].
  split; [apply crm_time_check_iff; split; [assumption | rewrite S; assumption] |].
  intros D31 N1 Hi.
  assert (M : m = 1 /\ d = 31).
  { revert G. unfold crm_time_get_gregorian.
    destruct (Z.eqb_spec (years v) 0) as [E | E]; [contradiction |].
    rewrite D31. cbn. intros [= <- <-]. split; reflexivity. }
  destruct M as [-> ->]. subst n.
  change ((1 - 1 + 1) / 12) with 0 in *. change ((1 - 1 + 1) mod 12 + 1) with 2 in *.
  rewrite Z.add_0_r in *.
  rewrite (s32_in_int (years v) Hi) in Yr, Dx.
  assert (X : x = if crm_time_leapyear (years v) then 29 else 28).
  { revert Dx. unfold crm_time_days_in_month.
    destruct (crm_time_leapyear (years v)); cbn; intros [= <-]; reflexivity. }
  assert (Mn : Z.min 31 x = x) by (destruct (crm_time_leapyear (years v)); lia).
  rewrite Mn in *. rewrite Yr in *.
  assert (Dr : days r = if crm_time_leapyear (years v) then 60 else 59).
  { pose proof (february_after_january_31 (years v)) as F.
    rewrite (s32_in_int (years v) Hi) in F. rewrite <- X in F.
    rewrite O in F. injection F as F. exact F. }
  split; [reflexivity |]. split; [reflexivity |]. split; [reflexivity |].
  split; [exact Dr |].
  rewrite <- X. apply Gr. exact Hy.
Qed.

(** One month after January 31 of 2021. *)
Lemma crm_time_add_months_gregorian_witness :
  crm_time_check (Some (mk_time 2021 0 31 0 0 false)) = true /\
  years (mk_time 2021 0 31 0 0 false) <> 0 /\
  exists m d dmax r,
    crm_time_get_gregorian (mk_time 2021 0 31 0 0 false) = Ok (u32 2021, m, d) /\
    1 <= m <= 12 /\
    (if 0 <? 1 then months_forward (Z.to_nat 1) (u32 2021) m
     else months_backward (Z.to_nat (- (1))) (u32 2021) m)
    = (u32 (u32 2021 + (m - 1 + 1) / 12), (m - 1 + 1) mod 12 + 1) /\
    crm_time_days_in_month ((m - 1 + 1) mod 12 + 1)
      (s32 (2021 + (m - 1 + 1) / 12)) = Ok dmax /\
    crm_time_add_months (mk_time 2021 0 31 0 0 false) 1 = Ok r /\
    years r = s32 (2021 + (m - 1 + 1) / 12) /\
    get_ordinal_days (years r) ((m - 1 + 1) mod 12 + 1) (Z.min d dmax) = Ok (days r) /\
    (years r <> 0 ->
     crm_time_get_gregorian r
     = Ok (u32 (years r), (m - 1 + 1) mod 12 + 1, Z.min d dmax)) /\
    crm_time_check (Some r) = true /\
    (31 = 31 -> 1 = 1 -> in_int 2021 ->
     m = 1 /\ d = 31 /\ years r = 2021 /\
     days r = (if crm_time_leapyear 2021 then 60 else 59) /\
     crm_time_get_gregorian r
     = Ok (u32 2021, 2, if crm_time_leapyear 2021 then 29 else 28)).
Proof.
  split; [reflexivity |]. split; [cbn; lia |].
  apply (crm_time_add_months_gregorian (mk_time 2021 0 31 0 0 false) 1);
    [reflexivity | cbn; lia].
Defined.

(** ** Sums and differences *)

(** C3, as stated, fails: the last day of the leap year 2020 plus one
    year is day 366 of 2021, which the day carry turns into 2022-001;
    taking the year away again gives 2021-001. *)
Lemma add_subtract_leap_day_counterexample :
  crm_time_check (Some (mk_time 2020 0 366 0 0 false)) = true /\
  months (mk_time 1 0 0 0 0 false) = 0 /\
  (do a <- crm_time_add (Some (mk_time 2020 0 366 0 0 false))
                        (Some (mk_time 1 0 0 0 0 false));
   crm_time_subtract a (Some (mk_time 1 0 0 0 0 false)))
  = Ok (Some (mk_time 2021 0 1 0 0 false)).
Proof. repeat split. Qed.

(** [crm_time_add_months] with no months leaves a value in range as it is. *)
Lemma crm_time_add_months_zero (v : crm_time) :
  valid_date v -> years v <> 0 -> in_int (years v) ->
  crm_time_add_months v 0 = Ok v.
Proof.
  intros Hv Hy Hi.
  destruct (gregorian_of_ordinal (years v) (days v) Hv) as (m0 & d0 & x0 & G0 & Hm0 & Dx0 & Hd0 & O0).
  destruct (crm_time_add_months_spec v 0 Hv Hy)
    as (m & d & x & r & G & Hm & Hd & Dx & A & Yr & O & G' & V & Mo & S & Of & Du).
  assert (M : m = m0 /\ d = d0).
  { revert G. unfold crm_time_get_gregorian.
    destruct (Z.eqb_spec (years v) 0) as [E | E]; [contradiction |].
    cbn [negb]. rewrite G0. cbn [bind].
    rewrite (u32_small m0), (u32_small d0) by (pose proof (days_in_month_bounds _ _ _ Dx0); lia).
    intros [= <- <-]. split; reflexivity. }
  destruct M as [-> ->].
  replace ((m0 - 1 + 0) mod 12 + 1) with m0 in * by (euclid).
  replace ((m0 - 1 + 0) / 12) with 0 in * by (euclid).
  rewrite Z.add_0_r in *. rewrite (s32_in_int _ Hi) in *.
  rewrite Dx0 in Dx. injection Dx as <-.
  rewrite Z.min_l in * by lia.
  assert (Dr : days r = days v).
  { destruct (gregorian_of_ordinal (years r) (days r) V) as (m1 & d1 & x1 & G1 & _ & _ & _ & O1).
    rewrite G' in G1. injection G1 as <- <-. rewrite Yr in O1.
    rewrite O0 in O1. injection O1 as O1. symmetry. exact O1. }
  rewrite A. f_equal. apply time_ext; assumption.
Qed.

(** Adding no days to a value in range leaves it as it is. *)
Lemma crm_time_add_days_zero (a : crm_time) :
  valid_date a -> duration a = false -> crm_time_add_days a 0 = a.
Proof.
  intros Hv Hd.
  destruct (crm_time_add_days_instant a 0 Hd) as (V & N & S & O & M & D).
  rewrite Z.add_0_r in N.
  destruct (day_number_inj _ _ _ _ V Hv N) as [Ey Ed].
  apply time_ext; congruence.
Qed.

(** Adding no seconds to a value in range leaves it as it is. *)
Lemma crm_time_add_seconds_zero (a : crm_time) :
  valid_date a -> 0 <= seconds a < 86400 -> duration a = false ->
  crm_time_add_seconds a 0 = a.
Proof.
  intros Hv Hs Hd.
  destruct (crm_time_add_seconds_instant a 0 Hd) as (V & R & N & O & M & D).
  assert (E : day_number (years (crm_time_add_seconds a 0)) (days (crm_time_add_seconds a 0))
              = day_number (years a) (days a)) by lia.
  destruct (day_number_inj _ _ _ _ V Hv E) as [Ey Ed].
  apply time_ext; try congruence. lia.
Qed.

(** Days and seconds added to a value in range and then taken away again
    give the value back. *)
Lemma add_days_seconds_inverse (a : crm_time) (dd ds : Z) :
  valid_date a -> 0 <= seconds a < 86400 -> duration a = false ->
  crm_time_add_seconds
    (crm_time_add_days (crm_time_add_seconds (crm_time_add_days a dd) ds) (- dd)) (- ds)
  = a.
Proof.
  intros Hv Hs Hd.
  destruct (crm_time_add_days_instant a dd Hd) as (V1 & N1 & S1 & O1 & M1 & D1).
  set (a1 := crm_time_add_days a dd) in *.
  destruct (crm_time_add_seconds_instant a1 ds D1) as (V2 & R2 & N2 & O2 & M2 & D2).
  set (a2 := crm_time_add_seconds a1 ds) in *.
  destruct (crm_time_add_days_instant a2 (- dd) D2) as (V3 & N3 & S3 & O3 & M3 & D3).
  set (a3 := crm_time_add_days a2 (- dd)) in *.
  destruct (crm_time_add_seconds_instant a3 (- ds) D3) as (V4 & R4 & N4 & O4 & M4 & D4).
  set (a4 := crm_time_add_seconds a3 (- ds)) in *.
  assert (E : day_number (years a4) (days a4) = day_number (years a) (days a)) by lia.
  destruct (day_number_inj _ _ _ _ V4 Hv E) as [Ey Ed].
  apply time_ext; try congruence. lia.
Qed.

Lemma crm_time_set_calloc (a : crm_time) :
  duration a = false -> crm_time_set calloc_time a = a.
Proof. intros H. apply time_ext; cbn; congruence. Qed.

(** The sum must not pass through year 0 either: 2020-100 less 2020 years
    is day 100 of year 0, which the months step of [crm_time_add] reads as
    a duration; the sum is day 365 of year -1, and adding the years again
    gives 2019-365. *)
Lemma add_subtract_through_year_zero :
  crm_time_check (Some (mk_time 2020 0 100 0 0 false)) = true /\
  crm_time_add (Some (mk_time 2020 0 100 0 0 false)) (Some (mk_time (-2020) 0 0 0 0 false))
  = Ok (Some (mk_time (-1) 0 365 0 0 false)) /\
  crm_time_subtract (Some (mk_time (-1) 0 365 0 0 false))
                    (Some (mk_time (-2020) 0 0 0 0 false))
  = Ok (Some (mk_time 2019 0 365 0 0 false)).
Proof. repeat split. Qed.

(** C3, amended.  For a value [v] that passes [crm_time_check], in a year
    other than 0 and within [int], and a duration [d] without months and
    without offset, [crm_time_subtract (crm_time_add v d) d] has the
    years, days, seconds and offset of [v] in two cases: when [d] has no
    years; and when [d] has years only, the year reached,
    [years v + years d], is other than 0 and within [int], and the day of
    [v] exists in that year. *)
Theorem subtract_add_inverse (v d : crm_time) :
  crm_time_check (Some v) = true -> years v <> 0 -> in_int (years v) ->
  months d = 0 -> offset d = 0 ->
  years d = 0 \/
  (days d = 0 /\ seconds d = 0 /\ days v <= year_days (years v + years d) /\
   years v + years d <> 0 /\ in_int (years v + years d)) ->
  exists a r,
    crm_time_add (Some v) (Some d) = Ok (Some a) /\
    crm_time_subtract (Some a) (Some d) = Ok (Some r) /\
    years r = years v /\ days r = days v /\ seconds r = seconds v /\
    offset r = offset v.
Proof.
  intros Hc Hy Hi Hm Ho Hcase.
  apply crm_time_check_iff in Hc. destruct Hc as [Hv Hs].
  set (v0 := crm_time_set calloc_time v).
  assert (F0 : years v0 = years v /\ days v0 = days v /\ seconds v0 = seconds v
               /\ offset v0 = offset v /\ duration v0 = false)
    by (repeat split).
  destruct F0 as (Fy & Fd & Fs & Fo & Fu).
  assert (U : crm_get_utc_time d = mk_time (years d) 0 (days d) (seconds d) 0 false).
  { unfold crm_get_utc_time. rewrite Ho. cbn. rewrite Hm. reflexivity. }
  unfold crm_time_add, crm_time_subtract. fold v0. rewrite U.
  cbn [years months days seconds].
  destruct Hcase as [Yd | (Dd & Sd & Dv & Ny & Iy)].
  - (* days and seconds only *)
    rewrite Yd, Z.add_0_r.
    assert (E0 : set_years v0 (years v0) = v0) by (apply time_ext; reflexivity).
    rewrite E0.
    rewrite (crm_time_add_months_zero v0) by (unfold valid_date; rewrite ?Fy, ?Fd; assumption).
    cbn [bind].
    set (a := crm_time_add_seconds (crm_time_add_days v0 (days d)) (seconds d)).
    assert (Da : duration a = false).
    { destruct (crm_time_add_days_instant v0 (days d) Fu) as (_ & _ & _ & _ & _ & D1).
      destruct (crm_time_add_seconds_instant _ (seconds d) D1) as (_ & _ & _ & _ & _ & D2).
      exact D2. }
    exists a. eexists. split; [reflexivity |].
    rewrite (crm_time_set_calloc a Da). rewrite Z.sub_0_r.
    assert (E1 : set_years a (years a) = a) by (apply time_ext; reflexivity).
    rewrite E1. cbn [negb Z.eqb bind]. split; [reflexivity |].
    unfold a. rewrite add_days_seconds_inverse
      by (unfold valid_date; rewrite ?Fy, ?Fd, ?Fs; assumption).
    repeat split; assumption.
  - (* whole years only *)
    rewrite Dd, Sd. cbn [Z.opp].
    set (a0 := set_years v0 (years v0 + years d)).
    assert (Va0 : valid_date a0) by (unfold valid_date, a0; cbn; unfold valid_date in Hv; lia).
    assert (Ua0 : duration a0 = false) by reflexivity.
    rewrite (crm_time_add_months_zero a0) by (try assumption; cbn; assumption).
    cbn [bind].
    rewrite (crm_time_add_days_zero a0 Va0 Ua0).
    rewrite (crm_time_add_seconds_zero a0 Va0) by (try assumption; cbn; assumption).
    exists a0. eexists. split; [reflexivity |].
    rewrite (crm_time_set_calloc a0 Ua0). cbn [negb Z.eqb bind].
    set (b0 := set_years a0 (years a0 - years d)).
    assert (Vb0 : valid_date b0).
    { unfold valid_date, b0, a0. cbn. replace (years v + years d - years d) with (years v) by lia.
      exact Hv. }
    rewrite (crm_time_add_days_zero b0 Vb0) by reflexivity.
    rewrite (crm_time_add_seconds_zero b0 Vb0) by (try reflexivity; cbn; assumption).
    split; [reflexivity |]. unfold b0, a0. cbn. repeat split. lia.
Qed.

(** 400 days and 9000 seconds added to the last day of 2020, at offset
    +01:00, and taken away again. *)
Lemma subtract_add_inverse_witness :
  crm_time_check (Some (mk_time 2020 0 366 86000 3600 false)) = true /\
  2020 <> 0 /\ in_int 2020 /\
  exists a r,
    crm_time_add (Some (mk_time 2020 0 366 86000 3600 false))
                 (Some (mk_time 0 0 400 9000 0 false)) = Ok (Some a) /\
    crm_time_subtract (Some a) (Some (mk_time 0 0 400 9000 0 false)) = Ok (Some r) /\
    years r = 2020 /\ days r = 366 /\ seconds r = 86000 /\ offset r = 3600.
Proof.
  split; [reflexivity |]. split; [lia |]. split; [unfold in_int, INT_MIN, INT_MAX; lia |].
  apply (subtract_add_inverse (mk_time 2020 0 366 86000 3600 false)
                              (mk_time 0 0 400 9000 0 false));
    [reflexivity | cbn; lia | unfold in_int, INT_MIN, INT_MAX; cbn; lia
     | reflexivity | reflexivity | left; reflexivity].
Defined.

(** ** Parsing dates *)

(** C5, as stated, fails: started at January 1, ordinal day 1, the three
    additions lead from 2009-W53-7 to 2010-004, January 4, while
    [parse_date] yields 2010-003, January 3. *)
Lemma week_date_from_january_1_counterexample :
  parse_date (mk_host 0 calloc_time) "2009-W53-7"
    = Ok (Some (mk_time 2010 0 3 0 0 false)) /\
  spec_week_date 2009 53 7 = mk_time 2010 0 4 0 0 false.
Proof. split; vm_compute; reflexivity. Qed.

(** C5, amended.  The ISO week date is converted from ordinal day 0 of
    the year, the day before January 1 that the zeroed value holds: the
    day number of the result is that of day 0 plus [(week - 1) * 7], plus
    [1 - jan1] when [jan1 <= 4] and [8 - jan1] otherwise, plus [day], and
    the result is a date in range.  [parse_date] takes "2009-W53-7" to
    2010-003, January 3 of 2010, and "2009-W01-1" to 2008-364, December 29
    of 2008. *)
Theorem week_date_conversion :
  (forall year week day,
     let jan1 := crm_time_january1_weekday year in
     let r := week_date calloc_time year week day in
     valid_date r /\
     day_number (years r) (days r)
     = day_number year 0 + (week - 1) * 7
       + (if jan1 <=? 4 then 1 - jan1 else 8 - jan1) + day) /\
  (forall h,
     parse_date h "2009-W53-7" = Ok (Some (week_date calloc_time 2009 53 7)) /\
     week_date calloc_time 2009 53 7 = mk_time 2010 0 3 0 0 false /\
     crm_time_get_gregorian (mk_time 2010 0 3 0 0 false) = Ok (2010, 1, 3)) /\
  (forall h,
     parse_date h "2009-W01-1" = Ok (Some (week_date calloc_time 2009 1 1)) /\
     week_date calloc_time 2009 1 1 = mk_time 2008 0 364 0 0 false /\
     crm_time_get_gregorian (mk_time 2008 0 364 0 0 false) = Ok (2008, 12, 29)).
Proof.
  split; [| split].
  - intros year week day jan1 r. unfold r, week_date. fold jan1.
    set (t0 := set_years calloc_time year).
    assert (D0 : duration t0 = false) by reflexivity.
    destruct (crm_time_add_days_instant t0 ((week - 1) * 7) D0) as (_ & N1 & _ & _ & _ & D1).
    set (t1 := crm_time_add_days t0 ((week - 1) * 7)) in *.
    set (adj := if jan1 <=? 4 then 1 - jan1 else 8 - jan1).
    assert (E : (if jan1 <=? 4 then crm_time_add_days t1 (1 - jan1)
                 else crm_time_add_days t1 (8 - jan1)) = crm_time_add_days t1 adj)
      by (unfold adj; destruct (jan1 <=? 4); reflexivity).
    rewrite E.
    destruct (crm_time_add_days_instant t1 adj D1) as (_ & N2 & _ & _ & _ & D2).
    set (t2 := crm_time_add_days t1 adj) in *.
    destruct (crm_time_add_days_instant t2 day D2) as (V3 & N3 & _).
    split; [exact V3 |]. rewrite N3, N2, N1. reflexivity.
  - intros h. repeat split; vm_compute; reflexivity.
  - intros h. repeat split; vm_compute; reflexivity.
Qed.

(** C2, where the code departs from the claim.  February has 28 days in
    1900 and in 2100, yet [parse_date] accepts "1900-02-29" and
    "2100-02-29": the day is only compared with 31, and the result is
    ordinal day 60, the value of March 1.  "2000-02-29" and "2400-02-29"
    are accepted as the claim has it. *)
Theorem parse_date_accepts_february_29_of_common_years (h : host) :
  crm_time_days_in_month 2 1900 = Ok 28 /\
  crm_time_days_in_month 2 2100 = Ok 28 /\
  parse_date h "1900-02-29" = Ok (Some (mk_time 1900 0 60 0 0 false)) /\
  parse_date h "2100-02-29" = Ok (Some (mk_time 2100 0 60 0 0 false)) /\
  parse_date h "1900-03-01" = Ok (Some (mk_time 1900 0 60 0 0 false)) /\
  parse_date h "2000-02-29" = Ok (Some (mk_time 2000 0 60 0 0 false)) /\
  parse_date h "2400-02-29" = Ok (Some (mk_time 2400 0 60 0 0 false)).
Proof. repeat split; vm_compute; reflexivity. Qed.

(** ** Comparison *)

(** [crm_time_compare] on two values is the sign of the lexicographic
    order of their UTC triples. *)
Lemma crm_time_compare_lexicographic (a b : crm_time) :
  crm_time_compare (Some a) (Some b) = sign_of_order (utc_triple a) (utc_triple b).
Proof.
  unfold crm_time_compare, sign_of_order, utc_triple, do_cmp_field.
  set (t1 := crm_get_utc_time a). set (t2 := crm_get_utc_time b).
  destruct (Z.ltb_spec (years t1) (years t2)), (Z.ltb_spec (years t2) (years t1));
    cbn; try lia; try reflexivity;
    destruct (Z.ltb_spec (days t1) (days t2)), (Z.ltb_spec (days t2) (days t1));
    cbn; try lia; try reflexivity;
    destruct (Z.ltb_spec (seconds t1) (seconds t2)), (Z.ltb_spec (seconds t2) (seconds t1));
    cbn; try lia; reflexivity.
Qed.

(** C4, where the code departs from the claim.  [crm_time_compare] is the
    sign of the lexicographic order of the UTC triples, NULL sorts first,
    and 12:00:00 at offset +02:00 equals 10:00:00 at offset 0.  But
    [crm_time_parse] looks for the offset only behind a "Z" or a blank: of
    "2020-02-29T12:00:00+02:00" the suffix is not read, and the value gets
    the local offset of the host.  On a host whose local offset is 0 that
    is 12:00:00 at offset 0, and the comparison with
    "2020-02-29T10:00:00Z" gives 1. *)
Theorem crm_time_compare_attached_offset (h : host) (now : crm_time) :
  (forall a b,
     crm_time_compare (Some a) (Some b) = sign_of_order (utc_triple a) (utc_triple b)) /\
  (forall b, crm_time_compare None None = 0 /\ crm_time_compare None (Some b) = -1
             /\ crm_time_compare (Some b) None = 1) /\
  crm_time_compare (Some (mk_time 2020 0 60 43200 7200 false))
                   (Some (mk_time 2020 0 60 36000 0 false)) = 0 /\
  parse_date h "2020-02-29T10:00:00Z" = Ok (Some (mk_time 2020 0 60 36000 0 false)) /\
  parse_date h "2020-02-29T12:00:00+02:00"
    = Ok (Some (mk_time 2020 0 60 43200 (crm_time_parse_offset h None) false)) /\
  crm_time_parse_offset (mk_host 0 now) None = 0 /\
  crm_time_compare (Some (mk_time 2020 0 60 43200 0 false))
                   (Some (mk_time 2020 0 60 36000 0 false)) = 1.
Proof.
  split; [exact crm_time_compare_lexicographic |].
  repeat split; vm_compute; reflexivity.
Qed.

(** ** Durations *)

(** C7.  "P1Y2M10DT2H30M" is 1 year, 2 months, 10 days and 9000 seconds;
    added to "2020-01-31T00:00:00Z" it gives 2021-100 at 9000 seconds and
    offset 0, that is 2021-04-10 02:30:00Z: the year first (2021-031),
    then the months (2021-090, March 31), then the days (2021-100), then
    the seconds. *)
Theorem duration_added_to_january_31 (h : host) :
  parse_date h "2020-01-31T00:00:00Z" = Ok (Some (mk_time 2020 0 31 0 0 false)) /\
  crm_time_parse_duration "P1Y2M10DT2H30M" = Ok (Some (mk_time 1 2 10 9000 0 false)) /\
  crm_time_add (Some (mk_time 2020 0 31 0 0 false)) (Some (mk_time 1 2 10 9000 0 false))
    = Ok (Some (mk_time 2021 0 100 9000 0 false)) /\
  crm_time_add_months (mk_time 2021 0 31 0 0 false) 2
    = Ok (mk_time 2021 0 90 0 0 false) /\
  crm_time_add_days (mk_time 2021 0 90 0 0 false) 10 = mk_time 2021 0 100 0 0 false /\
  crm_time_add_seconds (mk_time 2021 0 100 0 0 false) 9000
    = mk_time 2021 0 100 9000 0 false /\
  crm_time_get_gregorian (mk_time 2021 0 100 9000 0 false) = Ok (2021, 4, 10) /\
  crm_time_get_timeofday (mk_time 2021 0 100 9000 0 false) = (2, 30, 0) /\
  crm_time_as_string (Some (mk_time 2021 0 100 9000 0 false)) gregorian_timeofday_timezone
    = Ok (Some "2021-04-10 02:30:00Z"%string).
Proof. repeat split; vm_compute; reflexivity. Qed.

(** ** The epoch *)

Lemma get_seconds_loop_spec (fuel : nat) :
  forall lpc upto in_seconds,
    lpc <= upto -> upto - lpc <= Z.of_nat fuel ->
    get_seconds_loop fuel lpc upto in_seconds
    = in_seconds + 86400 * (days_before_year upto - days_before_year lpc).
Proof.
  induction fuel as [| k IH]; intros lpc upto acc H1 H2; cbn [get_seconds_loop].
  - replace upto with lpc by lia. lia.
  - destruct (Z.ltb_spec lpc upto) as [L | L].
    + rewrite IH by lia. rewrite days_before_year_succ. lia.
    + replace upto with lpc by lia. lia.
Qed.

(** [crm_time_get_seconds] of a value at offset 0, in year 1 or later and
    without months, counts the seconds from 0001-01-01 00:00:00. *)
Lemma crm_time_get_seconds_origin (t : crm_time) :
  offset t = 0 -> 1 <= years t -> months t <= 0 -> 1 <= days t ->
  crm_time_get_seconds t = 86400 * (day_number (years t) (days t) - 1) + seconds t.
Proof.
  intros Ho Hy Hm Hd. unfold crm_time_get_seconds, crm_get_utc_time.
  rewrite Ho. cbn [Z.eqb negb set_months years months days seconds].
  rewrite get_seconds_loop_spec by lia.
  destruct (Z.ltb_spec 0 (months t)); [lia |].
  destruct (Z.ltb_spec 0 (days t)); [| lia].
  unfold day_number. change (days_before_year 1) with 0. lia.
Qed.

(** C8.  "epoch" is parsed to years 1970, days 1, seconds 0, offset 0; its
    Gregorian form with time of day and timezone is
    "1970-01-01 00:00:00Z"; [crm_time_get_seconds] of it is the constant
    62135596800 and [crm_time_get_seconds_since_epoch] is 0. *)
Theorem epoch_is_the_unix_epoch (h : host) :
  parse_date h "epoch" = Ok (Some (mk_time 1970 0 1 0 0 false)) /\
  crm_time_as_string (Some (mk_time 1970 0 1 0 0 false)) gregorian_timeofday_timezone
    = Ok (Some "1970-01-01 00:00:00Z"%string) /\
  crm_time_get_seconds (mk_time 1970 0 1 0 0 false) = EPOCH_SECONDS /\
  EPOCH_SECONDS = 62135596800 /\
  crm_time_get_seconds_since_epoch (mk_time 1970 0 1 0 0 false) = 0.
Proof. repeat split; vm_compute; reflexivity. Qed.

(** ** Months in comparisons *)

(** C9.  Two values with the same years, days, seconds and offset compare
    as 0, whatever their months. *)
Theorem crm_time_compare_ignores_months (a b : crm_time) :
  years a = years b -> days a = days b -> seconds a = seconds b ->
  offset a = offset b ->
  crm_time_compare (Some a) (Some b) = 0.
Proof.
  intros Hy Hd Hs Ho.
  assert (E : utc_triple a = utc_triple b).
  { unfold utc_triple, crm_get_utc_time. rewrite Hy, Hd, Hs, Ho.
    destruct (negb (offset b =? 0)); reflexivity. }
  rewrite crm_time_compare_lexicographic, E.
  unfold sign_of_order. destruct (utc_triple b) as [[y d] s].
  rewrite !Z.ltb_irrefl. reflexivity.
Qed.

(** The durations P1M and P2M differ in their months and compare as 0. *)
Lemma crm_time_compare_ignores_months_witness :
  crm_time_parse_duration "P1M" = Ok (Some (mk_time 0 1 0 0 0 false)) /\
  crm_time_parse_duration "P2M" = Ok (Some (mk_time 0 2 0 0 0 false)) /\
  months (mk_time 0 1 0 0 0 false) <> months (mk_time 0 2 0 0 0 false) /\
  crm_time_compare (Some (mk_time 0 1 0 0 0 false)) (Some (mk_time 0 2 0 0 0 false)) = 0.
Proof.
  split; [reflexivity |]. split; [reflexivity |]. split; [cbn; lia |].
  apply (crm_time_compare_ignores_months (mk_time 0 1 0 0 0 false) (mk_time 0 2 0 0 0 false));
    reflexivity.
Defined.

(** ** Formatting NULL *)

(** The date form is always produced. *)
Lemma date_string_ok (date_time dt : crm_time) (flags : Z) :
  exists r, date_string date_time dt flags = Ok r.
Proof.
  unfold date_string.
  destruct (has_flag flags crm_time_seconds); [eexists; reflexivity |].
  destruct (has_flag flags crm_time_epoch); [eexists; reflexivity |].
  destruct (has_flag flags crm_time_weeks).
  { destruct (crm_time_get_isoweek dt) as [[[y w] d] |]; eexists; reflexivity. }
  destruct (has_flag flags crm_time_ordinal).
  { destruct (crm_time_get_ordinal dt) as [y d]. eexists. reflexivity. }
  destruct (crm_time_get_gregorian_ok dt) as [[[y m] d] ->]. cbn [bind].
  eexists. reflexivity.
Qed.

(** C10.  For every flag set, [crm_time_as_string] of NULL is the empty
    string, not NULL; a value that is not NULL is given a string as well. *)
Theorem crm_time_as_string_null (flags : Z) :
  crm_time_as_string None flags = Ok (Some EmptyString) /\
  forall date_time, exists s, crm_time_as_string (Some date_time) flags = Ok (Some s).
Proof.
  split; [reflexivity |]. intros date_time. unfold crm_time_as_string.
  set (dt := if negb (offset date_time =? 0)
                && negb (has_flag flags crm_time_log_with_timezone)
             then crm_get_utc_time date_time else date_time).
  assert (E : (if negb (offset date_time =? 0)
                  && negb (has_flag flags crm_time_log_with_timezone)
               then Some (crm_get_utc_time date_time) else Some date_time) = Some dt)
    by (unfold dt; destruct (negb (offset date_time =? 0)
                             && negb (has_flag flags crm_time_log_with_timezone));
        reflexivity).
  rewrite E.
  destruct (has_flag flags crm_time_log_duration); [eexists; reflexivity |].
  destruct (has_flag flags crm_time_log_date).
  - destruct (date_string_ok date_time dt flags) as [[s stop] ->]. cbn [bind].
    destruct stop; [eexists; reflexivity |].
    destruct (has_flag flags crm_time_log_timeofday); [| eexists; reflexivity].
    destruct (time_string dt flags) as [time_s offset_s]. eexists. reflexivity.
  - cbn [bind].
    destruct (has_flag flags crm_time_log_timeofday); [| eexists; reflexivity].
    destruct (time_string dt flags) as [time_s offset_s]. eexists. reflexivity.
Qed.

(** * Further properties *)

(** ** Days and seconds as a calendar *)

(** A date in range and a second of the day are determined by the moment
    they stand for. *)
Lemma instant_inj (y1 d1 s1 y2 d2 s2 : Z) :
  1 <= d1 <= year_days y1 -> 1 <= d2 <= year_days y2 ->
  0 <= s1 < 86400 -> 0 <= s2 < 86400 ->
  86400 * day_number y1 d1 + s1 = 86400 * day_number y2 d2 + s2 ->
  y1 = y2 /\ d1 = d2 /\ s1 = s2.
Proof.
  intros V1 V2 R1 R2 E.
  assert (N : day_number y1 d1 = day_number y2 d2) by lia.
  destruct (day_number_inj _ _ _ _ V1 V2 N) as [-> ->]. repeat split; lia.
Qed.

Lemma day_number_lt (y1 d1 y2 d2 : Z) :
  1 <= d1 <= year_days y1 -> 1 <= d2 <= year_days y2 ->
  (day_number y1 d1 < day_number y2 d2 <-> y1 < y2 \/ (y1 = y2 /\ d1 < d2)).
Proof.
  intros V1 V2. unfold day_number. split.
  - intros L. destruct (Z.lt_trichotomy y1 y2) as [H | [H | H]]; [left; exact H | right | exfalso].
    + subst. split; [reflexivity | lia].
    + pose proof (days_before_year_mono (y2 + 1) y1 ltac:(lia)) as M.
      rewrite days_before_year_succ in M. lia.
  - intros [H | [-> H]]; [| lia].
    pose proof (days_before_year_mono (y1 + 1) y2 ltac:(lia)) as M.
    rewrite days_before_year_succ in M. lia.
Qed.

(** X1.  [crm_time_add_days] on a value with the duration flag clear gives
    the date [n] days later: a date in range whose day number is that of
    the old date plus [n]; the other fields stay. *)
Theorem crm_time_add_days_later (a : crm_time) (n : Z) :
  duration a = false ->
  1 <= days (crm_time_add_days a n) <= year_days (years (crm_time_add_days a n)) /\
  day_number (years (crm_time_add_days a n)) (days (crm_time_add_days a n))
  = day_number (years a) (days a) + n /\
  seconds (crm_time_add_days a n) = seconds a /\
  offset (crm_time_add_days a n) = offset a /\
  months (crm_time_add_days a n) = months a.
Proof.
  intros Hd. destruct (crm_time_add_days_instant a n Hd) as (V & N & S & O & M & _).
  repeat split; try assumption; apply V.
Qed.

Lemma crm_time_add_days_later_witness :
  duration (mk_time 2020 0 366 0 0 false) = false /\
  1 <= days (crm_time_add_days (mk_time 2020 0 366 0 0 false) 1)
    <= year_days (years (crm_time_add_days (mk_time 2020 0 366 0 0 false) 1)) /\
  day_number (years (crm_time_add_days (mk_time 2020 0 366 0 0 false) 1))
             (days (crm_time_add_days (mk_time 2020 0 366 0 0 false) 1))
  = day_number 2020 366 + 1 /\
  seconds (crm_time_add_days (mk_time 2020 0 366 0 0 false) 1) = 0 /\
  offset (crm_time_add_days (mk_time 2020 0 366 0 0 false) 1) = 0 /\
  months (crm_time_add_days (mk_time 2020 0 366 0 0 false) 1) = 0.
Proof.
  split; [reflexivity |].
  apply (crm_time_add_days_later (mk_time 2020 0 366 0 0 false) 1). reflexivity.
Defined.

(** X2.  Adding days in two steps is adding their sum, whatever the signs
    and whatever years are crossed. *)
Theorem crm_time_add_days_add_days (a : crm_time) (n m : Z) :
  duration a = false ->
  crm_time_add_days (crm_time_add_days a n) m = crm_time_add_days a (n + m).
Proof.
  intros Hd.
  destruct (crm_time_add_days_instant a n Hd) as (V1 & N1 & S1 & O1 & M1 & D1).
  destruct (crm_time_add_days_instant _ m D1) as (V2 & N2 & S2 & O2 & M2 & D2).
  destruct (crm_time_add_days_instant a (n + m) Hd) as (V3 & N3 & S3 & O3 & M3 & D3).
  assert (E : day_number (years (crm_time_add_days (crm_time_add_days a n) m))
                         (days (crm_time_add_days (crm_time_add_days a n) m))
              = day_number (years (crm_time_add_days a (n + m)))
                           (days (crm_time_add_days a (n + m)))) by lia.
  destruct (day_number_inj _ _ _ _ V2 V3 E) as [Ey Ed].
  apply time_ext; congruence.
Qed.

Lemma crm_time_add_days_add_days_witness :
  duration (mk_time 2020 0 1 0 0 false) = false /\
  crm_time_add_days (crm_time_add_days (mk_time 2020 0 1 0 0 false) (-800)) 1200
  = crm_time_add_days (mk_time 2020 0 1 0 0 false) (-800 + 1200).
Proof.
  split; [reflexivity |].
  apply (crm_time_add_days_add_days (mk_time 2020 0 1 0 0 false) (-800) 1200). reflexivity.
Defined.

(** X3.  [crm_time_add_seconds] on a value with the duration flag clear
    moves the moment by [n] seconds and leaves a date in range and a
    second of the day; in two steps it adds the sum; whole days of seconds
    are days. *)
Theorem crm_time_add_seconds_later (a : crm_time) (n m k : Z) :
  duration a = false ->
  crm_time_check (Some (crm_time_add_seconds a n)) = true /\
  utc_seconds (crm_time_add_seconds a n) = utc_seconds a + n /\
  crm_time_add_seconds (crm_time_add_seconds a n) m = crm_time_add_seconds a (n + m) /\
  (0 <= seconds a < 86400 ->
   crm_time_add_seconds a (24 * 60 * 60 * k) = crm_time_add_days a k).
Proof.
  intros Hd.
  destruct (crm_time_add_seconds_instant a n Hd) as (V1 & R1 & N1 & O1 & M1 & D1).
  split; [apply crm_time_check_iff; split; assumption |].
  split; [unfold utc_seconds; lia |]. split.
  - destruct (crm_time_add_seconds_instant _ m D1) as (V2 & R2 & N2 & O2 & M2 & D2).
    destruct (crm_time_add_seconds_instant a (n + m) Hd) as (V3 & R3 & N3 & O3 & M3 & D3).
    destruct (instant_inj _ _ _ _ _ _ V2 V3 R2 R3 ltac:(lia)) as (Ey & Ed & Es).
    apply time_ext; congruence.
  - intros Rs.
    destruct (crm_time_add_seconds_instant a (24 * 60 * 60 * k) Hd)
      as (V2 & R2 & N2 & O2 & M2 & D2).
    destruct (crm_time_add_days_instant a k Hd) as (V3 & N3 & S3 & O3 & M3 & D3).
    rewrite <- S3 in Rs.
    destruct (instant_inj _ _ _ _ _ _ V2 V3 R2 Rs ltac:(lia)) as (Ey & Ed & Es).
    apply time_ext; congruence.
Qed.

Lemma crm_time_add_seconds_later_witness :
  duration (mk_time 2020 0 366 86399 3600 false) = false /\
  crm_time_check (Some (crm_time_add_seconds (mk_time 2020 0 366 86399 3600 false) 1)) = true /\
  utc_seconds (crm_time_add_seconds (mk_time 2020 0 366 86399 3600 false) 1)
  = utc_seconds (mk_time 2020 0 366 86399 3600 false) + 1 /\
  crm_time_add_seconds (crm_time_add_seconds (mk_time 2020 0 366 86399 3600 false) 1) (-5)
  = crm_time_add_seconds (mk_time 2020 0 366 86399 3600 false) (1 + -5) /\
  (0 <= seconds (mk_time 2020 0 366 86399 3600 false) < 86400 ->
   crm_time_add_seconds (mk_time 2020 0 366 86399 3600 false) (24 * 60 * 60 * 3)
   = crm_time_add_days (mk_time 2020 0 366 86399 3600 false) 3).
Proof.
  split; [reflexivity |].
  apply (crm_time_add_seconds_later (mk_time 2020 0 366 86399 3600 false) 1 (-5) 3).
  reflexivity.
Defined.

(** ** UTC forms and the order of moments *)

(** The UTC form of a value: offset 0, the same moment, and a date and a
    second of the day in range when the value has them or has an offset. *)
Lemma crm_get_utc_time_spec (t : crm_time) :
  offset (crm_get_utc_time t) = 0 /\
  duration (crm_get_utc_time t) = false /\
  utc_seconds (crm_get_utc_time t) = utc_seconds t /\
  (crm_time_check (Some t) = true -> crm_time_check (Some (crm_get_utc_time t)) = true).
Proof.
  unfold crm_get_utc_time.
  destruct (Z.eqb_spec (offset t) 0) as [E | E]; cbn [negb].
  - split; [reflexivity |]. split; [reflexivity |]. split.
    + unfold utc_seconds. cbn. lia.
    + rewrite !crm_time_check_iff. unfold valid_date. cbn. tauto.
  - set (u := mk_time (years t) 0 (days t) (seconds t) 0 false).
    destruct (crm_time_add_seconds_instant u (- offset t) eq_refl) as (V & R & N & O & M & D).
    cbn [u years days seconds offset] in N, O.
    repeat split; try assumption.
    + unfold utc_seconds. rewrite O. lia.
    + intros _. apply crm_time_check_iff. split; assumption.
Qed.

(** The order of two triples in range is the order of their moments. *)
Lemma sign_of_order_moments (y1 d1 s1 y2 d2 s2 : Z) :
  1 <= d1 <= year_days y1 -> 1 <= d2 <= year_days y2 ->
  0 <= s1 < 86400 -> 0 <= s2 < 86400 ->
  sign_of_order (y1, d1, s1) (y2, d2, s2)
  = Z.sgn (86400 * day_number y1 d1 + s1 - (86400 * day_number y2 d2 + s2)).
Proof.
  intros V1 V2 R1 R2. unfold sign_of_order.
  pose proof (day_number_lt _ _ _ _ V1 V2) as L12.
  pose proof (day_number_lt _ _ _ _ V2 V1) as L21.
  destruct (Z.ltb_spec y1 y2) as [A | A].
  { assert (day_number y1 d1 < day_number y2 d2) by (apply L12; lia). lia. }
  destruct (Z.ltb_spec y2 y1) as [B | B].
  { assert (day_number y2 d2 < day_number y1 d1) by (apply L21; lia). lia. }
  assert (y1 = y2) by lia. subst y2.
  destruct (Z.ltb_spec d1 d2) as [C | C].
  { assert (day_number y1 d1 < day_number y1 d2) by (apply L12; lia). lia. }
  destruct (Z.ltb_spec d2 d1) as [D | D].
  { assert (day_number y1 d2 < day_number y1 d1) by (apply L21; lia). lia. }
  assert (d1 = d2) by lia. subst d2.
  destruct (Z.ltb_spec s1 s2); [lia |]. destruct (Z.ltb_spec s2 s1); lia.
Qed.

Lemma crm_time_compare_moments (a b : crm_time) :
  crm_time_check (Some a) = true -> crm_time_check (Some b) = true ->
  crm_time_compare (Some a) (Some b) = Z.sgn (utc_seconds a - utc_seconds b).
Proof.
  intros Ca Cb. rewrite crm_time_compare_lexicographic. unfold utc_triple.
  destruct (crm_get_utc_time_spec a) as (Oa & _ & Ta & Va).
  destruct (crm_get_utc_time_spec b) as (Ob & _ & Tb & Vb).
  specialize (Va Ca). specialize (Vb Cb).
  apply crm_time_check_iff in Va, Vb. destruct Va as [Va Ra], Vb as [Vb Rb].
  rewrite (sign_of_order_moments _ _ _ _ _ _ Va Vb Ra Rb).
  f_equal. unfold utc_seconds in *. lia.
Qed.

Lemma crm_get_utc_time_idempotent (t : crm_time) :
  crm_get_utc_time (crm_get_utc_time t) = crm_get_utc_time t.
Proof.
  destruct (crm_get_utc_time_spec t) as (O & D & _).
  unfold crm_get_utc_time at 1. rewrite O. cbn [Z.eqb negb].
  apply time_ext; cbn; congruence.
Qed.

(** X4.  The UTC form of a value has offset 0 and stands for the same
    moment; it passes [crm_time_check] when the value does; taking the UTC
    form twice changes nothing more. *)
Theorem crm_get_utc_time_same_moment (t : crm_time) :
  offset (crm_get_utc_time t) = 0 /\
  utc_seconds (crm_get_utc_time t) = utc_seconds t /\
  (crm_time_check (Some t) = true -> crm_time_check (Some (crm_get_utc_time t)) = true) /\
  crm_get_utc_time (crm_get_utc_time t) = crm_get_utc_time t.
Proof.
  destruct (crm_get_utc_time_spec t) as (O & D & T & V).
  repeat split; try assumption. apply crm_get_utc_time_idempotent.
Qed.

(** X5.  On values that pass [crm_time_check], [crm_time_compare] is the
    sign of the difference of the moments, whatever the offsets: 0 exactly
    for the same moment. *)
Theorem crm_time_compare_is_order_of_moments (a b : crm_time) :
  crm_time_check (Some a) = true -> crm_time_check (Some b) = true ->
  crm_time_compare (Some a) (Some b) = Z.sgn (utc_seconds a - utc_seconds b) /\
  (crm_time_compare (Some a) (Some b) = 0 <-> utc_seconds a = utc_seconds b).
Proof.
  intros Ca Cb. rewrite (crm_time_compare_moments a b Ca Cb). split; [reflexivity | lia].
Qed.

Lemma crm_time_compare_is_order_of_moments_witness :
  crm_time_check (Some (mk_time 2020 0 60 43200 7200 false)) = true /\
  crm_time_check (Some (mk_time 2020 0 60 36000 0 false)) = true /\
  crm_time_compare (Some (mk_time 2020 0 60 43200 7200 false))
                   (Some (mk_time 2020 0 60 36000 0 false))
  = Z.sgn (utc_seconds (mk_time 2020 0 60 43200 7200 false)
           - utc_seconds (mk_time 2020 0 60 36000 0 false)) /\
  (crm_time_compare (Some (mk_time 2020 0 60 43200 7200 false))
                    (Some (mk_time 2020 0 60 36000 0 false)) = 0
   <-> utc_seconds (mk_time 2020 0 60 43200 7200 false)
       = utc_seconds (mk_time 2020 0 60 36000 0 false)).
Proof.
  split; [reflexivity |]. split; [reflexivity |].
  apply (crm_time_compare_is_order_of_moments
           (mk_time 2020 0 60 43200 7200 false) (mk_time 2020 0 60 36000 0 false));
    reflexivity.
Defined.

Lemma sign_of_order_opp (l r : Z * Z * Z) : sign_of_order l r = - sign_of_order r l.
Proof.
  destruct l as [[y1 d1] s1], r as [[y2 d2] s2]. unfold sign_of_order.
  destruct (Z.ltb_spec y1 y2), (Z.ltb_spec y2 y1); try lia;
    destruct (Z.ltb_spec d1 d2), (Z.ltb_spec d2 d1); try lia;
    destruct (Z.ltb_spec s1 s2), (Z.ltb_spec s2 s1); lia.
Qed.

(** X6.  Swapping the arguments of [crm_time_compare] negates the result,
    for every pair of arguments, NULL included; the result is -1, 0 or 1. *)
Theorem crm_time_compare_swap (a b : option crm_time) :
  crm_time_compare a b = - crm_time_compare b a /\
  (crm_time_compare a b = -1 \/ crm_time_compare a b = 0 \/ crm_time_compare a b = 1).
Proof.
  destruct a as [a |], b as [b |]; cbn [crm_time_compare]; try (split; [reflexivity | lia]).
  change (crm_time_compare (Some a) (Some b) = - crm_time_compare (Some b) (Some a) /\
          (crm_time_compare (Some a) (Some b) = -1 \/ crm_time_compare (Some a) (Some b) = 0
           \/ crm_time_compare (Some a) (Some b) = 1)).
  rewrite !crm_time_compare_lexicographic. split; [apply sign_of_order_opp |].
  destruct (utc_triple a) as [[y1 d1] s1], (utc_triple b) as [[y2 d2] s2].
  unfold sign_of_order.
  destruct (y1 <? y2), (y2 <? y1), (d1 <? d2), (d2 <? d1), (s1 <? s2), (s2 <? s1); lia.
Qed.

(** X7.  On values that pass [crm_time_check], [crm_time_compare] is
    transitive: not after, then not after. *)
Theorem crm_time_compare_transitive (a b c : crm_time) :
  crm_time_check (Some a) = true -> crm_time_check (Some b) = true ->
  crm_time_check (Some c) = true ->
  crm_time_compare (Some a) (Some b) <= 0 -> crm_time_compare (Some b) (Some c) <= 0 ->
  crm_time_compare (Some a) (Some c) <= 0 /\
  (crm_time_compare (Some a) (Some b) < 0 \/ crm_time_compare (Some b) (Some c) < 0 ->
   crm_time_compare (Some a) (Some c) = -1).
Proof.
  intros Ca Cb Cc.
  rewrite (crm_time_compare_moments a b Ca Cb), (crm_time_compare_moments b c Cb Cc),
    (crm_time_compare_moments a c Ca Cc).
  lia.
Qed.

Lemma crm_time_compare_transitive_witness :
  crm_time_check (Some (mk_time 2020 0 60 36000 7200 false)) = true /\
  crm_time_check (Some (mk_time 2020 0 60 36000 0 false)) = true /\
  crm_time_check (Some (mk_time 2020 0 60 30000 (-7200) false)) = true /\
  crm_time_compare (Some (mk_time 2020 0 60 36000 7200 false))
                   (Some (mk_time 2020 0 60 36000 0 false)) <= 0 /\
  crm_time_compare (Some (mk_time 2020 0 60 36000 0 false))
                   (Some (mk_time 2020 0 60 30000 (-7200) false)) <= 0 /\
  crm_time_compare (Some (mk_time 2020 0 60 36000 7200 false))
                   (Some (mk_time 2020 0 60 30000 (-7200) false)) <= 0 /\
  (crm_time_compare (Some (mk_time 2020 0 60 36000 7200 false))
                    (Some (mk_time 2020 0 60 36000 0 false)) < 0
   \/ crm_time_compare (Some (mk_time 2020 0 60 36000 0 false))
                       (Some (mk_time 2020 0 60 30000 (-7200) false)) < 0 ->
   crm_time_compare (Some (mk_time 2020 0 60 36000 7200 false))
                    (Some (mk_time 2020 0 60 30000 (-7200) false)) = -1).
Proof.
  split; [reflexivity |]. split; [reflexivity |]. split; [reflexivity |].
  split; [vm_compute; discriminate |]. split; [vm_compute; discriminate |].
  apply (crm_time_compare_transitive
           (mk_time 2020 0 60 36000 7200 false) (mk_time 2020 0 60 36000 0 false)
           (mk_time 2020 0 60 30000 (-7200) false));
    try reflexivity; vm_compute; discriminate.
Defined.

(** ** Sums *)

(** [crm_time_add] of a value in range, in a year other than 0, and a
    duration without years and without offset. *)
Lemma crm_time_add_plain (v d : crm_time) :
  crm_time_check (Some v) = true -> years v <> 0 -> in_int (years v) ->
  years d = 0 -> offset d = 0 ->
  exists r,
    crm_time_add (Some v) (Some d) = Ok (Some r) /\
    crm_time_check (Some r) = true /\ offset r = offset v /\
    (months d = 0 -> utc_seconds r = utc_seconds v + 86400 * days d + seconds d).
Proof.
  intros Hc Hy Hi Yd Od. apply crm_time_check_iff in Hc. destruct Hc as [Hv Hs].
  set (v0 := crm_time_set calloc_time v).
  assert (U : crm_get_utc_time d
              = mk_time (years d) (months d) (days d) (seconds d) 0 false).
  { unfold crm_get_utc_time. rewrite Od. reflexivity. }
  unfold crm_time_add. fold v0. rewrite U. cbn [years months days seconds].
  rewrite Yd, Z.add_0_r.
  assert (E0 : set_years v0 (years v0) = v0) by (apply time_ext; reflexivity).
  rewrite E0.
  assert (V0 : valid_date v0) by exact Hv.
  destruct (crm_time_add_months_spec v0 (months d) V0 Hy)
    as (m & dd & x & r1 & _ & _ & _ & _ & A & _ & _ & _ & V1 & _ & S1 & O1 & D1).
  rewrite A. cbn [bind].
  assert (D1' : duration r1 = false) by (rewrite D1; reflexivity).
  destruct (crm_time_add_days_instant r1 (days d) D1') as (V2 & N2 & S2 & O2 & M2 & D2).
  destruct (crm_time_add_seconds_instant _ (seconds d) D2) as (V3 & R3 & N3 & O3 & M3 & D3).
  eexists. split; [reflexivity |].
  split; [apply crm_time_check_iff; split; assumption |].
  split; [rewrite O3, O2, O1; reflexivity |].
  intros Md. rewrite Md in A.
  rewrite (crm_time_add_months_zero v0 V0 Hy Hi) in A. injection A as <-.
  unfold utc_seconds. rewrite O3, O2. cbn [v0 crm_time_set years days seconds offset] in *.
  lia.
Qed.

(** X8.  [crm_time_add] of a value that passes [crm_time_check], in a year
    other than 0, and a duration without years and without offset returns
    a value that passes the check again and keeps the offset; without
    months either, the moment moves by the days and seconds of the
    duration. *)
Theorem crm_time_add_days_and_seconds (v d : crm_time) :
  crm_time_check (Some v) = true -> years v <> 0 -> in_int (years v) ->
  years d = 0 -> offset d = 0 ->
  exists r,
    crm_time_add (Some v) (Some d) = Ok (Some r) /\
    crm_time_check (Some r) = true /\ offset r = offset v /\
    (months d = 0 -> utc_seconds r = utc_seconds v + 86400 * days d + seconds d).
Proof. exact (crm_time_add_plain v d). Qed.

Lemma crm_time_add_days_and_seconds_witness :
  crm_time_check (Some (mk_time 2020 0 366 86000 3600 false)) = true /\
  exists r,
    crm_time_add (Some (mk_time 2020 0 366 86000 3600 false))
                 (Some (mk_time 0 0 400 9000 0 false)) = Ok (Some r) /\
    crm_time_check (Some r) = true /\ offset r = 3600 /\
    (0 = 0 -> utc_seconds r
              = utc_seconds (mk_time 2020 0 366 86000 3600 false) + 86400 * 400 + 9000).
Proof.
  split; [reflexivity |].
  apply (crm_time_add_days_and_seconds (mk_time 2020 0 366 86000 3600 false)
                                       (mk_time 0 0 400 9000 0 false));
    [reflexivity | cbn; lia | unfold in_int, INT_MIN, INT_MAX; cbn; lia
     | reflexivity | reflexivity].
Defined.

(** X9.  Adding the same duration of days and seconds (no years, no months,
    no offset) to two values that pass [crm_time_check], each in a year
    other than 0 and within [int], keeps their order. *)
Theorem crm_time_add_keeps_order (a b d : crm_time) :
  crm_time_check (Some a) = true -> years a <> 0 -> in_int (years a) ->
  crm_time_check (Some b) = true -> years b <> 0 -> in_int (years b) ->
  years d = 0 -> months d = 0 -> offset d = 0 ->
  exists a' b',
    crm_time_add (Some a) (Some d) = Ok (Some a') /\
    crm_time_add (Some b) (Some d) = Ok (Some b') /\
    crm_time_compare (Some a') (Some b') = crm_time_compare (Some a) (Some b).
Proof.
  intros Ca Ya Ia Cb Yb Ib Yd Md Od.
  destruct (crm_time_add_plain a d Ca Ya Ia Yd Od) as (a' & Aa & Ca' & _ & Ta).
  destruct (crm_time_add_plain b d Cb Yb Ib Yd Od) as (b' & Ab & Cb' & _ & Tb).
  exists a', b'. split; [exact Aa |]. split; [exact Ab |].
  rewrite (crm_time_compare_moments a' b' Ca' Cb'), (crm_time_compare_moments a b Ca Cb).
  rewrite (Ta Md), (Tb Md). f_equal. lia.
Qed.

Lemma crm_time_add_keeps_order_witness :
  exists a' b',
    crm_time_add (Some (mk_time 2020 0 366 86000 3600 false))
                 (Some (mk_time 0 0 400 9000 0 false)) = Ok (Some a') /\
    crm_time_add (Some (mk_time 2021 0 1 0 (-3600) false))
                 (Some (mk_time 0 0 400 9000 0 false)) = Ok (Some b') /\
    crm_time_compare (Some a') (Some b')
    = crm_time_compare (Some (mk_time 2020 0 366 86000 3600 false))
                       (Some (mk_time 2021 0 1 0 (-3600) false)).
Proof.
  apply (crm_time_add_keeps_order (mk_time 2020 0 366 86000 3600 false)
                                  (mk_time 2021 0 1 0 (-3600) false)
                                  (mk_time 0 0 400 9000 0 false));
    try reflexivity; try (cbn; lia); unfold in_int, INT_MIN, INT_MAX; cbn; lia.
Defined.

(** ** Seconds from the origin *)

Lemma days_before_year_bounds (y : Z) :
  1 <= y -> 0 <= days_before_year y <= 366 * y.
Proof.
  intros H. unfold days_before_year.
  assert (A : 0 <= (y - 1) / 4 <= y - 1)
    by (split; [apply Z.div_pos; lia | apply Z.div_le_upper_bound; lia]).
  assert (B : 0 <= (y - 1) / 100 <= (y - 1) / 4)
    by (split; [apply Z.div_pos; lia | apply Z.div_le_compat_l; lia]).
  assert (C : 0 <= (y - 1) / 400 <= (y - 1) / 100)
    by (split; [apply Z.div_pos; lia | apply Z.div_le_compat_l; lia]).
  lia.
Qed.

(** X10.  For values that pass [crm_time_check], have no months and whose UTC
    form lies in year 1 or later, [crm_time_get_seconds] counts the seconds
    of the moment from 0001-01-01 00:00:00 UTC, and it orders the values
    as [crm_time_compare] does. *)
Theorem crm_time_get_seconds_is_moment (a b : crm_time) :
  crm_time_check (Some a) = true -> months a = 0 -> 1 <= years (crm_get_utc_time a) ->
  crm_time_check (Some b) = true -> months b = 0 -> 1 <= years (crm_get_utc_time b) ->
  crm_time_get_seconds a = utc_seconds a - 86400 /\
  0 <= crm_time_get_seconds a /\
  crm_time_compare (Some a) (Some b)
  = Z.sgn (crm_time_get_seconds a - crm_time_get_seconds b).
Proof.
  assert (G : forall t, crm_time_check (Some t) = true -> months t = 0 ->
                        1 <= years (crm_get_utc_time t) ->
                        crm_time_get_seconds t = utc_seconds t - 86400 /\
                        0 <= crm_time_get_seconds t).
  { intros t Ct Mt Yt.
    destruct (crm_get_utc_time_spec t) as (O & D & T & V). specialize (V Ct).
    apply crm_time_check_iff in V. destruct V as [V R].
    assert (Mu : months (crm_get_utc_time t) <= 0).
    { unfold crm_get_utc_time. destruct (negb (offset t =? 0)).
      - destruct (crm_time_add_seconds_instant
                    (mk_time (years t) 0 (days t) (seconds t) 0 false) (- offset t) eq_refl)
          as (_ & _ & _ & _ & M & _). rewrite M. cbn. lia.
      - cbn. lia. }
    assert (E : crm_time_get_seconds t = crm_time_get_seconds (crm_get_utc_time t)).
    { unfold crm_time_get_seconds at 1 2.
      rewrite (crm_get_utc_time_idempotent t). reflexivity. }
    rewrite E.
    rewrite (crm_time_get_seconds_origin (crm_get_utc_time t) O Yt Mu (proj1 V)).
    pose proof (days_before_year_bounds _ Yt).
    unfold valid_date in V. unfold utc_seconds in *. unfold day_number in *. lia. }
  intros Ca Ma Ya Cb Mb Yb.
  destruct (G a Ca Ma Ya) as [Ga Pa]. destruct (G b Cb Mb Yb) as [Gb Pb].
  split; [exact Ga |]. split; [exact Pa |].
  rewrite (crm_time_compare_moments a b Ca Cb), Ga, Gb. f_equal. lia.
Qed.

Lemma crm_time_get_seconds_is_moment_witness :
  crm_time_get_seconds (mk_time 1970 0 1 3600 3600 false)
  = utc_seconds (mk_time 1970 0 1 3600 3600 false) - 86400 /\
  0 <= crm_time_get_seconds (mk_time 1970 0 1 3600 3600 false) /\
  crm_time_compare (Some (mk_time 1970 0 1 3600 3600 false))
                   (Some (mk_time 1969 0 365 86399 0 false))
  = Z.sgn (crm_time_get_seconds (mk_time 1970 0 1 3600 3600 false)
           - crm_time_get_seconds (mk_time 1969 0 365 86399 0 false)).
Proof.
  apply (crm_time_get_seconds_is_moment (mk_time 1970 0 1 3600 3600 false)
                                        (mk_time 1969 0 365 86399 0 false));
    try reflexivity; vm_compute; discriminate.
Defined.

(** ** Weekdays and weeks *)

Lemma january1_weekday_count (y : Z) :
  1 <= y -> crm_time_january1_weekday y = 1 + days_before_year y mod 7.
Proof.
  intros H. unfold crm_time_january1_weekday, days_before_year.
  set (n := y - 1). assert (Hn : 0 <= n) by (unfold n; lia). clearbody n.
  rewrite (Z.rem_mod_nonneg n 100) by lia.
  pose proof (Z.mod_pos_bound n 100 ltac:(lia)) as B.
  pose proof (Z.mod_le n 100 Hn ltac:(lia)) as Le.
  rewrite (Z.quot_div_nonneg (n mod 100) 4) by lia.
  rewrite (Z.quot_div_nonneg (n - n mod 100) 100) by lia.
  assert (Q : 0 <= (n - n mod 100) / 100) by (apply Z.div_pos; lia).
  rewrite (Z.rem_mod_nonneg ((n - n mod 100) / 100) 4) by lia.
  pose proof (Z.mod_pos_bound ((n - n mod 100) / 100) 4 ltac:(lia)) as B4.
  assert (G : 0 <= n mod 100 / 4) by (apply Z.div_pos; lia).
  rewrite Z.rem_mod_nonneg by lia.
  f_equal. euclid.
Qed.

Lemma january1_weekday_next (y : Z) :
  1 <= y ->
  crm_time_january1_weekday (y + 1)
  = 1 + (crm_time_january1_weekday y - 1 + year_days y) mod 7.
Proof.
  intros H. rewrite !january1_weekday_count by lia.
  rewrite days_before_year_succ. f_equal.
  replace (1 + days_before_year y mod 7 - 1 + year_days y)
    with (days_before_year y mod 7 + year_days y) by lia.
  rewrite Zplus_mod_idemp_l. reflexivity.
Qed.

(** X11.  [crm_time_january1_weekday] counts weekdays from Monday
    0001-01-01: it is 1 for year 1, lies between 1 and 7, and January 1 of
    the next year falls [year_days] weekdays later. *)
Theorem crm_time_january1_weekday_counts_days (y : Z) :
  1 <= y ->
  crm_time_january1_weekday 1 = 1 /\
  1 <= crm_time_january1_weekday y <= 7 /\
  crm_time_january1_weekday (y + 1)
  = 1 + (crm_time_january1_weekday y - 1 + year_days y) mod 7.
Proof.
  intros H. split; [reflexivity |]. split; [| apply january1_weekday_next; exact H].
  rewrite january1_weekday_count by exact H.
  pose proof (Z.mod_pos_bound (days_before_year y) 7 ltac:(lia)). lia.
Qed.

Lemma crm_time_january1_weekday_counts_days_witness :
  1 <= 2009 /\
  crm_time_january1_weekday 1 = 1 /\
  1 <= crm_time_january1_weekday 2009 <= 7 /\
  crm_time_january1_weekday (2009 + 1)
  = 1 + (crm_time_january1_weekday 2009 - 1 + year_days 2009) mod 7.
Proof.
  split; [lia |]. apply (crm_time_january1_weekday_counts_days 2009). lia.
Defined.

Lemma weeks_in_year_cases (y : Z) :
  1 <= y ->
  crm_time_weeks_in_year y
  = if (crm_time_january1_weekday y =? 4)
       || (crm_time_leapyear y && (crm_time_january1_weekday y =? 3))
    then 53 else 52.
Proof.
  intros H. unfold crm_time_weeks_in_year.
  rewrite (january1_weekday_next y H).
  assert (B : 1 <= crm_time_january1_weekday y <= 7).
  { rewrite january1_weekday_count by exact H.
    pose proof (Z.mod_pos_bound (days_before_year y) 7 ltac:(lia)). lia. }
  set (j := crm_time_january1_weekday y) in *. unfold year_days.
  destruct (Z.eqb_spec j 4) as [E4 | E4]; [reflexivity |]. cbn [orb].
  destruct (crm_time_leapyear y); cbn [andb].
  - destruct (Z.eqb_spec j 3) as [E3 | E3].
    + subst j. rewrite E3. reflexivity.
    + destruct (Z.eqb_spec (1 + (j - 1 + (365 + 1)) mod 7) 5); [exfalso; euclid | reflexivity].
  - destruct (Z.eqb_spec (1 + (j - 1 + 365) mod 7) 5); [exfalso; euclid | reflexivity].
Qed.

(** ** Gregorian and ordinal dates *)

Lemma crm_time_get_gregorian_spec (t : crm_time) :
  1 <= days t <= year_days (years t) -> years t <> 0 -> in_int (years t) ->
  exists m d x,
    crm_time_get_gregorian t = Ok (u32 (years t), m, d) /\
    1 <= m <= 12 /\ crm_time_days_in_month m (years t) = Ok x /\ 1 <= d <= x /\
    get_ordinal_days (years t) m d = Ok (days t).
Proof.
  intros Hv Hy Hi.
  destruct (gregorian_of_ordinal (years t) (days t) Hv) as (m & d & x & G & Hm & Dx & Hd & O).
  pose proof (days_in_month_bounds _ _ _ Dx) as Bx.
  exists m, d, x. repeat split; try assumption; try lia.
  - unfold crm_time_get_gregorian.
    destruct (Z.eqb_spec (years t) 0) as [E | E]; [contradiction |].
    cbn [negb]. rewrite G. cbn [bind].
    rewrite (u32_small m), (u32_small d) by lia. reflexivity.
  - rewrite <- O. apply get_ordinal_days_leap.
    rewrite (s32_in_int _ Hi).
    destruct (crm_time_leapyear (years t)); reflexivity.
Qed.

(** X12.  The Gregorian form of a date in range, in a year other than 0, has
    a month from 1 to 12 and a day of that month, and [get_ordinal_days]
    takes it back to the ordinal day. *)
Theorem crm_time_get_gregorian_round_trip (t : crm_time) :
  1 <= days t <= year_days (years t) -> years t <> 0 -> in_int (years t) ->
  exists m d x,
    crm_time_get_gregorian t = Ok (u32 (years t), m, d) /\
    1 <= m <= 12 /\ crm_time_days_in_month m (years t) = Ok x /\ 1 <= d <= x /\
    get_ordinal_days (years t) m d = Ok (days t).
Proof. exact (crm_time_get_gregorian_spec t). Qed.

Lemma crm_time_get_gregorian_round_trip_witness :
  exists m d x,
    crm_time_get_gregorian (mk_time 2020 0 366 0 0 false) = Ok (u32 2020, m, d) /\
    1 <= m <= 12 /\ crm_time_days_in_month m 2020 = Ok x /\ 1 <= d <= x /\
    get_ordinal_days 2020 m d = Ok 366.
Proof.
  apply (crm_time_get_gregorian_round_trip (mk_time 2020 0 366 0 0 false));
    [vm_compute; split; discriminate | cbn; lia
     | unfold in_int, INT_MIN, INT_MAX; cbn; lia].
Defined.

(** X13.  In a year other than 0 and within [int], the ordinal day of day
    [d] of month [m], for a month from 1 to 12 and a day of that month,
    lies within the year, and its Gregorian form is [(y, m, d)] again. *)
Theorem get_ordinal_days_round_trip (t : crm_time) (m d x : Z) :
  years t <> 0 -> in_int (years t) ->
  1 <= m <= 12 -> crm_time_days_in_month m (years t) = Ok x -> 1 <= d <= x ->
  exists od,
    get_ordinal_days (years t) m d = Ok od /\
    1 <= od <= year_days (years t) /\
    crm_time_get_gregorian (set_days t od) = Ok (u32 (years t), m, d).
Proof.
  intros Hy Hi Hm Dx Hd.
  pose proof (days_in_month_bounds _ _ _ Dx) as Bx.
  destruct (ordinal_of_gregorian (years t) m d Hm ltac:(lia)) as (x' & od & Dx' & O & Hod & G).
  rewrite (s32_in_int _ Hi) in *.
  rewrite Dx in Dx'. injection Dx' as <-.
  rewrite (u32_small x) in O, G by lia.
  assert (E : (if x <? d then x else d) = d) by (destruct (Z.ltb_spec x d); lia).
  rewrite E in O, G.
  exists od. split; [exact O |]. split; [exact Hod |].
  unfold crm_time_get_gregorian. cbn [set_days years days months].
  destruct (Z.eqb_spec (years t) 0) as [E0 | E0]; [contradiction |].
  cbn [negb]. rewrite G. cbn [bind].
  rewrite (u32_small m), (u32_small d) by lia. reflexivity.
Qed.

Lemma get_ordinal_days_round_trip_witness :
  exists od,
    get_ordinal_days 2020 2 29 = Ok od /\
    1 <= od <= year_days 2020 /\
    crm_time_get_gregorian (set_days (mk_time 2020 0 1 0 0 false) od) = Ok (u32 2020, 2, 29).
Proof.
  apply (get_ordinal_days_round_trip (mk_time 2020 0 1 0 0 false) 2 29 29);
    [cbn; lia | unfold in_int, INT_MIN, INT_MAX; cbn; lia | lia | reflexivity | lia].
Defined.

(** ** Hours, minutes and seconds *)

Lemma crm_time_get_sec_spec (sec : Z) :
  in_int sec ->
  let '(h, m, s) := crm_time_get_sec sec in
  3600 * h + 60 * m + s = Z.abs sec /\ 0 <= h /\ 0 <= m < 60 /\ 0 <= s < 60 /\
  (Z.abs sec < 86400 -> h < 24).
Proof.
  unfold in_int, INT_MIN, INT_MAX. intros H. unfold crm_time_get_sec.
  assert (A : (if sec <? 0 then u32 (0 - sec) else u32 sec) = Z.abs sec).
  { destruct (Z.ltb_spec sec 0); rewrite u32_small; lia. }
  rewrite A. set (a := Z.abs sec). assert (Ha : 0 <= a <= 2147483648) by lia.
  clearbody a. change (60 * 60) with 3600.
  assert (Hh : 0 <= a / 3600 <= a) by (split; [apply Z.div_pos; lia | apply Z.div_le_upper_bound; lia]).
  rewrite (u32_small (3600 * (a / 3600))) by euclid.
  rewrite (u32_small (a - 3600 * (a / 3600))) by euclid.
  set (r := a - 3600 * (a / 3600)).
  assert (Hr : 0 <= r < 3600) by (unfold r; euclid).
  rewrite (u32_small (60 * (r / 60))) by euclid.
  rewrite (u32_small (r - 60 * (r / 60))) by euclid.
  unfold r. repeat split; try euclid.
Qed.

(** X14.  [crm_time_get_sec] splits the magnitude of a second count:
    3600 hours + 60 minutes + seconds is the count without its sign, with
    minutes and seconds below 60, and with the hour below 24 for less
    than a day. *)
Theorem crm_time_get_sec_splits (sec : Z) :
  in_int sec ->
  let '(h, m, s) := crm_time_get_sec sec in
  3600 * h + 60 * m + s = Z.abs sec /\ 0 <= h /\ 0 <= m < 60 /\ 0 <= s < 60 /\
  (Z.abs sec < 86400 -> h < 24).
Proof. exact (crm_time_get_sec_spec sec). Qed.

Lemma crm_time_get_sec_splits_witness :
  in_int (-9000) /\
  let '(h, m, s) := crm_time_get_sec (-9000) in
  3600 * h + 60 * m + s = Z.abs (-9000) /\ 0 <= h /\ 0 <= m < 60 /\ 0 <= s < 60 /\
  (Z.abs (-9000) < 86400 -> h < 24).
Proof.
  split; [unfold in_int, INT_MIN, INT_MAX; lia |].
  apply (crm_time_get_sec_splits (-9000)). unfold in_int, INT_MIN, INT_MAX; lia.
Defined.

(** ** Months in steps *)

Lemma days_in_month_at_least (m y x : Z) :
  1 <= m <= 12 -> crm_time_days_in_month m y = Ok x -> 28 <= x.
Proof.
  intros Hm. unfold crm_time_days_in_month, month_days_at.
  set (i := if (m =? 2) && crm_time_leapyear y then 13 else m).
  assert (Hi : 1 <= i <= 13) by (subst i; destruct ((m =? 2) && crm_time_leapyear y); lia).
  destruct (Z.leb_spec 0 i); [| lia]. destruct (Z.ltb_spec i 14); [| lia].
  cbn [andb]. intros E.
  assert (Ex : x = nth (Z.to_nat i) month_days 0) by congruence.
  rewrite Ex. clear E Ex.
  assert (F : Forall (fun x => 28 <= x) (List.tl month_days))
    by (unfold month_days; cbn [List.tl]; repeat constructor; lia).
  rewrite Forall_forall in F. apply F.
  replace (Z.to_nat i) with (S (Z.to_nat (i - 1))) by lia.
  change (nth (S (Z.to_nat (i - 1))) month_days 0)
    with (nth (Z.to_nat (i - 1)) (List.tl month_days) 0).
  apply nth_In. change (List.length (List.tl month_days)) with 13%nat. lia.
Qed.

(** X15.  For a value that passes [crm_time_check], in a year other than
    0, whose day of the month is at most 28, months added in two steps
    are months added at once, when the year reached by the first step is
    other than 0. *)
Theorem crm_time_add_months_add_months (v r1 : crm_time) (a b y m d : Z) :
  crm_time_check (Some v) = true -> years v <> 0 ->
  crm_time_get_gregorian v = Ok (y, m, d) -> d <= 28 ->
  crm_time_add_months v a = Ok r1 -> years r1 <> 0 ->
  crm_time_add_months r1 b = crm_time_add_months v (a + b).
Proof.
  intros Hc Hy G D28 A1 Hy1.
  apply crm_time_check_iff in Hc. destruct Hc as [Hv Hs].
  destruct (crm_time_add_months_spec v a Hv Hy)
    as (m0 & d0 & x1 & r1' & G0 & Hm0 & Hd0 & Dx1 & A1' & Y1 & O1 & G1 & V1 & M1 & S1 & F1 & U1).
  assert (Er : r1' = r1) by congruence. subst r1'.
  assert (Em0 : m0 = m /\ d0 = d) by (split; congruence).
  destruct Em0 as [-> ->]. clear G0.
  destruct (crm_time_add_months_spec v (a + b) Hv Hy)
    as (m0 & d0 & x3 & r3 & G0 & _ & _ & Dx3 & A3 & Y3 & O3 & G3 & V3 & M3 & S3 & F3 & U3).
  assert (Em0 : m0 = m /\ d0 = d) by (split; congruence).
  destruct Em0 as [-> ->]. clear G0.
  destruct (crm_time_add_months_spec r1 b V1 Hy1)
    as (m1 & d1 & x2 & r2 & Gr1 & Hm1 & Hd1 & Dx2 & A2 & Y2 & O2 & G2 & V2 & M2 & S2 & F2 & U2).
  assert (E1 : m1 = (m - 1 + a) mod 12 + 1 /\ d1 = Z.min d x1).
  { revert Gr1. unfold crm_time_get_gregorian.
    destruct (Z.eqb_spec (years r1) 0) as [E | E]; [contradiction |].
    cbn [negb]. rewrite G1. cbn [bind].
    pose proof (days_in_month_bounds _ _ _ Dx1).
    rewrite (u32_small ((m - 1 + a) mod 12 + 1)) by euclid.
    rewrite (u32_small (Z.min d x1)) by lia.
    intros [= <- <-]. split; reflexivity. }
  destruct E1 as [-> ->].
  pose proof days_in_month_at_least as X28.
  assert (B1 : 28 <= x1) by (eapply X28; [| exact Dx1]; euclid).
  rewrite (Z.min_l d x1) in * by lia.
  replace ((m - 1 + a) mod 12 + 1 - 1 + b) with ((m - 1 + a) mod 12 + b) in * by lia.
  assert (Em : ((m - 1 + a) mod 12 + b) mod 12 = (m - 1 + (a + b)) mod 12).
  { rewrite Zplus_mod_idemp_l. f_equal. lia. }
  assert (Ey : s32 (years r1 + ((m - 1 + a) mod 12 + b) / 12)
               = s32 (years v + (m - 1 + (a + b)) / 12)).
  { rewrite Y1. unfold s32.
    set (w := (years v + (m - 1 + a) / 12) mod 4294967296).
    assert (Ew : ((if w <? 2147483648 then w else w - 4294967296)
                  + ((m - 1 + a) mod 12 + b) / 12) mod 4294967296
                 = (years v + (m - 1 + (a + b)) / 12) mod 4294967296).
    { unfold w. destruct (_ <? 2147483648); euclid. }
    rewrite Ew. reflexivity. }
  rewrite Em, Ey in *.
  rewrite Dx3 in Dx2. injection Dx2 as <-.
  assert (B3 : 28 <= x3) by (eapply X28; [| exact Dx3]; euclid).
  rewrite (Z.min_l d x3) in * by lia.
  rewrite A2, A3. f_equal.
  assert (Edays : days r2 = days r3).
  { rewrite <- Y3 in Y2. rewrite Y2 in O2. rewrite O3 in O2. injection O2 as O2. symmetry. exact O2. }
  apply time_ext; congruence.
Qed.

Lemma crm_time_add_months_add_months_witness :
  crm_time_check (Some (mk_time 2020 0 28 0 0 false)) = true /\
  crm_time_get_gregorian (mk_time 2020 0 28 0 0 false) = Ok (2020, 1, 28) /\
  crm_time_add_months (mk_time 2020 0 28 0 0 false) 1 = Ok (mk_time 2020 0 59 0 0 false) /\
  crm_time_add_months (mk_time 2020 0 59 0 0 false) 11
  = crm_time_add_months (mk_time 2020 0 28 0 0 false) (1 + 11).
Proof.
  split; [reflexivity |]. split; [reflexivity |]. split; [reflexivity |].
  apply (crm_time_add_months_add_months
           (mk_time 2020 0 28 0 0 false) (mk_time 2020 0 59 0 0 false) 1 11 2020 1 28);
    try reflexivity; cbn; lia.
Defined.

(** ** Differences *)

Lemma day_rounds_positive (x : Z) : exists k, day_rounds x = S k.
Proof.
  unfold day_rounds. destruct (Z.to_nat (Z.abs x / 365 + 1)) eqn:E; [| eauto].
  assert (0 <= Z.abs x / 365) by (apply Z.div_pos; lia). lia.
Qed.

Lemma second_rounds_positive (x : Z) : exists k, second_rounds x = S k.
Proof.
  unfold second_rounds. destruct (Z.to_nat (Z.abs x / 86400 + 1)) eqn:E; [| eauto].
  assert (0 <= Z.abs x / 86400) by (apply Z.div_pos; lia). lia.
Qed.

(** [crm_time_add_days] within the year only changes the day. *)
Lemma crm_time_add_days_in_range (a : crm_time) (n : Z) :
  (if duration a then 0 else 1) <= days a + n <= year_days (years a) ->
  crm_time_add_days a n = set_days a (days a + n).
Proof.
  intros H. unfold crm_time_add_days. rewrite leap_length_year_days.
  destruct (day_rounds_positive (days a + n)) as [k ->]. cbn [add_days_carry].
  rewrite (proj2 (Z.ltb_ge _ _)) by lia.
  destruct (day_rounds_positive (days a + n)) as [k' ->]. cbn [add_days_borrow].
  rewrite (proj2 (Z.ltb_ge _ _)) by lia.
  apply time_ext; reflexivity.
Qed.

(** [crm_time_add_seconds] by less than a day borrows or carries at most
    one day. *)
Lemma crm_time_add_seconds_within_day (a : crm_time) (n : Z) :
  -86400 <= seconds a + n < 86400 ->
  crm_time_add_seconds a n
  = if seconds a + n <? 0
    then crm_time_add_days (set_seconds a (seconds a + n + 86400)) (-1)
    else crm_time_add_days (set_seconds a (seconds a + n)) 0.
Proof.
  intros H. unfold crm_time_add_seconds.
  destruct (second_rounds_positive (seconds a + n)) as [k ->]. cbn [add_seconds_carry].
  change (24 * 60 * 60) with 86400.
  rewrite (proj2 (Z.leb_gt _ _)) by lia.
  destruct (second_rounds_positive (seconds a + n)) as [k' ->]. cbn [add_seconds_borrow].
  change (24 * 60 * 60) with 86400.
  destruct (Z.ltb_spec (seconds a + n) 0) as [L | L]; [| reflexivity].
  destruct k' as [| k'']; cbn [add_seconds_borrow].
  - reflexivity.
  - rewrite (proj2 (Z.ltb_ge _ _)) by lia. reflexivity.
Qed.

(** X16.  For two values that pass [crm_time_check], have no months and fall
    in the same year in UTC, the first not before the second, and the
    second in a year other than 0 and within [int],
    [crm_time_calculate_duration] returns a duration of 0 years with the
    days and seconds between the two moments; added to the second value
    it leads to the moment of the first. *)
Theorem crm_time_calculate_duration_within_year (a b : crm_time) :
  crm_time_check (Some a) = true -> months a = 0 ->
  crm_time_check (Some b) = true -> months b = 0 ->
  years (crm_get_utc_time a) = years (crm_get_utc_time b) ->
  utc_seconds b <= utc_seconds a ->
  years b <> 0 -> in_int (years b) ->
  exists r e,
    crm_time_calculate_duration (Some a) (Some b) = Ok (Some r) /\
    duration r = true /\ years r = 0 /\ months r = 0 /\ offset r = 0 /\
    0 <= days r /\ 0 <= seconds r < 86400 /\
    86400 * days r + seconds r = utc_seconds a - utc_seconds b /\
    crm_time_add (Some b) (Some r) = Ok (Some e) /\
    crm_time_compare (Some e) (Some a) = 0.
Proof.
  intros Ca Ma Cb Mb Ey Le Yb Ib.
  destruct (crm_get_utc_time_spec a) as (Oa & Da & Ta & Va). specialize (Va Ca).
  destruct (crm_get_utc_time_spec b) as (Ob & Db & Tb & Vb). specialize (Vb Cb).
  apply crm_time_check_iff in Va, Vb. destruct Va as [Va Ra], Vb as [Vb Rb].
  assert (Mua : months (crm_get_utc_time a) = 0).
  { unfold crm_get_utc_time. destruct (negb (offset a =? 0)); [| exact Ma].
    destruct (crm_time_add_seconds_instant
                (mk_time (years a) 0 (days a) (seconds a) 0 false) (- offset a) eq_refl)
      as (_ & _ & _ & _ & M & _). exact M. }
  assert (Mub : months (crm_get_utc_time b) = 0).
  { unfold crm_get_utc_time. destruct (negb (offset b =? 0)); [| exact Mb].
    destruct (crm_time_add_seconds_instant
                (mk_time (years b) 0 (days b) (seconds b) 0 false) (- offset b) eq_refl)
      as (_ & _ & _ & _ & M & _). exact M. }
  unfold crm_time_calculate_duration.
  set (ua := crm_get_utc_time a) in *. set (ub := crm_get_utc_time b) in *.
  cbv zeta. rewrite Mub. cbn [Z.eqb negb bind].
  change (years (set_duration ua true)) with (years ua). rewrite Ey, Z.sub_diag.
  set (r0 := set_years (set_duration ua true) 0).
  unfold valid_date in Va, Vb.
  assert (Dd : days ub <= days ua).
  { unfold utc_seconds, day_number in Ta, Tb, Le. unfold utc_seconds, day_number in *.
    rewrite Ey in *. lia. }
  assert (Y0 : year_days 0 = 366) by reflexivity.
  pose proof (year_days_cases (years ua)) as Yc.
  rewrite (crm_time_add_days_in_range r0 (- days ub))
    by (cbn [r0 set_years set_duration duration days years]; lia).
  set (r1 := set_days r0 (days r0 + - days ub)).
  rewrite (crm_time_add_seconds_within_day r1 (- seconds ub))
    by (cbn [r1 r0 set_days set_years set_duration seconds]; lia).
  cbn [r1 r0 set_days set_years set_duration seconds days].
  assert (Tdiff : utc_seconds a - utc_seconds b
                  = 86400 * (days ua - days ub) + (seconds ua - seconds ub)).
  { rewrite <- Ta, <- Tb. unfold utc_seconds, day_number. rewrite Ey, Oa, Ob. lia. }
  destruct (Z.ltb_spec (seconds ua + - seconds ub) 0) as [L | L].
  - rewrite crm_time_add_days_in_range by (cbn; lia).
    match goal with |- exists r e, Ok (Some ?x) = _ /\ _ => set (r := x) end.
    assert (Cr : years r = 0 /\ months r = 0 /\ offset r = 0) by (cbn; repeat split; lia).
    destruct (crm_time_add_plain b r Cb Yb Ib (proj1 Cr) (proj2 (proj2 Cr)))
      as (e & Ae & Ce & Oe & Te).
    exists r, e. split; [reflexivity |].
    cbn [r r1 r0 set_days set_seconds set_years set_duration
         duration years months offset days seconds].
    split; [reflexivity |]. split; [reflexivity |]. split; [exact Mua |].
    split; [exact Oa |]. split; [lia |]. split; [lia |]. split; [lia |].
    split; [exact Ae |].
    rewrite (crm_time_compare_moments e a Ce Ca), (Te (proj1 (proj2 Cr))).
    cbn [r r1 r0 set_days set_seconds set_years set_duration days seconds].
    replace (utc_seconds b + 86400 * (days ua + - days ub + -1)
             + (seconds ua + - seconds ub + 86400) - utc_seconds a) with 0 by lia.
    reflexivity.
  - rewrite crm_time_add_days_in_range by (cbn; lia).
    match goal with |- exists r e, Ok (Some ?x) = _ /\ _ => set (r := x) end.
    assert (Cr : years r = 0 /\ months r = 0 /\ offset r = 0) by (cbn; repeat split; lia).
    destruct (crm_time_add_plain b r Cb Yb Ib (proj1 Cr) (proj2 (proj2 Cr)))
      as (e & Ae & Ce & Oe & Te).
    exists r, e. split; [reflexivity |].
    cbn [r r1 r0 set_days set_seconds set_years set_duration
         duration years months offset days seconds].
    split; [reflexivity |]. split; [reflexivity |]. split; [exact Mua |].
    split; [exact Oa |]. split; [lia |]. split; [lia |]. split; [lia |].
    split; [exact Ae |].
    rewrite (crm_time_compare_moments e a Ce Ca), (Te (proj1 (proj2 Cr))).
    cbn [r r1 r0 set_days set_seconds set_years set_duration days seconds].
    replace (utc_seconds b + 86400 * (days ua + - days ub + 0)
             + (seconds ua + - seconds ub) - utc_seconds a) with 0 by lia.
    reflexivity.
Qed.

Lemma crm_time_calculate_duration_within_year_witness :
  exists r e,
    crm_time_calculate_duration (Some (mk_time 2020 0 60 43200 7200 false))
                                (Some (mk_time 2020 0 59 82800 0 false)) = Ok (Some r) /\
    duration r = true /\ years r = 0 /\ months r = 0 /\ offset r = 0 /\
    0 <= days r /\ 0 <= seconds r < 86400 /\
    86400 * days r + seconds r
    = utc_seconds (mk_time 2020 0 60 43200 7200 false)
      - utc_seconds (mk_time 2020 0 59 82800 0 false) /\
    crm_time_add (Some (mk_time 2020 0 59 82800 0 false)) (Some r) = Ok (Some e) /\
    crm_time_compare (Some e) (Some (mk_time 2020 0 60 43200 7200 false)) = 0.
Proof.
  apply (crm_time_calculate_duration_within_year
           (mk_time 2020 0 60 43200 7200 false) (mk_time 2020 0 59 82800 0 false));
    try reflexivity;
    [vm_compute; discriminate | cbn; lia | unfold in_int, INT_MIN, INT_MAX; cbn; lia].
Defined.

(** ** Periods *)

Lemma crm_time_add_some (a b : crm_time) (e : option crm_time) :
  crm_time_add (Some a) (Some b) = Ok e -> e <> None.
Proof.
  unfold crm_time_add. destruct (crm_time_add_months _ _) as [r |]; cbn [bind];
    [intros [= <-]; discriminate | discriminate].
Qed.

Lemma crm_time_subtract_some (a b : crm_time) (e : option crm_time) :
  crm_time_subtract (Some a) (Some b) = Ok e -> e <> None.
Proof.
  unfold crm_time_subtract.
  destruct (if negb (months (crm_get_utc_time b) =? 0) then _ else _) as [r |]; cbn [bind];
    [intros [= <-]; discriminate | discriminate].
Qed.

Ltac period_step :=
  cbv beta iota zeta; cbn [bind period_start period_end period_diff].

(** X17.  A period that [crm_time_parse_period] returns has both a start and
    an end; from a string without "/" it is a duration that starts at the
    current time. *)
Theorem crm_time_parse_period_endpoints (h : host) (period_str : string)
    (p : crm_time_period) :
  crm_time_parse_period h period_str = Ok (Some p) ->
  period_start p <> None /\ period_end p <> None /\
  (strstr period_str "/" = None ->
   period_start p = Some (now h) /\
   exists d, crm_time_parse_duration period_str = Ok (Some d) /\ period_diff p = Some d).
Proof.
  unfold crm_time_parse_period.
  destruct (String.length period_str =? 0)%nat; [discriminate |].
  unfold parse_period_side.
  destruct (Ascii.eqb (head period_str) "P").
  - (* the string begins with a duration *)
    destruct (crm_time_parse_duration period_str) as [d1 |]; [| discriminate].
    destruct (strstr period_str "/") as [rest |].
    + destruct (Ascii.eqb (head (tail rest)) "P").
      * destruct (crm_time_parse_duration (tail rest)) as [d2 |]; period_step;
          discriminate.
      * destruct (parse_date h (tail rest)) as [e |]; period_step; [| discriminate].
        destruct e as [e |]; [| discriminate].
        destruct d1 as [d1 |]; [| discriminate].
        destruct (crm_time_subtract (Some e) (Some d1)) as [s |] eqn:S; period_step;
          [| discriminate].
        intros [= <-]. cbn. apply crm_time_subtract_some in S.
        repeat split; try assumption; try discriminate.
    + period_step. destruct d1 as [d1 |]; period_step; [| discriminate].
      destruct (crm_time_add (Some (now h)) (Some d1)) as [e |] eqn:A; period_step;
        [| discriminate].
      intros [= <-]. cbn. apply crm_time_add_some in A.
      repeat split; try assumption; try discriminate.
      exists d1. split; reflexivity.
  - (* the string begins with a date *)
    destruct (parse_date h period_str) as [s1 |]; [| discriminate].
    destruct (strstr period_str "/") as [rest |].
    + destruct (Ascii.eqb (head (tail rest)) "P").
      * destruct (crm_time_parse_duration (tail rest)) as [d2 |]; period_step;
          [| discriminate].
        destruct s1 as [s1 |]; [| discriminate].
        destruct d2 as [d2 |]; [| discriminate].
        destruct (crm_time_add (Some s1) (Some d2)) as [e |] eqn:A; period_step;
          [| discriminate].
        intros [= <-]. cbn. apply crm_time_add_some in A.
        repeat split; try assumption; try discriminate.
      * destruct (parse_date h (tail rest)) as [e |]; period_step; [| discriminate].
        destruct s1 as [s1 |], e as [e |]; try discriminate.
        intros [= <-]. cbn. repeat split; discriminate.
    + period_step. discriminate.
Qed.

Lemma crm_time_parse_period_endpoints_witness :
  let h := mk_host 0 (mk_time 2020 0 1 0 0 false) in
  let p := mk_period (Some (mk_time 2020 0 1 0 0 false))
                     (Some (mk_time 2020 0 2 0 0 false))
                     (Some (mk_time 0 0 1 0 0 false)) in
  period_start p <> None /\ period_end p <> None /\
  (strstr "P1D" "/" = None ->
   period_start p = Some (now h) /\
   exists d, crm_time_parse_duration "P1D" = Ok (Some d) /\ period_diff p = Some d).
Proof.
  intros h p. apply (crm_time_parse_period_endpoints h "P1D" p).
  vm_compute. reflexivity.
Defined.

(** X18.  When the period that [crm_time_parse_period] returns has a
    duration, its ends differ by that duration: the end is the start plus
    the duration, or the start is the end minus the duration. *)
Theorem crm_time_parse_period_consistent (h : host) (period_str : string)
    (p : crm_time_period) (d : crm_time) :
  crm_time_parse_period h period_str = Ok (Some p) ->
  period_diff p = Some d ->
  exists s e, period_start p = Some s /\ period_end p = Some e /\
    (crm_time_add (Some s) (Some d) = Ok (Some e) \/
     crm_time_subtract (Some e) (Some d) = Ok (Some s)).
Proof.
  unfold crm_time_parse_period.
  destruct (String.length period_str =? 0)%nat; [discriminate |].
  unfold parse_period_side.
  destruct (Ascii.eqb (head period_str) "P").
  - destruct (crm_time_parse_duration period_str) as [d1 |]; [| discriminate].
    destruct (strstr period_str "/") as [rest |].
    + destruct (Ascii.eqb (head (tail rest)) "P").
      * destruct (crm_time_parse_duration (tail rest)) as [d2 |]; period_step;
          discriminate.
      * destruct (parse_date h (tail rest)) as [e |]; period_step; [| discriminate].
        destruct e as [e |]; [| discriminate].
        destruct d1 as [d1 |]; [| discriminate].
        destruct (crm_time_subtract (Some e) (Some d1)) as [s |] eqn:S; period_step;
          [| discriminate].
        intros [= <-]. cbn. intros [= <-].
        destruct s as [s |]; [| apply crm_time_subtract_some in S; congruence].
        exists s, e. auto.
    + period_step. destruct d1 as [d1 |]; period_step; [| discriminate].
      destruct (crm_time_add (Some (now h)) (Some d1)) as [e |] eqn:A; period_step;
        [| discriminate].
      intros [= <-]. cbn. intros [= <-].
      destruct e as [e |]; [| apply crm_time_add_some in A; congruence].
      exists (now h), e. auto.
  - destruct (parse_date h period_str) as [s1 |]; [| discriminate].
    destruct (strstr period_str "/") as [rest |].
    + destruct (Ascii.eqb (head (tail rest)) "P").
      * destruct (crm_time_parse_duration (tail rest)) as [d2 |]; period_step;
          [| discriminate].
        destruct s1 as [s1 |]; [| discriminate].
        destruct d2 as [d2 |]; [| discriminate].
        destruct (crm_time_add (Some s1) (Some d2)) as [e |] eqn:A; period_step;
          [| discriminate].
        intros [= <-]. cbn. intros [= <-].
        destruct e as [e |]; [| apply crm_time_add_some in A; congruence].
        exists s1, e. auto.
      * destruct (parse_date h (tail rest)) as [e |]; period_step; [| discriminate].
        destruct s1 as [s1 |], e as [e |]; try discriminate.
        intros [= <-]. cbn. discriminate.
    + period_step. discriminate.
Qed.

Lemma crm_time_parse_period_consistent_witness :
  let p := mk_period (Some (mk_time 2005 0 25 36000 0 false))
                     (Some (mk_time 2005 0 56 36000 0 false))
                     (Some (mk_time 0 1 0 0 0 false)) in
  exists s e, period_start p = Some s /\ period_end p = Some e /\
    (crm_time_add (Some s) (Some (mk_time 0 1 0 0 0 false)) = Ok (Some e) \/
     crm_time_subtract (Some e) (Some (mk_time 0 1 0 0 0 false)) = Ok (Some s)).
Proof.
  intros p.
  apply (crm_time_parse_period_consistent (mk_host 0 (mk_time 2020 0 1 0 0 false))
           "2005-01-25 10:00:00Z/P1M" p (mk_time 0 1 0 0 0 false)).
  - vm_compute. reflexivity.
  - reflexivity.
Defined.

(** ** Values from the clock *)

(** X19.  From a broken-down time whose fields are in their ranges
    [ha_set_tm_time] builds a value that passes [crm_time_check], in the
    year 1900 + [tm_year], on the day 1 + [tm_yday], with the time of day
    in seconds; the offset is [tm_gmtoff] cut down to whole minutes,
    whatever the fields. *)
Theorem ha_set_tm_time_valid (source : tm) :
  0 < tm_year source ->
  0 <= tm_yday source < year_days (1900 + tm_year source) ->
  0 <= tm_hour source < 24 ->
  0 <= tm_min source < 60 ->
  0 <= tm_sec source < 60 ->
  let t := ha_set_tm_time source in
  crm_time_check (Some t) = true /\
  years t = 1900 + tm_year source /\
  days t = 1 + tm_yday source /\
  seconds t = 3600 * tm_hour source + 60 * tm_min source + tm_sec source /\
  offset t = tm_gmtoff source - Z.rem (tm_gmtoff source) 60 /\
  duration t = false /\ months t = 0.
Proof.
  intros Hy Hd Hh Hm Hs t. subst t. unfold ha_set_tm_time.
  replace (0 <? tm_year source) with true by (symmetry; apply Z.ltb_lt; lia).
  replace (0 <=? tm_yday source) with true by (symmetry; apply Z.leb_le; lia).
  replace (0 <=? tm_hour source) with true by (symmetry; apply Z.leb_le; lia).
  replace (0 <=? tm_min source) with true by (symmetry; apply Z.leb_le; lia).
  replace (0 <=? tm_sec source) with true by (symmetry; apply Z.leb_le; lia).
  cbv zeta. cbn [years days seconds offset duration months].
  split; [| repeat split; try lia].
  - apply crm_time_check_iff. unfold valid_date.
    cbn [years days seconds offset duration months]. lia.
  - euclid.
Qed.

Lemma ha_set_tm_time_valid_witness :
  let t := ha_set_tm_time (mk_tm 120 59 10 30 15 5430) in
  crm_time_check (Some t) = true /\
  years t = 1900 + 120 /\
  days t = 1 + 59 /\
  seconds t = 3600 * 10 + 60 * 30 + 15 /\
  offset t = 5430 - Z.rem 5430 60 /\
  duration t = false /\ months t = 0.
Proof.
  apply (ha_set_tm_time_valid (mk_tm 120 59 10 30 15 5430));
    cbn [tm_year tm_yday tm_hour tm_min tm_sec]; try lia.
  vm_compute. split; [discriminate | reflexivity].
Defined.

(** ** ISO weeks *)

Lemma january1_weekday_range (y : Z) : 1 <= y -> 1 <= crm_time_january1_weekday y <= 7.
Proof.
  intros H. rewrite january1_weekday_count by exact H.
  pose proof (Z.mod_pos_bound (days_before_year y) 7 ltac:(lia)). lia.
Qed.

Lemma weeks_in_year_range (y : Z) : 1 <= y -> 52 <= crm_time_weeks_in_year y <= 53.
Proof.
  intros H. rewrite weeks_in_year_cases by exact H.
  destruct (_ || _); lia.
Qed.

(** The weekday that [crm_time_get_isoweek] computes. *)
Lemma isoweek_weekday (B D j : Z) :
  1 <= D -> 1 <= j <= 7 -> j = 1 + B mod 7 ->
  u32 (1 + Z.rem (D + j - 1 - 1) 7) = 1 + (B + D - 1) mod 7.
Proof.
  intros HD Hj E. rewrite Z.rem_mod_nonneg by lia.
  rewrite u32_small by (pose proof (Z.mod_pos_bound (D + j - 1 - 1) 7 ltac:(lia)); lia).
  f_equal. subst j. replace (D + (1 + B mod 7) - 1 - 1) with (B mod 7 + (D - 1)) by lia.
  rewrite Zplus_mod_idemp_l. f_equal. lia.
Qed.

Lemma crm_time_get_isoweek_spec (dt : crm_time) :
  1 <= years dt < INT_MAX -> valid_date dt ->
  exists yn w d, crm_time_get_isoweek dt = Some (yn, w, d) /\
    1 <= yn <= years dt + 1 /\ d = 1 + (day_number (years dt) (days dt) - 1) mod 7 /\
    1 <= w <= crm_time_weeks_in_year yn /\
    day_number (years dt) (days dt) = iso_week1_monday yn + 7 * (w - 1) + (d - 1).
Proof.
  intros [Hy1 Hy2] V. unfold valid_date in V. unfold INT_MAX in Hy2.
  set (y := years dt) in *. set (D := days dt) in *.
  pose proof (january1_weekday_count y Hy1) as J.
  pose proof (january1_weekday_range y Hy1) as JR.
  pose proof (january1_weekday_next y Hy1) as JN.
  pose proof (weeks_in_year_cases y Hy1) as W.
  pose proof (weeks_in_year_range (y + 1) ltac:(lia)) as WN.
  pose proof (days_before_year_succ y) as BN.
  pose proof (leap_length_year_days y) as LY.
  unfold crm_time_get_isoweek, iso_week1_monday, day_number. fold y D.
  destruct (Z.ltb_spec 0 D) as [_ |]; [| lia]. cbn [negb].
  rewrite (isoweek_weekday (days_before_year y) D _ ltac:(lia) JR J).
  set (d := 1 + (days_before_year y + D - 1) mod 7).
  assert (Hd : 1 <= d <= 7)
    by (pose proof (Z.mod_pos_bound (days_before_year y + D - 1) 7 ltac:(lia)); lia).
  assert (Ed : exists q, days_before_year y + D - 1 = 7 * q + (d - 1)).
  { exists ((days_before_year y + D - 1) / 7). unfold d.
    pose proof (Z.div_mod (days_before_year y + D - 1) 7 ltac:(lia)). lia. }
  destruct Ed as [q Ed].
  assert (Ej : exists k, days_before_year y = 7 * k + (crm_time_january1_weekday y - 1)).
  { exists (days_before_year y / 7).
    pose proof (Z.div_mod (days_before_year y) 7 ltac:(lia)). lia. }
  destruct Ej as [k Ej].
  clearbody d.
  rewrite (s32_in_int (4 - d)) by (unfold in_int, INT_MIN, INT_MAX; lia).
  destruct ((D <=? 8 - crm_time_january1_weekday y) && (4 <? crm_time_january1_weekday y))
    eqn:Prev.
  - (* the last week of the year before *)
    apply andb_true_iff in Prev. destruct Prev as [P1 P2].
    apply Z.leb_le in P1. apply Z.ltb_lt in P2.
    assert (Hy : 2 <= y).
    { destruct (Z.eq_dec y 1) as [-> |]; [| lia]. vm_compute in P2. discriminate. }
    pose proof (january1_weekday_range (y - 1) ltac:(lia)) as JRp.
    pose proof (january1_weekday_next (y - 1) ltac:(lia)) as JNp.
    pose proof (weeks_in_year_cases (y - 1) ltac:(lia)) as Wp.
    pose proof (days_before_year_succ (y - 1)) as BNp.
    pose proof (leap_length_year_days (y - 1)) as LYp.
    replace (y - 1 + 1) with y in * by lia.
    assert (Hne : (y - 1 =? y) = false) by (apply Z.eqb_neq; lia).
    cbv beta iota zeta. rewrite !Hne.
    exists (u32 (y - 1)), (u32 (crm_time_weeks_in_year (y - 1))), d.
    split; [reflexivity |]. rewrite (u32_small (y - 1)) by lia.
    split; [lia |]. split; [reflexivity |].
    rewrite Wp. 
    set (jp := crm_time_january1_weekday (y - 1)) in *.
    set (j := crm_time_january1_weekday y) in *.
    set (Bp := days_before_year (y - 1)) in *.
    set (B := days_before_year y) in *.
    set (Lp := year_days (y - 1)) in *.
    clearbody jp j Bp B Lp.
    destruct (crm_time_leapyear (y - 1)); subst Lp;
      assert (C : jp = 1 \/ jp = 2 \/ jp = 3 \/ jp = 4 \/ jp = 5 \/ jp = 6 \/ jp = 7) by lia;
      destruct C as [-> | [-> | [-> | [-> | [-> | [-> | ->]]]]]];
      cbn in JNp |- *; rewrite ?u32_small by lia; lia.
  - cbv beta iota zeta. rewrite Z.eqb_refl.
    assert (Prev' : 8 - crm_time_january1_weekday y < D \/ crm_time_january1_weekday y <= 4).
    { apply andb_false_iff in Prev. destruct Prev as [P | P];
        [apply Z.leb_gt in P | apply Z.ltb_ge in P]; lia. }
    clear Prev.
    destruct (Z.ltb_spec (year_days y - D) (4 - d)) as [Next | Next].
    + (* the first week of the year after *)
      assert (Hne : (y + 1 =? y) = false) by (apply Z.eqb_neq; lia).
      rewrite Hne.
      exists (u32 (y + 1)), 1, d.
      split; [reflexivity |]. rewrite (u32_small (y + 1)) by lia.
      split; [lia |]. split; [reflexivity |].
      split; [lia |]. rewrite JN, BN.
      set (j := crm_time_january1_weekday y) in *.
      set (B := days_before_year y) in *.
      set (L := year_days y) in *.
      clearbody j B L.
      destruct (crm_time_leapyear y); subst L;
        assert (C : j = 1 \/ j = 2 \/ j = 3 \/ j = 4 \/ j = 5 \/ j = 6 \/ j = 7) by lia;
        destruct C as [-> | [-> | [-> | [-> | [-> | [-> | ->]]]]]];
        cbn; lia.
    + (* a week of the year itself *)
      rewrite Z.eqb_refl.
      rewrite (s32_in_int (D + (7 - d) + (crm_time_january1_weekday y - 1)))
        by (unfold in_int, INT_MIN, INT_MAX; pose proof (year_days_cases y); lia).
      eexists (u32 y), _, d.
      split; [reflexivity |]. rewrite (u32_small y) by lia.
      split; [lia |]. split; [reflexivity |]. rewrite W.
      set (j := crm_time_january1_weekday y) in *.
      set (B := days_before_year y) in *.
      set (L := year_days y) in *.
      clearbody j B L.
      destruct (crm_time_leapyear y); subst L;
        assert (C : j = 1 \/ j = 2 \/ j = 3 \/ j = 4 \/ j = 5 \/ j = 6 \/ j = 7) by lia;
        destruct C as [-> | [-> | [-> | [-> | [-> | [-> | ->]]]]]];
        cbn [Z.ltb Z.leb Z.eqb Z.compare Pos.compare Pos.compare_cont Pos.eqb orb andb];
        rewrite ?(u32_small (_ ÷ 7)) by euclid;
        rewrite ?(u32_small (_ ÷ 7 - 1)) by euclid;
        euclid.
Qed.

(** X20.  [crm_time_get_isoweek] gives the ISO week date of a date in range,
    in a year from 1 on: the weekday counted from Monday, a week from 1
    to the number of weeks of the week year, and the day is the one that
    lies that many weeks and days after the Monday of week 1 of the week
    year. *)
Theorem crm_time_get_isoweek_iso (dt : crm_time) :
  1 <= years dt < INT_MAX -> valid_date dt ->
  exists yn w d, crm_time_get_isoweek dt = Some (yn, w, d) /\
    d = 1 + (day_number (years dt) (days dt) - 1) mod 7 /\
    1 <= w <= crm_time_weeks_in_year yn /\
    day_number (years dt) (days dt) = iso_week1_monday yn + 7 * (w - 1) + (d - 1).
Proof.
  intros Hy V.
  destruct (crm_time_get_isoweek_spec dt Hy V) as (yn & w & d & E & _ & R).
  exists yn, w, d. split; [exact E | exact R].
Qed.

Lemma crm_time_get_isoweek_iso_witness :
  exists yn w d, crm_time_get_isoweek (mk_time 2010 0 3 0 0 false) = Some (yn, w, d) /\
    d = 1 + (day_number 2010 3 - 1) mod 7 /\
    1 <= w <= crm_time_weeks_in_year yn /\
    day_number 2010 3 = iso_week1_monday yn + 7 * (w - 1) + (d - 1).
Proof.
  apply (crm_time_get_isoweek_iso (mk_time 2010 0 3 0 0 false)).
  - unfold INT_MAX. cbn. lia.
  - unfold valid_date. vm_compute. split; discriminate.
Defined.

(** ** Strings of digits *)

Lemma append_assoc (a b c : string) : ((a ++ b) ++ c = a ++ (b ++ c))%string.
Proof. induction a as [| x a IH]; cbn; [reflexivity | rewrite IH; reflexivity]. Qed.

Lemma length_append (a b : string) :
  String.length (a ++ b) = (String.length a + String.length b)%nat.
Proof. induction a as [| x a IH]; cbn; [reflexivity | rewrite IH; reflexivity]. Qed.

Lemma substring_all (s : string) (n : nat) :
  (String.length s <= n)%nat -> String.substring 0 n s = s.
Proof.
  revert n. induction s as [| c s IH]; intros n H.
  - destruct n; reflexivity.
  - destruct n as [| n]; cbn in H; [lia |]. cbn. rewrite IH by lia. reflexivity.
Qed.

Lemma snprintf_short (size : nat) (out : string) :
  (String.length out < size)%nat -> snprintf size out = out.
Proof. intros H. unfold snprintf. apply substring_all. lia. Qed.

Lemma forall_from_spec (f : Z -> bool) (n : nat) :
  forall lo, forall_from f lo n = true ->
  forall z, lo <= z < lo + Z.of_nat n -> f z = true.
Proof.
  induction n as [| k IH]; intros lo H z Hz.
  - cbn in Hz. lia.
  - cbn [forall_from] in H. apply andb_true_iff in H. destruct H as [H0 H1].
    destruct (Z.eq_dec z lo) as [-> | N]; [exact H0 |].
    apply (IH (lo + 1) H1). lia.
Qed.

Lemma fmt_u_4_checked : forall_from (check_fmt_u 4) 0 (Z.to_nat 10000) = true.
Proof. vm_compute. reflexivity. Qed.

Lemma fmt_u_3_checked : forall_from (check_fmt_u 3) 0 (Z.to_nat 1000) = true.
Proof. vm_compute. reflexivity. Qed.

Lemma fmt_u_2_checked : forall_from (check_fmt_u 2) 0 (Z.to_nat 100) = true.
Proof. vm_compute. reflexivity. Qed.

Lemma fmt_u_0_checked : forall_from check_decimal 0 (Z.to_nat 10000) = true.
Proof. vm_compute. reflexivity. Qed.

Lemma fmt_u_4 (v : Z) :
  0 <= v < 10000 ->
  all_digits (fmt_u 4 v) = true /\ String.length (fmt_u 4 v) = 4%nat /\
  digits_value (fmt_u 4 v) 0 = v.
Proof.
  intros H. pose proof (forall_from_spec _ _ _ fmt_u_4_checked v ltac:(lia)) as K.
  unfold check_fmt_u in K. cbv zeta in K.
  rewrite !andb_true_iff, Nat.eqb_eq, Z.eqb_eq in K. tauto.
Qed.

Lemma fmt_u_3 (v : Z) :
  0 <= v < 1000 ->
  all_digits (fmt_u 3 v) = true /\ String.length (fmt_u 3 v) = 3%nat /\
  digits_value (fmt_u 3 v) 0 = v.
Proof.
  intros H. pose proof (forall_from_spec _ _ _ fmt_u_3_checked v ltac:(lia)) as K.
  unfold check_fmt_u in K. cbv zeta in K.
  rewrite !andb_true_iff, Nat.eqb_eq, Z.eqb_eq in K. tauto.
Qed.

Lemma fmt_u_2 (v : Z) :
  0 <= v < 100 ->
  all_digits (fmt_u 2 v) = true /\ String.length (fmt_u 2 v) = 2%nat /\
  digits_value (fmt_u 2 v) 0 = v.
Proof.
  intros H. pose proof (forall_from_spec _ _ _ fmt_u_2_checked v ltac:(lia)) as K.
  unfold check_fmt_u in K. cbv zeta in K.
  rewrite !andb_true_iff, Nat.eqb_eq, Z.eqb_eq in K. tauto.
Qed.

Lemma fmt_u_0 (v : Z) :
  0 <= v < 10000 ->
  all_digits (fmt_u 0 v) = true /\ (1 <= String.length (fmt_u 0 v) <= 4)%nat /\
  digits_value (fmt_u 0 v) 0 = v.
Proof.
  intros H. pose proof (forall_from_spec _ _ _ fmt_u_0_checked v ltac:(lia)) as K.
  unfold check_decimal in K. cbv zeta in K.
  rewrite !andb_true_iff, !Nat.leb_le, Z.eqb_eq in K. tauto.
Qed.

Lemma digit_cases (c : ascii) :
  isdigit c = true ->
  In c ["0"; "1"; "2"; "3"; "4"; "5"; "6"; "7"; "8"; "9"]%char.
Proof.
  destruct c as [[] [] [] [] [] [] [] []]; cbn; intros H; try discriminate; tauto.
Qed.

(** What the scanner and the parser ask of a character, for a digit. *)
Lemma digit_plain (c : ascii) :
  isdigit c = true ->
  isspace c = false /\ Ascii.eqb c "-" = false /\ Ascii.eqb c "+" = false /\
  Ascii.eqb c "T" = false /\ Ascii.eqb c ":" = false /\ Ascii.eqb "e" c = false /\
  Ascii.eqb " " c = false /\ Ascii.eqb "Z" c = false.
Proof.
  intros H. apply digit_cases in H. cbn in H.
  repeat (destruct H as [<- | H]; [repeat split; reflexivity |]). contradiction.
Qed.

Lemma all_digits_lacks (c : ascii) (s : string) :
  isdigit c = false -> all_digits s = true -> lacks c s = true.
Proof.
  intros Hc. induction s as [| x s IH]; cbn; [reflexivity |].
  intros H. apply andb_true_iff in H. destruct H as [Hx Hs].
  rewrite (IH Hs), andb_true_r.
  destruct (Ascii.eqb_spec c x) as [-> |]; [congruence | reflexivity].
Qed.

Lemma lacks_append (c : ascii) (a b : string) :
  lacks c (a ++ b) = lacks c a && lacks c b.
Proof.
  induction a as [| x a IH]; cbn; [reflexivity |]. rewrite IH, andb_assoc. reflexivity.
Qed.

Lemma prefix_char (c x : ascii) (s : string) :
  String.prefix (String c EmptyString) (String x s) = Ascii.eqb c x.
Proof.
  cbn. destruct (ascii_dec c x) as [-> | N].
  - rewrite Ascii.eqb_refl. destruct s; reflexivity.
  - symmetry. apply Ascii.eqb_neq. exact N.
Qed.

(** [strstr] for a one-character needle goes past the characters that
    differ from it. *)
Lemma strstr_skip (c : ascii) (a r : string) :
  lacks c a = true ->
  strstr (a ++ String c r) (String c EmptyString) = Some (String c r).
Proof.
  induction a as [| x a IH]; intros H.
  - cbn [append]. destruct r; cbn [strstr]; rewrite prefix_char, Ascii.eqb_refl; reflexivity.
  - cbn in H. apply andb_true_iff in H. destruct H as [Hx Ha].
    apply negb_true_iff in Hx.
    change ((String x a ++ String c r)%string) with (String x (a ++ String c r)).
    cbn [strstr]. rewrite prefix_char, Hx. apply IH. exact Ha.
Qed.

Lemma strstr_lacks (c : ascii) (s : string) :
  lacks c s = true -> strstr s (String c EmptyString) = None.
Proof.
  induction s as [| x s IH]; intros H.
  - reflexivity.
  - cbn in H. apply andb_true_iff in H. destruct H as [Hx Hs].
    apply negb_true_iff in Hx.
    cbn [strstr]. rewrite prefix_char, Hx. apply IH. exact Hs.
Qed.

(** *** The scanner on a field of digits *)

Lemma scan_digits_app (a rest : string) :
  isdigit (head rest) = false ->
  forall acc n, all_digits a = true ->
  scan_digits None (a ++ rest) acc n = (digits_value a acc, (n + String.length a)%nat, rest).
Proof.
  intros Hr. induction a as [| x a IH]; intros acc n H.
  - cbn [append digits_value String.length]. rewrite Nat.add_0_r.
    destruct rest as [| c r]; [reflexivity |]. cbn [head] in Hr.
    cbn [scan_digits]. rewrite Hr. reflexivity.
  - cbn in H. apply andb_true_iff in H. destruct H as [Hx Ha].
    change ((String x a ++ rest)%string) with (String x (a ++ rest)).
    cbn [scan_digits room used option_map digits_value String.length].
    rewrite Hx. cbn [andb]. rewrite IH by exact Ha. f_equal. f_equal. lia.
Qed.

Lemma scan_int_app (a rest : string) :
  isdigit (head rest) = false -> all_digits a = true -> a <> EmptyString ->
  scan_int None (a ++ rest) = Converted (digits_value a 0) rest.
Proof.
  intros Hr Ha Hne. destruct a as [| x a]; [contradiction |].
  pose proof Ha as Ha'. cbn in Ha'. apply andb_true_iff in Ha'. destruct Ha' as [Hx _].
  destruct (digit_plain x Hx) as (Sp & Mi & Pl & _).
  unfold scan_int.
  change ((String x a ++ rest)%string) with (String x (a ++ rest)).
  cbn [skip_space]. rewrite Sp. cbn [room]. rewrite Mi, Pl. cbn [andb].
  change (String x (a ++ rest)) with ((String x a ++ rest)%string).
  rewrite scan_digits_app by assumption. reflexivity.
Qed.

(** A field with its sign "+". *)
Lemma scan_int_plus_app (a rest : string) :
  isdigit (head rest) = false -> all_digits a = true -> a <> EmptyString ->
  scan_int None (String "+" (a ++ rest)) = Converted (digits_value a 0) rest.
Proof.
  intros Hr Ha Hne. unfold scan_int. cbn [skip_space].
  change (isspace "+") with false. cbn [room andb].
  change (Ascii.eqb "+" "-") with false. change (Ascii.eqb "+" "+") with true.
  cbn [used option_map].
  rewrite scan_digits_app by assumption.
  destruct a as [| x a]; [contradiction |]. reflexivity.
Qed.

(** ** Formatting and parsing *)

Lemma append_nil_r (s : string) : (s ++ EmptyString)%string = s.
Proof. induction s as [| c s IH]; cbn; [reflexivity | rewrite IH; reflexivity]. Qed.

Lemma nonempty_of_length (s : string) (n : nat) :
  String.length s = S n -> s <> EmptyString.
Proof. intros H E. subst s. discriminate. Qed.

(** Three fields of digits with the separator [c] between them. *)
Lemma scan_three (c : ascii) (A B C rest : string) (v0 v1 v2 : Z) :
  isdigit c = false -> isdigit (head rest) = false ->
  all_digits A = true -> A <> EmptyString ->
  all_digits B = true -> B <> EmptyString ->
  all_digits C = true -> C <> EmptyString ->
  scan [Int None; Lit c; Int None; Lit c; Int None]
       (A ++ String c (B ++ String c (C ++ rest))) 0 [v0; v1; v2]
  = (3, [digits_value A 0; digits_value B 0; digits_value C 0]).
Proof.
  intros Hc Hr HA NA HB NB HC NC.
  cbn [scan]. rewrite scan_int_app by assumption.
  rewrite Ascii.eqb_refl. rewrite scan_int_app by assumption.
  rewrite Ascii.eqb_refl. rewrite scan_int_app by assumption.
  reflexivity.
Qed.

(** Two fields of digits, then the end of the string. *)
Lemma scan_two (c : ascii) (A B : string) (v0 v1 v2 : Z) :
  isdigit c = false ->
  all_digits A = true -> A <> EmptyString ->
  all_digits B = true -> B <> EmptyString ->
  scan [Int None; Lit c; Int None; Lit c; Int None]
       (A ++ String c B) 0 [v0; v1; v2]
  = (2, [digits_value A 0; digits_value B 0; v2]).
Proof.
  intros Hc HA NA HB NB.
  cbn [scan]. rewrite scan_int_app by assumption.
  rewrite Ascii.eqb_refl. rewrite <- (append_nil_r B) at 1.
  rewrite scan_int_app by (try assumption; reflexivity).
  reflexivity.
Qed.

Lemma scan_two_plus (c : ascii) (A B : string) (v0 v1 v2 : Z) :
  isdigit c = false ->
  all_digits A = true -> A <> EmptyString ->
  all_digits B = true -> B <> EmptyString ->
  scan [Int None; Lit c; Int None; Lit c; Int None]
       (String "+" (A ++ String c B)) 0 [v0; v1; v2]
  = (2, [digits_value A 0; digits_value B 0; v2]).
Proof.
  intros Hc HA NA HB NB.
  cbn [scan]. rewrite scan_int_plus_app by assumption.
  rewrite Ascii.eqb_refl. rewrite <- (append_nil_r B) at 1.
  rewrite scan_int_app by (try assumption; reflexivity).
  reflexivity.
Qed.

Lemma format_hms : format_of "%d:%d:%d" = [Int None; Lit ":"; Int None; Lit ":"; Int None]%char.
Proof. reflexivity. Qed.

Lemma format_ymd : format_of "%d-%d-%d" = [Int None; Lit "-"; Int None; Lit "-"; Int None]%char.
Proof. reflexivity. Qed.

(** [crm_time_parse_sec] on "hh:mm:ss" and what follows it. *)
Lemma crm_time_parse_sec_hms (hh mm ss : Z) (rest : string) :
  0 <= hh < 24 -> 0 <= mm < 60 -> 0 <= ss < 60 -> isdigit (head rest) = false ->
  crm_time_parse_sec (fmt_u 2 hh ++ String ":" (fmt_u 2 mm ++ String ":" (fmt_u 2 ss ++ rest)))
  = 3600 * hh + 60 * mm + ss.
Proof.
  intros Hh Hm Hs Hr.
  destruct (fmt_u_2 hh ltac:(lia)) as (A1 & L1 & V1).
  destruct (fmt_u_2 mm ltac:(lia)) as (A2 & L2 & V2).
  destruct (fmt_u_2 ss ltac:(lia)) as (A3 & L3 & V3).
  unfold crm_time_parse_sec, sscanf. rewrite format_hms.
  rewrite scan_three; try assumption; try reflexivity;
    try (eapply nonempty_of_length; eassumption).
  rewrite V1, V2, V3. cbv beta iota zeta. cbn [Z.eqb Pos.eqb nth].
  rewrite !(u32_small hh), !(u32_small mm), !(u32_small ss) by lia.
  change ((0 <? 3) && (3 <? 4)) with true. cbv iota.
  destruct (Z.leb_spec 24 hh); [lia |].
  destruct (Z.leb_spec 60 mm); [lia |].
  destruct (Z.leb_spec 60 ss); [lia |].
  rewrite (u32_small (mm * 60)), (u32_small (hh * 60 * 60)) by lia.
  rewrite (u32_small (ss + mm * 60)) by lia.
  rewrite u32_small by lia.
  rewrite s32_in_int by (unfold in_int, INT_MIN, INT_MAX; lia). lia.
Qed.

(** [crm_time_parse_sec] on "hh:mm" and on "+hh:mm". *)
Lemma crm_time_parse_sec_hm (hh mm : Z) (plus : bool) :
  0 <= hh < 24 -> 0 <= mm < 60 ->
  crm_time_parse_sec
    (let s := (fmt_u 2 hh ++ String ":" (fmt_u 2 mm))%string in
     if plus then String "+" s else s)
  = 3600 * hh + 60 * mm.
Proof.
  intros Hh Hm.
  destruct (fmt_u_2 hh ltac:(lia)) as (A1 & L1 & V1).
  destruct (fmt_u_2 mm ltac:(lia)) as (A2 & L2 & V2).
  unfold crm_time_parse_sec, sscanf. rewrite format_hms. cbv zeta.
  assert (E : scan [Int None; Lit ":"; Int None; Lit ":"; Int None]%char
                (if plus
                 then String "+" (fmt_u 2 hh ++ String ":" (fmt_u 2 mm))
                 else (fmt_u 2 hh ++ String ":" (fmt_u 2 mm))%string) 0 [0; 0; 0]
              = (2, [hh; mm; 0])).
  { rewrite <- V1 at 3. rewrite <- V2 at 3.
    destruct plus; [apply scan_two_plus | apply scan_two];
      try assumption; try reflexivity; try (eapply nonempty_of_length; eassumption). }
  rewrite E. cbv beta iota zeta. cbn [Z.eqb Pos.eqb nth].
  rewrite !(u32_small hh), !(u32_small mm), !(u32_small 0) by lia.
  change ((0 <? 2) && (2 <? 4)) with true. cbv iota.
  destruct (Z.leb_spec 24 hh); [lia |].
  destruct (Z.leb_spec 60 mm); [lia |].
  change (60 <=? 0) with false. cbv iota.
  rewrite (u32_small (mm * 60)), (u32_small (hh * 60 * 60)) by lia.
  rewrite (u32_small (0 + mm * 60)) by lia.
  rewrite u32_small by lia.
  rewrite s32_in_int by (unfold in_int, INT_MIN, INT_MAX; lia). lia.
Qed.

Lemma lacks_digits_sep (c x : ascii) (A B : string) :
  isdigit c = false -> Ascii.eqb c x = false ->
  all_digits A = true -> lacks c B = true ->
  lacks c (A ++ String x B) = true.
Proof.
  intros Hc Hx HA HB. rewrite lacks_append. cbn [lacks].
  rewrite (all_digits_lacks c A Hc HA), Hx, HB. reflexivity.
Qed.

(** [crm_time_parse] on "hh:mm:ss" followed by "Z", by " +hh:mm" or by
    " -hh:mm". *)
Lemma crm_time_parse_canonical (h : host) (dt : crm_time) (hh mm ss o : Z)
    (off : string) :
  0 <= hh < 24 -> 0 <= mm < 60 -> 0 <= ss < 60 ->
  offset_text o off ->
  crm_time_parse h
    (fmt_u 2 hh ++ String ":" (fmt_u 2 mm ++ String ":" (fmt_u 2 ss ++ off))) dt
  = set_offset (set_seconds dt (3600 * hh + 60 * mm + ss)) o.
Proof.
  intros Hh Hm Hs Hoff. unfold offset_text in Hoff.
  destruct (fmt_u_2 hh ltac:(lia)) as (A1 & L1 & V1).
  destruct (fmt_u_2 mm ltac:(lia)) as (A2 & L2 & V2).
  destruct (fmt_u_2 ss ltac:(lia)) as (A3 & L3 & V3).
  assert (Hhead : isdigit (head off) = false).
  { destruct Hoff as [[-> _] | (oh & om & _ & _ & [[-> _] | [-> _]])]; reflexivity. }
  unfold crm_time_parse.
  rewrite (crm_time_parse_sec_hms hh mm ss off Hh Hm Hs Hhead).
  f_equal.
  assert (Assoc : (fmt_u 2 hh ++ String ":" (fmt_u 2 mm ++ String ":" (fmt_u 2 ss ++ off)))%string
                  = ((fmt_u 2 hh ++ String ":" (fmt_u 2 mm ++ String ":" (fmt_u 2 ss))) ++ off)%string).
  { rewrite append_assoc. cbn [append]. rewrite append_assoc. cbn [append]. reflexivity. }
  rewrite Assoc.
  set (time_s := (fmt_u 2 hh ++ String ":" (fmt_u 2 mm ++ String ":" (fmt_u 2 ss)))%string).
  assert (LZ : lacks "Z" time_s = true).
  { unfold time_s. apply lacks_digits_sep; try assumption; try reflexivity.
    apply lacks_digits_sep; try assumption; try reflexivity.
    apply all_digits_lacks; [reflexivity | assumption]. }
  assert (LS : lacks " " time_s = true).
  { unfold time_s. apply lacks_digits_sep; try assumption; try reflexivity.
    apply lacks_digits_sep; try assumption; try reflexivity.
    apply all_digits_lacks; [reflexivity | assumption]. }
  destruct Hoff as [[-> ->] | (oh & om & Hoh & Hom & Hsign)].
  - rewrite (strstr_skip "Z" time_s EmptyString LZ). reflexivity.
  - destruct (fmt_u_2 oh ltac:(lia)) as (B1 & M1 & W1).
    destruct (fmt_u_2 om ltac:(lia)) as (B2 & M2 & W2).
    assert (LO : lacks "Z" (fmt_u 2 oh ++ String ":" (fmt_u 2 om)) = true).
    { apply lacks_digits_sep; try assumption; try reflexivity.
      apply all_digits_lacks; [reflexivity | assumption]. }
    destruct Hsign as [[-> ->] | [-> ->]].
    + rewrite strstr_lacks
        by (rewrite lacks_append; cbn [lacks]; rewrite LZ, LO; reflexivity).
      rewrite (strstr_skip " " time_s _ LS).
      cbn [option_map skip_space]. change (isspace " ") with true.
      change (isspace "+") with false. cbv iota.
      unfold crm_time_parse_offset. cbn [head].
      change (Ascii.eqb "+" "Z") with false. change (Ascii.eqb "+" "+") with true.
      change (Ascii.eqb "+" "-") with false. cbn [orb]. cbv iota zeta.
      apply (crm_time_parse_sec_hm oh om true Hoh Hom).
    + rewrite strstr_lacks
        by (rewrite lacks_append; cbn [lacks]; rewrite LZ, LO; reflexivity).
      rewrite (strstr_skip " " time_s _ LS).
      cbn [option_map skip_space]. change (isspace " ") with true.
      change (isspace "-") with false. cbv iota.
      unfold crm_time_parse_offset. cbn [head].
      change (Ascii.eqb "-" "Z") with false. change (Ascii.eqb "-" "+") with false.
      change (Ascii.eqb "-" "-") with true. cbn [orb tail]. cbv iota zeta.
      pose proof (crm_time_parse_sec_hm oh om false Hoh Hom) as P. cbv zeta iota in P.
      rewrite P. reflexivity.
Qed.

(** The length of a string put together from fields whose lengths are
    among the hypotheses. *)
Ltac string_length :=
  repeat first
    [ rewrite length_append
    | progress cbn [String.length append]
    | match goal with
      | L : String.length ?s = _ |- context [String.length ?s] => rewrite L
      end ].

(** *** The scanner within a field width *)

Lemma scan_digits_width (a rest : string) :
  isdigit (head rest) = false ->
  forall w acc n, all_digits a = true -> (String.length a <= w)%nat ->
  scan_digits (Some w) (a ++ rest) acc n
  = (digits_value a acc, (n + String.length a)%nat, rest).
Proof.
  intros Hr. induction a as [| x a IH]; intros w acc n H Hw.
  - cbn [append digits_value String.length]. rewrite Nat.add_0_r.
    destruct rest as [| c r]; [reflexivity |]. cbn [head] in Hr.
    cbn [scan_digits]. rewrite Hr. reflexivity.
  - cbn in H. apply andb_true_iff in H. destruct H as [Hx Ha].
    cbn [String.length] in Hw. destruct w as [| w]; [lia |].
    change ((String x a ++ rest)%string) with (String x (a ++ rest)).
    cbn [scan_digits room used option_map Nat.pred digits_value String.length].
    rewrite Hx. cbn [andb]. rewrite IH by (try assumption; lia). f_equal. f_equal. lia.
Qed.

Lemma scan_int_width (a rest : string) (w : nat) :
  isdigit (head rest) = false -> all_digits a = true -> a <> EmptyString ->
  (String.length a <= w)%nat ->
  scan_int (Some w) (a ++ rest) = Converted (digits_value a 0) rest.
Proof.
  intros Hr Ha Hne Hw. destruct a as [| x a]; [contradiction |].
  pose proof Ha as Ha'. cbn in Ha'. apply andb_true_iff in Ha'. destruct Ha' as [Hx _].
  destruct (digit_plain x Hx) as (Sp & Mi & Pl & _).
  unfold scan_int.
  change ((String x a ++ rest)%string) with (String x (a ++ rest)).
  cbn [skip_space]. rewrite Sp. rewrite Mi, Pl, !andb_false_r.
  change (String x (a ++ rest)) with ((String x a ++ rest)%string).
  rewrite scan_digits_width by assumption. reflexivity.
Qed.

(** *** The date notations *)

Lemma format_yd : format_of "%d-%d" = [Int None; Lit "-"; Int None]%char.
Proof. reflexivity. Qed.

Lemma format_compact : format_of "%4d%2d%2d" = [Int (Some 4); Int (Some 2); Int (Some 2)]%nat.
Proof. reflexivity. Qed.

Lemma format_week :
  format_of "%d-W%d-%d" = [Int None; Lit "-"; Lit "W"; Int None; Lit "-"; Int None]%char.
Proof. reflexivity. Qed.

(** "YYYY-MM-DD" before a blank. *)
Lemma gregorian_notation (y m d od : Z) (rest : string) :
  0 <= y < 10000 -> 0 <= m <= 12 -> 0 <= d <= 31 ->
  get_ordinal_days y m d = Ok od -> in_int od ->
  parse_date_notation
    (fmt_u 4 y ++ String "-" (fmt_u 2 m ++ String "-" (fmt_u 2 d ++ String " " rest)))
    calloc_time
  = Ok (mk_time y 0 od 0 0 false).
Proof.
  intros Hy Hm Hd O Hod.
  destruct (fmt_u_4 y ltac:(lia)) as (A1 & L1 & V1).
  destruct (fmt_u_2 m ltac:(lia)) as (A2 & L2 & V2).
  destruct (fmt_u_2 d ltac:(lia)) as (A3 & L3 & V3).
  unfold parse_date_notation, sscanf. rewrite format_ymd.
  rewrite scan_three; try assumption; try reflexivity;
    try (eapply nonempty_of_length; eassumption).
  rewrite V1, V2, V3. cbv beta iota zeta. cbn [Z.eqb Pos.eqb nth].
  destruct (Z.ltb_spec 12 m); [lia |]. destruct (Z.ltb_spec 31 d); [lia |].
  rewrite O. cbn [bind]. rewrite (s32_in_int od Hod). reflexivity.
Qed.

(** "Y-DDD" before a blank. *)
Lemma ordinal_notation (y d : Z) (rest : string) :
  0 <= y < 10000 -> 0 <= d <= year_days y ->
  parse_date_notation
    (fmt_u 0 y ++ String "-" (fmt_u 3 d ++ String " " rest)) calloc_time
  = Ok (mk_time y 0 d 0 0 false).
Proof.
  intros Hy Hd. pose proof (year_days_cases y) as YD.
  destruct (fmt_u_0 y ltac:(lia)) as (A1 & L1 & V1).
  destruct (fmt_u_3 d ltac:(lia)) as (A2 & L2 & V2).
  assert (N1 : fmt_u 0 y <> EmptyString) by (intros E; rewrite E in L1; cbn in L1; lia).
  assert (N2 : fmt_u 3 d <> EmptyString) by (eapply nonempty_of_length; eassumption).
  unfold parse_date_notation, sscanf. rewrite format_ymd, format_yd.
  cbn [scan]. rewrite scan_int_app by (try assumption; reflexivity).
  rewrite Ascii.eqb_refl. rewrite scan_int_app by (try assumption; reflexivity).
  change (Ascii.eqb "-" " ") with false. cbv beta iota zeta.
  rewrite V1, V2. cbn [Z.of_nat Pos.of_succ_nat Pos.succ Z.eqb Pos.eqb nth set_nth].
  destruct (Z.ltb_spec (year_days y) d); [lia |]. reflexivity.
Qed.

(** "Y-Www-D" before a blank. *)
Lemma week_notation (y w d : Z) (rest : string) :
  0 <= y < 10000 -> 0 <= w <= crm_time_weeks_in_year y -> w < 100 -> 1 <= d <= 7 ->
  parse_date_notation
    (fmt_u 0 y ++ String "-" (String "W" (fmt_u 2 w ++ String "-"
       (fmt_u 0 d ++ String " " rest)))) calloc_time
  = Ok (week_date calloc_time y w d).
Proof.
  intros Hy Hw Hw' Hd.
  destruct (fmt_u_0 y ltac:(lia)) as (A1 & L1 & V1).
  destruct (fmt_u_2 w ltac:(lia)) as (A2 & L2 & V2).
  destruct (fmt_u_0 d ltac:(lia)) as (A3 & L3 & V3).
  assert (N1 : fmt_u 0 y <> EmptyString) by (intros E; rewrite E in L1; cbn in L1; lia).
  assert (N2 : fmt_u 2 w <> EmptyString) by (eapply nonempty_of_length; eassumption).
  assert (N3 : fmt_u 0 d <> EmptyString) by (intros E; rewrite E in L3; cbn in L3; lia).
  unfold parse_date_notation, sscanf.
  rewrite format_ymd, format_yd, format_compact, format_week.
  cbn [scan]. rewrite !scan_int_app by (try assumption; reflexivity).
  rewrite !Ascii.eqb_refl.
  change (scan_int None (String "W" (fmt_u 2 w ++ String "-" (fmt_u 0 d ++ String " " rest))))
    with MatchingFailure.
  cbv beta iota zeta. rewrite V1.
  cbn [Z.of_nat Pos.of_succ_nat Pos.succ Z.eqb Pos.eqb nth set_nth].
  rewrite scan_int_width by (try assumption; try reflexivity; lia).
  change (scan_int (Some 2%nat)
            (String "-" (String "W" (fmt_u 2 w ++ String "-" (fmt_u 0 d ++ String " " rest)))))
    with MatchingFailure.
  cbv beta iota zeta. cbn [Z.eqb Pos.eqb]. rewrite V2, V3.
  destruct (Z.ltb_spec (crm_time_weeks_in_year y) w); [lia |].
  destruct (Z.ltb_spec d 1); [lia |]. destruct (Z.ltb_spec 7 d); [lia |].
  reflexivity.
Qed.

(** *** A date and a time of day *)

(** The tests of [parse_date] before the date notations, on a year of
    digits and what follows its "-". *)
Lemma parse_date_begins (a r : string) :
  all_digits a = true -> a <> EmptyString ->
  r <> EmptyString -> Ascii.eqb (head r) ":" = false ->
  (String.length (a ++ String "-" r) =? 0)%nat = false /\
  Ascii.eqb (head (a ++ String "-" r)) "T" = false /\
  (exists c, char_at (a ++ String "-" r) 2 = Ok c /\ Ascii.eqb c ":" = false) /\
  safe_str_eq "epoch" (a ++ String "-" r) = false.
Proof.
  intros Ha Hne Hr Hc.
  destruct a as [| c0 a]; [contradiction |].
  cbn in Ha. apply andb_true_iff in Ha. destruct Ha as [H0 Ha].
  destruct (digit_plain c0 H0) as (_ & _ & _ & T0 & _ & E0 & _).
  cbn [append String.length head]. repeat split.
  - exact T0.
  - destruct a as [| c1 a].
    + destruct r as [| x r]; [contradiction |]. exists x. split; [reflexivity | exact Hc].
    + destruct a as [| c2 a].
      * exists "-"%char. split; reflexivity.
      * cbn in Ha. rewrite !andb_true_iff in Ha. destruct Ha as (_ & H2 & _).
        destruct (digit_plain c2 H2) as (_ & _ & _ & _ & C2 & _).
        exists c2. split; [reflexivity | exact C2].
  - unfold safe_str_eq. cbn [String.eqb]. rewrite E0. reflexivity.
Qed.

(** [parse_date] on a date without blanks, a blank, "hh:mm:ss" and the
    offset. *)
Lemma parse_date_with_time (h : host) (date_s off : string) (dt : crm_time)
    (hh mm ss o : Z) :
  let time_s :=
    (fmt_u 2 hh ++ String ":" (fmt_u 2 mm ++ String ":" (fmt_u 2 ss ++ off)))%string in
  let text := (date_s ++ String " " time_s)%string in
  (String.length text =? 0)%nat = false ->
  Ascii.eqb (head text) "T" = false ->
  (exists c, char_at text 2 = Ok c /\ Ascii.eqb c ":" = false) ->
  safe_str_eq "epoch" text = false ->
  lacks " " date_s = true ->
  parse_date_notation text calloc_time = Ok dt ->
  0 <= hh < 24 -> 0 <= mm < 60 -> 0 <= ss < 60 -> offset_text o off ->
  parse_date h text
  = let r := set_offset (set_seconds dt (3600 * hh + 60 * mm + ss)) o in
    if crm_time_check (Some r) then Ok (Some r) else Ok None.
Proof.
  intros time_s text B1 B2 (c & B3 & B4) B5 LS N Hh Hm Hs Hoff.
  assert (St : strstr text " " = Some (String " " time_s))
    by (unfold text; apply strstr_skip; exact LS).
  unfold parse_date. fold text.
  rewrite B1, B2, B3. cbn [bind]. rewrite B4, B5, N, St. cbn [negb andb bind tail].
  unfold time_s. rewrite (crm_time_parse_canonical h dt hh mm ss o off Hh Hm Hs Hoff).
  reflexivity.
Qed.

(** What [time_string] makes of a value in range whose offset is a number
    of whole minutes within a day. *)
Lemma time_string_timezone (v : crm_time) (flags : Z) :
  has_flag flags crm_time_log_with_timezone = true \/ offset v = 0 ->
  0 <= seconds v < 86400 ->
  -86400 < offset v < 86400 -> Z.rem (offset v) 60 = 0 ->
  exists hh mm ss off,
    time_string v flags
    = ((fmt_u 2 hh ++ String ":" (fmt_u 2 mm ++ String ":" (fmt_u 2 ss)))%string, off) /\
    0 <= hh < 24 /\ 0 <= mm < 60 /\ 0 <= ss < 60 /\
    3600 * hh + 60 * mm + ss = seconds v /\
    offset_text (offset v) off /\ (String.length off <= 7)%nat.
Proof.
  intros Hf S Ho Hr.
  pose proof (crm_time_get_sec_spec (seconds v)
                ltac:(unfold in_int, INT_MIN, INT_MAX; lia)) as T.
  destruct (crm_time_get_sec (seconds v)) as [[hh mm] ss] eqn:ET.
  destruct T as (T1 & T2 & T3 & T4 & T5).
  rewrite Z.abs_eq in T1, T5 by lia. specialize (T5 ltac:(lia)).
  pose proof (crm_time_get_sec_spec (offset v)
                ltac:(unfold in_int, INT_MIN, INT_MAX; lia)) as U.
  destruct (crm_time_get_sec (offset v)) as [[oh om] os] eqn:EU.
  destruct U as (U1 & U2 & U3 & U4 & U5). specialize (U5 ltac:(lia)).
  assert (U6 : os = 0) by euclid.
  destruct (fmt_u_2 hh ltac:(lia)) as (A4 & L4 & V4).
  destruct (fmt_u_2 mm ltac:(lia)) as (A5 & L5 & V5).
  destruct (fmt_u_2 ss ltac:(lia)) as (A6 & L6 & V6).
  destruct (fmt_u_2 oh ltac:(lia)) as (A7 & L7 & V7).
  destruct (fmt_u_2 om ltac:(lia)) as (A8 & L8 & V8).
  unfold time_string, crm_time_get_timeofday. rewrite ET. cbn [append].
  rewrite (snprintf_short 33) by (string_length; lia).
  destruct (Z.eqb_spec (offset v) 0) as [E0 | E0]; cbn [negb]; rewrite ?orb_true_r;
    [| destruct Hf as [Hf | Hf]; [rewrite Hf; cbn [negb orb] | contradiction]].
  - exists hh, mm, ss, "Z"%string. repeat split; try lia.
    + left. split; [reflexivity | exact E0].
    + cbn. lia.
  - rewrite EU.
    rewrite (snprintf_short 24) by (destruct (offset v <? 0); string_length; lia).
    eexists hh, mm, ss, _. split; [reflexivity |]. repeat split; try lia.
    + right. exists oh, om. split; [lia |]. split; [lia |].
      destruct (Z.ltb_spec (offset v) 0); [right | left]; split; try reflexivity; lia.
    + destruct (offset v <? 0); string_length; lia.
Qed.

(** The text that [crm_time_as_string] puts together from a date part
    and the time of day with the timezone is read back as the value, when
    the date part is read back as the date. *)
Lemma text_read_back (h : host) (v : crm_time) (flags : Z) (a r : string) :
  crm_time_check (Some v) = true -> months v = 0 -> duration v = false ->
  -86400 < offset v < 86400 -> Z.rem (offset v) 60 = 0 ->
  has_flag flags crm_time_log_with_timezone = true \/ offset v = 0 ->
  all_digits a = true -> a <> EmptyString ->
  r <> EmptyString -> Ascii.eqb (head r) ":" = false ->
  lacks " " (a ++ String "-" r) = true ->
  (String.length (a ++ String "-" r) <= 30)%nat ->
  (forall rest, parse_date_notation ((a ++ String "-" r) ++ String " " rest) calloc_time
                = Ok (mk_time (years v) 0 (days v) 0 0 false)) ->
  let '(time_s, offset_s) := time_string v flags in
  parse_date h (compose (Some (a ++ String "-" r)%string) (Some time_s) (Some offset_s))
  = Ok (Some v).
Proof.
  intros Hc Hmo Hdu Ho Hr Hf Ha Na Nr Cr LS Len N.
  pose proof Hc as Hc'. apply crm_time_check_iff in Hc'. destruct Hc' as [V S].
  destruct (time_string_timezone v flags Hf S Ho Hr)
    as (hh & mm & ss & off & -> & Hh & Hm & Hs & T & Hoff & Loff).
  destruct (fmt_u_2 hh ltac:(lia)) as (A4 & L4 & V4).
  destruct (fmt_u_2 mm ltac:(lia)) as (A5 & L5 & V5).
  destruct (fmt_u_2 ss ltac:(lia)) as (A6 & L6 & V6).
  unfold compose. cbn [append].
  rewrite snprintf_short
    by (rewrite length_append in Len; cbn [String.length] in Len; string_length; lia).
  rewrite (append_assoc (fmt_u 2 hh)). cbn [append].
  rewrite (append_assoc (fmt_u 2 mm)). cbn [append].
  set (time_s := (fmt_u 2 hh ++ String ":" (fmt_u 2 mm ++ String ":" (fmt_u 2 ss ++ off)))%string).
  assert (B : forall rest,
    (String.length ((a ++ String "-" r) ++ rest) =? 0)%nat = false /\
    Ascii.eqb (head ((a ++ String "-" r) ++ rest)) "T" = false /\
    (exists c, char_at ((a ++ String "-" r) ++ rest) 2 = Ok c /\ Ascii.eqb c ":" = false) /\
    safe_str_eq "epoch" ((a ++ String "-" r) ++ rest) = false).
  { intros rest. rewrite append_assoc. cbn [append].
    apply parse_date_begins; try assumption.
    - destruct r; [contradiction | discriminate].
    - destruct r; [contradiction | exact Cr]. }
  destruct (B (String " " time_s)) as (B1 & B2 & B3 & B5).
  subst time_s.
  rewrite (parse_date_with_time h (a ++ String "-" r) off
             (mk_time (years v) 0 (days v) 0 0 false) hh mm ss (offset v));
    try assumption; [| apply N].
  cbv zeta. rewrite T.
  replace (set_offset (set_seconds (mk_time (years v) 0 (days v) 0 0 false) (seconds v))
             (offset v)) with v
    by (apply time_ext; cbn [set_offset set_seconds years months days seconds offset duration];
        congruence).
  rewrite Hc. reflexivity.
Qed.

(** [crm_time_as_string] for a date, the time of day and the timezone:
    the parts that it puts together; [dt] is the value that is written. *)
Lemma crm_time_as_string_parts (v dt : crm_time) (flags : Z) (date_s : string) :
  (if negb (offset v =? 0) && negb (has_flag flags crm_time_log_with_timezone)
   then crm_get_utc_time v else v) = dt ->
  has_flag flags crm_time_log_duration = false ->
  has_flag flags crm_time_log_date = true ->
  has_flag flags crm_time_log_timeofday = true ->
  date_string v dt flags = Ok (date_s, false) ->
  crm_time_as_string (Some v) flags
  = Ok (Some (let '(time_s, offset_s) := time_string dt flags in
              compose (Some date_s) (Some time_s) (Some offset_s))).
Proof.
  intros Edt F1 F2 F3 D. unfold crm_time_as_string.
  assert (E : (if negb (offset v =? 0) && negb (has_flag flags crm_time_log_with_timezone)
               then Some (crm_get_utc_time v) else Some v) = Some dt)
    by (rewrite <- Edt; destruct (_ && _); reflexivity).
  rewrite E, F1, F2, F3, D. cbn [bind].
  destruct (time_string dt flags) as [time_s offset_s]. reflexivity.
Qed.

(** The Gregorian date part of a value in range. *)
Lemma gregorian_date_part (v : crm_time) :
  valid_date v -> 1 <= years v <= 9999 ->
  exists m d,
    crm_time_get_gregorian v = Ok (years v, m, d) /\
    let a := fmt_u 4 (years v) in
    let r := (fmt_u 2 m ++ String "-" (fmt_u 2 d))%string in
    snprintf 33 (fmt_u 4 (years v) ++ "-" ++ fmt_u 2 m ++ "-" ++ fmt_u 2 d)
    = (a ++ String "-" r)%string /\
    all_digits a = true /\ a <> EmptyString /\
    r <> EmptyString /\ Ascii.eqb (head r) ":" = false /\
    lacks " " (a ++ String "-" r) = true /\
    (String.length (a ++ String "-" r) <= 30)%nat /\
    (forall rest, parse_date_notation ((a ++ String "-" r) ++ String " " rest) calloc_time
                  = Ok (mk_time (years v) 0 (days v) 0 0 false)).
Proof.
  intros V Hy. unfold valid_date in V.
  destruct (crm_time_get_gregorian_spec v V ltac:(lia)
              ltac:(unfold in_int, INT_MIN, INT_MAX; lia))
    as (m & d & x & G & Hm & Dx & Hd & O).
  pose proof (days_in_month_bounds _ _ _ Dx) as Bx.
  rewrite (u32_small (years v)) in G by lia.
  exists m, d. split; [exact G |]. cbv zeta.
  destruct (fmt_u_4 (years v) ltac:(lia)) as (A1 & L1 & V1).
  destruct (fmt_u_2 m ltac:(lia)) as (A2 & L2 & V2).
  destruct (fmt_u_2 d ltac:(lia)) as (A3 & L3 & V3).
  assert (N2 : fmt_u 2 m <> EmptyString) by (eapply nonempty_of_length; eassumption).
  cbn [append]. rewrite snprintf_short by (string_length; lia).
  repeat split.
  - exact A1.
  - eapply nonempty_of_length; eassumption.
  - destruct (fmt_u 2 m); [contradiction | discriminate].
  - destruct (fmt_u 2 m) as [| c r]; [contradiction |]. cbn in A2.
    apply andb_true_iff in A2. destruct A2 as [Hc _].
    destruct (digit_plain c Hc) as (_ & _ & _ & _ & C & _). exact C.
  - apply lacks_digits_sep; try assumption; try reflexivity.
    apply lacks_digits_sep; try assumption; try reflexivity.
    apply all_digits_lacks; [reflexivity | assumption].
  - string_length. lia.
  - intros rest. rewrite append_assoc. cbn [append]. rewrite append_assoc. cbn [append].
    apply gregorian_notation; try lia; try assumption.
    unfold in_int, INT_MIN, INT_MAX. pose proof (year_days_cases (years v)). lia.
Qed.

(** X21.  The text of a date and time in range with its timezone is read
    back as the same value: for a value that passes [crm_time_check], of a
    year from 1 to 9999, that is no duration and whose offset is a number
    of whole minutes within a day, [parse_date] of what
    [crm_time_as_string] gives for date, time of day and timezone is that
    value. *)
Theorem parse_date_of_as_string (h : host) (v : crm_time) :
  crm_time_check (Some v) = true ->
  1 <= years v <= 9999 -> months v = 0 -> duration v = false ->
  -86400 < offset v < 86400 -> Z.rem (offset v) 60 = 0 ->
  exists s,
    crm_time_as_string (Some v) gregorian_timeofday_timezone = Ok (Some s) /\
    parse_date h s = Ok (Some v).
Proof.
  intros Hc Hy Hmo Hdu Ho Hr.
  pose proof Hc as Hc'. apply crm_time_check_iff in Hc'. destruct Hc' as [V S].
  destruct (gregorian_date_part v V Hy) as (m & d & G & P). cbv zeta in P.
  destruct P as (E & Ha & Na & Nr & Cr & LS & Len & N).
  pose proof (text_read_back h v gregorian_timeofday_timezone _ _ Hc Hmo Hdu Ho Hr
                (or_introl eq_refl) Ha Na Nr Cr LS Len N) as R.
  eexists. split.
  - apply (crm_time_as_string_parts v v); try reflexivity.
    { change (has_flag gregorian_timeofday_timezone crm_time_log_with_timezone) with true.
      cbn [negb]. rewrite andb_false_r. reflexivity. }
    unfold date_string.
    change (has_flag gregorian_timeofday_timezone crm_time_seconds) with false.
    change (has_flag gregorian_timeofday_timezone crm_time_epoch) with false.
    change (has_flag gregorian_timeofday_timezone crm_time_weeks) with false.
    change (has_flag gregorian_timeofday_timezone crm_time_ordinal) with false.
    cbv iota. rewrite G. cbn [bind]. cbv beta iota zeta. rewrite E. reflexivity.
  - destruct (time_string v gregorian_timeofday_timezone) as [time_s offset_s]. exact R.
Qed.

Lemma parse_date_of_as_string_witness :
  exists s,
    crm_time_as_string (Some (mk_time 2005 0 25 36000 (-5400) false))
      gregorian_timeofday_timezone = Ok (Some s) /\
    parse_date (mk_host 0 calloc_time) s = Ok (Some (mk_time 2005 0 25 36000 (-5400) false)).
Proof.
  apply (parse_date_of_as_string (mk_host 0 calloc_time)
           (mk_time 2005 0 25 36000 (-5400) false));
    [reflexivity | cbn; lia | reflexivity | reflexivity | cbn; lia | reflexivity].
Defined.

(** X22.  The text of a date and time without the timezone is the UTC form:
    [parse_date] of what [crm_time_as_string] gives for date and time of
    day is [crm_get_utc_time] of the value, for a value without months that
    passes [crm_time_check] and whose UTC form is of a year from 1 to
    9999. *)
Theorem parse_date_of_utc_string (h : host) (v : crm_time) :
  crm_time_check (Some v) = true -> months v = 0 ->
  1 <= years (crm_get_utc_time v) <= 9999 ->
  exists s,
    crm_time_as_string (Some v) (Z.lor crm_time_log_date crm_time_log_timeofday)
      = Ok (Some s) /\
    parse_date h s = Ok (Some (crm_get_utc_time v)).
Proof.
  intros Hc Hmo Hy.
  set (u := crm_get_utc_time v) in *.
  destruct (crm_get_utc_time_spec v) as (UO & UD & _ & UC). specialize (UC Hc).
  fold u in UO, UD, UC.
  assert (UM : months u = 0).
  { unfold u, crm_get_utc_time. destruct (negb (offset v =? 0)).
    - destruct (crm_time_add_seconds_instant
                  (mk_time (years v) 0 (days v) (seconds v) 0 false) (- offset v) eq_refl)
        as (_ & _ & _ & _ & M & _). exact M.
    - exact Hmo. }
  pose proof UC as UC'. apply crm_time_check_iff in UC'. destruct UC' as [V S].
  destruct (gregorian_date_part u V Hy) as (m & d & G & P). cbv zeta in P.
  destruct P as (E & Ha & Na & Nr & Cr & LS & Len & N).
  set (flags := Z.lor crm_time_log_date crm_time_log_timeofday).
  pose proof (text_read_back h u flags _ _ UC UM UD ltac:(lia) ltac:(rewrite UO; reflexivity)
                (or_intror UO) Ha Na Nr Cr LS Len N) as R.
  set (dt := if negb (offset v =? 0) then u else v).
  assert (Gdt : crm_time_get_gregorian dt = crm_time_get_gregorian u).
  { unfold dt, u, crm_get_utc_time. destruct (negb (offset v =? 0)); reflexivity. }
  assert (Tdt : time_string dt flags = time_string u flags).
  { unfold dt, u, crm_get_utc_time. destruct (Z.eqb_spec (offset v) 0) as [E0 | E0];
      cbn [negb]; [| reflexivity].
    unfold time_string, crm_time_get_timeofday.
    cbn [set_months seconds offset]. rewrite E0. reflexivity. }
  eexists. split.
  - apply (crm_time_as_string_parts v dt); try reflexivity.
    + change (has_flag (Z.lor crm_time_log_date crm_time_log_timeofday)
                crm_time_log_with_timezone) with false.
      cbn [negb]. rewrite andb_true_r. reflexivity.
    + unfold date_string. fold flags.
      change (has_flag flags crm_time_seconds) with false.
      change (has_flag flags crm_time_epoch) with false.
      change (has_flag flags crm_time_weeks) with false.
      change (has_flag flags crm_time_ordinal) with false.
      cbv iota. rewrite Gdt, G. cbn [bind]. cbv beta iota zeta. rewrite E. reflexivity.
  - fold flags. rewrite Tdt.
    destruct (time_string u flags) as [time_s offset_s]. exact R.
Qed.

Lemma parse_date_of_utc_string_witness :
  exists s,
    crm_time_as_string (Some (mk_time 2005 0 1 3600 7200 false))
      (Z.lor crm_time_log_date crm_time_log_timeofday) = Ok (Some s) /\
    parse_date (mk_host 0 calloc_time) s
    = Ok (Some (crm_get_utc_time (mk_time 2005 0 1 3600 7200 false))).
Proof.
  apply (parse_date_of_utc_string (mk_host 0 calloc_time)
           (mk_time 2005 0 1 3600 7200 false));
    [reflexivity | reflexivity | vm_compute; split; discriminate].
Defined.

(** ** Week years *)

(** Week 1 of the next year begins [crm_time_weeks_in_year] weeks after
    week 1 of the year. *)
Lemma iso_weeks_tile (y : Z) :
  1 <= y ->
  iso_week1_monday (y + 1) = iso_week1_monday y + 7 * crm_time_weeks_in_year y.
Proof.
  intros H. unfold iso_week1_monday, day_number.
  rewrite (weeks_in_year_cases y H), (january1_weekday_next y H), days_before_year_succ.
  pose proof (january1_weekday_range y H) as JR.
  rewrite <- (leap_length_year_days y).
  set (j := crm_time_january1_weekday y) in *. clearbody j.
  destruct (crm_time_leapyear y);
    assert (C : j = 1 \/ j = 2 \/ j = 3 \/ j = 4 \/ j = 5 \/ j = 6 \/ j = 7) by lia;
    destruct C as [-> | [-> | [-> | [-> | [-> | [-> | ->]]]]]]; cbn; lia.
Qed.

(** X23.  A year from 1 on has 53 ISO weeks when it begins on a Thursday, or
    is a leap year that begins on a Wednesday, and 52 weeks otherwise; week
    1 of the next year begins that many weeks after week 1 of the year. *)
Theorem crm_time_weeks_in_year_long_years (y : Z) :
  1 <= y ->
  crm_time_weeks_in_year y
  = (if (crm_time_january1_weekday y =? 4)
        || (crm_time_leapyear y && (crm_time_january1_weekday y =? 3))
     then 53 else 52) /\
  iso_week1_monday (y + 1) = iso_week1_monday y + 7 * crm_time_weeks_in_year y.
Proof.
  intros H. split; [exact (weeks_in_year_cases y H) | exact (iso_weeks_tile y H)].
Qed.

Lemma crm_time_weeks_in_year_long_years_witness :
  crm_time_weeks_in_year 2020
  = (if (crm_time_january1_weekday 2020 =? 4)
        || (crm_time_leapyear 2020 && (crm_time_january1_weekday 2020 =? 3))
     then 53 else 52) /\
  iso_week1_monday (2020 + 1) = iso_week1_monday 2020 + 7 * crm_time_weeks_in_year 2020.
Proof. apply (crm_time_weeks_in_year_long_years 2020). lia. Defined.

Lemma iso_week1_monday_near (y : Z) :
  1 <= y -> days_before_year y - 2 <= iso_week1_monday y <= days_before_year y + 4.
Proof.
  intros H. unfold iso_week1_monday, day_number.
  pose proof (january1_weekday_range y H) as JR.
  destruct (crm_time_january1_weekday y <=? 4) eqn:E;
    [apply Z.leb_le in E | apply Z.leb_gt in E]; lia.
Qed.

(** A day is in one week year only. *)
Lemma iso_week_year_unique (y1 y2 k1 k2 : Z) :
  1 <= y1 -> 1 <= y2 ->
  0 <= k1 < 7 * crm_time_weeks_in_year y1 -> 0 <= k2 < 7 * crm_time_weeks_in_year y2 ->
  iso_week1_monday y1 + k1 = iso_week1_monday y2 + k2 ->
  y1 = y2.
Proof.
  assert (Lt : forall a b ka kb,
    1 <= a -> a < b -> 0 <= ka < 7 * crm_time_weeks_in_year a -> 0 <= kb ->
    iso_week1_monday a + ka = iso_week1_monday b + kb -> False).
  { intros a b ka kb Ha Hab Hka Hkb E.
    pose proof (iso_weeks_tile a Ha) as T.
    destruct (Z.eq_dec b (a + 1)) as [-> | N]; [lia |].
    pose proof (iso_week1_monday_near (a + 1) ltac:(lia)) as N1.
    pose proof (iso_week1_monday_near b ltac:(lia)) as N2.
    pose proof (days_before_year_mono (a + 2) b ltac:(lia)) as M.
    pose proof (days_before_year_succ (a + 1)) as S1.
    replace (a + 1 + 1) with (a + 2) in S1 by lia.
    pose proof (year_days_cases (a + 1)). lia. }
  intros H1 H2 K1 K2 E.
  destruct (Z.lt_trichotomy y1 y2) as [L | [L | L]]; [exfalso | exact L | exfalso].
  - apply (Lt y1 y2 k1 k2); try assumption; lia.
  - apply (Lt y2 y1 k2 k1); try assumption; try lia.
Qed.

(** The value that [parse_date] builds from an ISO week date. *)
Lemma week_date_spec (y w d : Z) :
  let r := week_date calloc_time y w d in
  valid_date r /\
  day_number (years r) (days r) = iso_week1_monday y + 7 * (w - 1) + (d - 1) /\
  seconds r = 0 /\ offset r = 0 /\ months r = 0 /\ duration r = false.
Proof.
  set (jan1 := crm_time_january1_weekday y).
  set (adj := if jan1 <=? 4 then 1 - jan1 else 8 - jan1).
  unfold week_date. fold jan1.
  set (t0 := set_years calloc_time y).
  assert (D0 : duration t0 = false) by reflexivity.
  destruct (crm_time_add_days_instant t0 ((w - 1) * 7) D0) as (_ & N1 & S1 & O1 & M1 & D1).
  set (t1 := crm_time_add_days t0 ((w - 1) * 7)) in *.
  assert (E : (if jan1 <=? 4 then crm_time_add_days t1 (1 - jan1)
               else crm_time_add_days t1 (8 - jan1)) = crm_time_add_days t1 adj)
    by (unfold adj; destruct (jan1 <=? 4); reflexivity).
  rewrite E.
  destruct (crm_time_add_days_instant t1 adj D1) as (_ & N2 & S2 & O2 & M2 & D2).
  set (t2 := crm_time_add_days t1 adj) in *.
  destruct (crm_time_add_days_instant t2 d D2) as (V3 & N3 & S3 & O3 & M3 & D3).
  cbv zeta. split; [exact V3 |]. split.
  - rewrite N3, N2, N1. unfold iso_week1_monday. fold jan1. fold adj.
    unfold day_number. cbn [t0 set_years years days calloc_time]. lia.
  - rewrite S3, S2, S1, O3, O2, O1, M3, M2, M1. repeat split; try reflexivity. exact D3.
Qed.

(** X24.  The ISO week date that [parse_date] builds is the one that
    [crm_time_get_isoweek] reads: for a year from 1 on, a week of that
    year and a weekday from 1 to 7, the value of [week_date] is a date in
    range whose ISO week date is the same year, week and weekday. *)
Theorem crm_time_get_isoweek_of_week_date (y w d : Z) :
  1 <= y < INT_MAX - 1 -> 1 <= w <= crm_time_weeks_in_year y -> 1 <= d <= 7 ->
  valid_date (week_date calloc_time y w d) /\
  crm_time_get_isoweek (week_date calloc_time y w d) = Some (y, w, d).
Proof.
  intros Hy Hw Hd. unfold INT_MAX in Hy.
  destruct (week_date_spec y w d) as (V & N & _).
  split; [exact V |].
  set (r := week_date calloc_time y w d) in *.
  pose proof (weeks_in_year_range y ltac:(lia)) as WR.
  pose proof (iso_week1_monday_near y ltac:(lia)) as Near.
  pose proof (iso_weeks_tile y ltac:(lia)) as Tile.
  pose proof (iso_week1_monday_near (y + 1) ltac:(lia)) as Near1.
  assert (Yr : 1 <= years r < 2147483647).
  { unfold valid_date in V. unfold day_number in N.
    pose proof (year_days_cases (years r)) as YD.
    pose proof (days_before_year_succ (years r)) as S1.
    split.
    - destruct (Z.le_gt_cases 1 (years r)) as [L | L]; [exact L | exfalso].
      pose proof (days_before_year_mono (years r + 1) 1 ltac:(lia)) as M1.
      change (days_before_year 1) with 0 in M1.
      destruct (Z.eq_dec y 1) as [-> | Ny].
      + change (iso_week1_monday 1) with 1 in N. lia.
      + pose proof (days_before_year_mono 2 y ltac:(lia)) as M2.
        change (days_before_year 2) with 365 in M2. lia.
    - destruct (Z.le_gt_cases (years r) (y + 1)) as [L | L]; [lia | exfalso].
      pose proof (days_before_year_mono (y + 2) (years r) ltac:(lia)) as M1.
      pose proof (days_before_year_succ (y + 1)) as S2.
      replace (y + 1 + 1) with (y + 2) in S2 by lia.
      pose proof (year_days_cases (y + 1)). lia. }
  destruct (crm_time_get_isoweek_spec r ltac:(unfold INT_MAX; lia) V)
    as (yn & w' & d' & E & Hyn & Ed & Hw' & N').
  rewrite E. rewrite N in Ed, N'.
  assert (Hd' : 1 <= d' <= 7).
  { pose proof (Z.mod_pos_bound (iso_week1_monday y + 7 * (w - 1) + (d - 1) - 1) 7
                  ltac:(lia)). lia. }
  assert (Ey : y = yn).
  { apply (iso_week_year_unique y yn (7 * (w - 1) + (d - 1)) (7 * (w' - 1) + (d' - 1)));
      try lia. }
  subst yn. assert (w' = w /\ d' = d) by lia.
  destruct H as [-> ->]. reflexivity.
Qed.

Lemma crm_time_get_isoweek_of_week_date_witness :
  valid_date (week_date calloc_time 2009 53 7) /\
  crm_time_get_isoweek (week_date calloc_time 2009 53 7) = Some (2009, 53, 7).
Proof.
  apply (crm_time_get_isoweek_of_week_date 2009 53 7);
    [unfold INT_MAX; lia | vm_compute; split; discriminate | lia].
Defined.

(** ** Duration fields *)

Lemma advance_append (a rest : string) : advance (String.length a) (a ++ rest) = rest.
Proof. induction a as [| c a IH]; [destruct rest; reflexivity | exact IH]. Qed.

Lemma parse_int_digits_app (a rest : string) :
  isdigit (head rest) = false ->
  forall lpc offset res,
    all_digits a = true -> 0 <= lpc -> lpc + Z.of_nat (String.length a) <= 10 ->
    parse_int_digits (a ++ rest) false 10 lpc offset res
    = Ok (lpc + Z.of_nat (String.length a), offset + Z.of_nat (String.length a),
          digits_value a res).
Proof.
  intros Hr. induction a as [| c a IH]; intros lpc offset res Ha Hl Hw.
  - cbn [append String.length digits_value Z.of_nat]. rewrite !Z.add_0_r.
    destruct rest as [| x r]; [reflexivity |]. cbn [head] in Hr.
    cbn [parse_int_digits]. rewrite Hr, andb_false_r. reflexivity.
  - cbn in Ha. apply andb_true_iff in Ha. destruct Ha as [Hc Ha].
    cbn [String.length] in Hw.
    change ((String c a ++ rest)%string) with (String c (a ++ rest)).
    cbn [parse_int_digits orb]. rewrite Hc.
    destruct (Z.ltb_spec lpc 10); [| lia]. cbn [andb bind].
    rewrite IH by (try assumption; lia).
    cbn [String.length digits_value]. do 3 f_equal; lia.
Qed.

(** A field of at most ten digits, as [crm_time_parse_duration] asks for
    it. *)
Lemma parse_int_field (a rest : string) :
  isdigit (head rest) = false -> all_digits a = true -> a <> EmptyString ->
  (String.length a <= 10)%nat ->
  parse_int (a ++ rest) 10 0 = Ok (Z.of_nat (String.length a), digits_value a 0).
Proof.
  intros Hr Ha Hne Hl. destruct a as [| c a]; [contradiction |].
  pose proof Ha as Ha'. cbn in Ha'. apply andb_true_iff in Ha'. destruct Ha' as [Hc _].
  assert (Hc' : In c ["0"; "1"; "2"; "3"; "4"; "5"; "6"; "7"; "8"; "9"]%char)
    by (apply digit_cases; exact Hc).
  unfold parse_int.
  change ((String c a ++ rest)%string) with (String c (a ++ rest)).
  cbn [head].
  assert (E : Ascii.eqb c "T" = false /\ Ascii.eqb c "." = false /\ Ascii.eqb c "," = false /\
              Ascii.eqb c "-" = false /\ Ascii.eqb c "+" = false /\ Ascii.eqb c ":" = false).
  { cbn in Hc'. repeat (destruct Hc' as [<- | Hc']; [repeat split; reflexivity |]).
    contradiction. }
  destruct E as (E1 & E2 & E3 & E4 & E5 & E6).
  rewrite E1. cbn [head]. rewrite E2, E3, E4, E5, E6. cbn [orb].
  change (String c (a ++ rest)) with ((String c a ++ rest)%string).
  rewrite parse_int_digits_app by (try assumption; lia).
  cbn [bind]. change (0 <? 0) with false. cbn [andb].
  destruct (Z.ltb_spec 0 (0 + Z.of_nat (String.length (String c a))));
    [reflexivity | cbn [String.length] in *; lia].
Qed.

(** One round of the loop of [crm_time_parse_duration] on a field of
    digits and its designator [c], after a "T" when [t] is set. *)
Lemma parse_duration_round (k : nat) (a rest : string) (c : ascii) (t is_time : bool)
    (diff : crm_time) :
  isdigit c = false -> all_digits a = true -> a <> EmptyString ->
  (String.length a <= 10)%nat ->
  parse_duration_loop (S k)
    (if t then String "T" (a ++ String c rest) else (a ++ String c rest)%string)
    is_time diff
  = let is_time := t || is_time in
    let an_int := digits_value a 0 in
    if Ascii.eqb c NUL then Ok (Some diff)
    else if Ascii.eqb c "Y" then
      parse_duration_loop k rest is_time (set_years diff an_int)
    else if Ascii.eqb c "M" then
      if is_time then
        parse_duration_loop k rest is_time (set_seconds diff (seconds diff + an_int * 60))
      else parse_duration_loop k rest is_time (set_months diff an_int)
    else if Ascii.eqb c "W" then
      parse_duration_loop k rest is_time (set_days diff (days diff + an_int * 7))
    else if Ascii.eqb c "D" then
      parse_duration_loop k rest is_time (set_days diff (days diff + an_int))
    else if Ascii.eqb c "H" then
      parse_duration_loop k rest is_time (set_seconds diff (seconds diff + an_int * 60 * 60))
    else if Ascii.eqb c "S" then
      parse_duration_loop k rest is_time (set_seconds diff (seconds diff + an_int))
    else Ok None.
Proof.
  intros Hc Ha Hne Hl.
  assert (Hh : isspace (head (a ++ String c rest)) = false /\
               Ascii.eqb (head (a ++ String c rest)) "T" = false).
  { destruct a as [| x a]; [contradiction |]. cbn in Ha.
    apply andb_true_iff in Ha. destruct Ha as [Hx _].
    destruct (digit_plain x Hx) as (Sp & _ & _ & T & _). cbn [append head]. split; assumption. }
  destruct Hh as [Hsp HT].
  cbn [parse_duration_loop].
  destruct t; cbn [head tail orb].
  - change (isspace "T") with false. cbv iota. change (Ascii.eqb "T" "T") with true.
    cbv iota beta. rewrite parse_int_field by (try assumption; reflexivity || exact Hc).
    cbn [bind]. cbv beta iota zeta.
    destruct (Z.eqb_spec (Z.of_nat (String.length a)) 0) as [E | _];
      [destruct a; [contradiction | discriminate] |].
    rewrite Nat2Z.id, advance_append. reflexivity.
  - rewrite Hsp, HT. cbv iota beta.
    rewrite parse_int_field by (try assumption; reflexivity || exact Hc).
    cbn [bind]. cbv beta iota zeta.
    destruct (Z.eqb_spec (Z.of_nat (String.length a)) 0) as [E | _];
      [destruct a; [contradiction | discriminate] |].
    rewrite Nat2Z.id, advance_append. reflexivity.
Qed.

(** X25.  [crm_time_parse_duration] reads the six fields of
    "PnYnMnDTnHnMnS": the years, the months and the days as they are, and
    the hours, minutes and seconds summed in seconds; "M" is months before
    the "T" and minutes after it.  Every field is one to ten digits that
    denote a number up to [INT_MAX], and the seconds of the hours, the
    minutes and the seconds together are at most [INT_MAX], so that no
    [int] of the parser overflows. *)
Theorem crm_time_parse_duration_fields (fy fmo fd fh fmi fs : string) :
  Forall (fun f => all_digits f = true /\ f <> EmptyString /\ (String.length f <= 10)%nat
                   /\ digits_value f 0 <= INT_MAX)
         [fy; fmo; fd; fh; fmi; fs] ->
  digits_value fh 0 * 60 * 60 + digits_value fmi 0 * 60 + digits_value fs 0 <= INT_MAX ->
  crm_time_parse_duration
    (String "P" (fy ++ String "Y" (fmo ++ String "M" (fd ++ String "D"
       (String "T" (fh ++ String "H" (fmi ++ String "M" (fs ++ String "S" EmptyString))))))))
  = Ok (Some (mk_time (digits_value fy 0) (digits_value fmo 0) (digits_value fd 0)
                (digits_value fh 0 * 60 * 60 + digits_value fmi 0 * 60 + digits_value fs 0)
                0 false)).
Proof.
  intros F _.
  repeat match goal with
         | F : Forall _ (_ :: _) |- _ =>
             inversion F as [| ? ? [?A [?N [?L _]]] ?F']; subst; clear F
         end.
  unfold crm_time_parse_duration.
  cbn [String.length Nat.eqb head negb tail]. change (Ascii.eqb "P" "P") with true.
  cbn [negb].
  match goal with
  | |- parse_duration_loop ?n _ _ _ = _ =>
      assert (Fuel : exists k, n = (7 + k)%nat)
        by (exists (n - 7)%nat; string_length; lia)
  end.
  destruct Fuel as [k ->].
  change (7 + k)%nat with (S (S (S (S (S (S (S k))))))).
  rewrite (parse_duration_round _ fy _ "Y" false) by (try assumption; reflexivity).
  cbv beta iota zeta. cbn [Ascii.eqb Bool.eqb orb].
  rewrite (parse_duration_round _ fmo _ "M" false) by (try assumption; reflexivity).
  cbv beta iota zeta. cbn [Ascii.eqb Bool.eqb orb].
  rewrite (parse_duration_round _ fd _ "D" false) by (try assumption; reflexivity).
  cbv beta iota zeta. cbn [Ascii.eqb Bool.eqb orb].
  rewrite (parse_duration_round _ fh _ "H" true) by (try assumption; reflexivity).
  cbv beta iota zeta. cbn [Ascii.eqb Bool.eqb orb].
  rewrite (parse_duration_round _ fmi _ "M" false) by (try assumption; reflexivity).
  cbv beta iota zeta. cbn [Ascii.eqb Bool.eqb orb].
  rewrite (parse_duration_round _ fs _ "S" false) by (try assumption; reflexivity).
  cbv beta iota zeta. cbn [Ascii.eqb Bool.eqb orb].
  cbn. do 2 f_equal.
Qed.

Lemma crm_time_parse_duration_fields_witness :
  crm_time_parse_duration "P1Y2M10DT2H30M5S"
  = Ok (Some (mk_time 1 2 10 9005 0 false)).
Proof.
  apply (crm_time_parse_duration_fields "1" "2" "10" "2" "30" "5").
  - repeat constructor; cbn; try discriminate; unfold INT_MAX; lia.
  - unfold INT_MAX. cbn. lia.
Defined.

(** ** A time of day alone *)

(** X26.  A time of day alone, "hh:mm:ssZ", is that time of the current day
    in UTC: [parse_date] gives the host's current value with the seconds
    of the time and offset 0, when the date of the current value is in
    range. *)
Theorem parse_date_time_of_day (h : host) (hh mm ss : Z) :
  valid_date (now h) ->
  0 <= hh < 24 -> 0 <= mm < 60 -> 0 <= ss < 60 ->
  parse_date h (fmt_u 2 hh ++ String ":" (fmt_u 2 mm ++ String ":" (fmt_u 2 ss ++ "Z")))
  = Ok (Some (set_offset (set_seconds (now h) (3600 * hh + 60 * mm + ss)) 0)).
Proof.
  intros V Hh Hm Hs.
  destruct (fmt_u_2 hh ltac:(lia)) as (A1 & L1 & V1).
  destruct (fmt_u_2 mm ltac:(lia)) as (A2 & L2 & V2).
  destruct (fmt_u_2 ss ltac:(lia)) as (A3 & L3 & V3).
  set (s := (fmt_u 2 hh ++ String ":" (fmt_u 2 mm ++ String ":" (fmt_u 2 ss ++ "Z")))%string).
  assert (P : crm_time_parse h s (now h)
              = set_offset (set_seconds (now h) (3600 * hh + 60 * mm + ss)) 0)
    by (apply crm_time_parse_canonical; try assumption; left; split; reflexivity).
  assert (LS : lacks " " s = true /\ lacks "T" s = true).
  { unfold s. split.
    - apply lacks_digits_sep; try assumption; try reflexivity.
      apply lacks_digits_sep; try assumption; try reflexivity.
      apply lacks_digits_sep; try assumption; reflexivity.
    - apply lacks_digits_sep; try assumption; try reflexivity.
      apply lacks_digits_sep; try assumption; try reflexivity.
      apply lacks_digits_sep; try assumption; reflexivity. }
  destruct LS as [LS LT].
  unfold parse_date.
  rewrite (strstr_lacks " " s LS), (strstr_lacks "T" s LT), P.
  assert (B : (String.length s =? 0)%nat = false /\ Ascii.eqb (head s) "T" = false /\
              char_at s 2 = Ok ":"%char).
  { unfold s. destruct (fmt_u 2 hh) as [| c0 [| c1 [| c2 r]]]; try discriminate.
    cbn in A1. rewrite !andb_true_iff in A1. destruct A1 as (H0 & _).
    destruct (digit_plain c0 H0) as (_ & _ & _ & T0 & _).
    cbn [append String.length head]. repeat split. exact T0. }
  destruct B as (B1 & B2 & B3). rewrite B1, B2, B3. cbn [bind].
  change (Ascii.eqb ":" ":") with true. cbn [negb andb bind].
  assert (C : crm_time_check
                (Some (set_offset (set_seconds (now h) (3600 * hh + 60 * mm + ss)) 0)) = true).
  { apply crm_time_check_iff. unfold valid_date in *.
    cbn [set_offset set_seconds years days seconds]. split; [exact V | lia]. }
  rewrite C. reflexivity.
Qed.

Lemma parse_date_time_of_day_witness :
  parse_date (mk_host 0 (mk_time 2020 0 60 0 3600 false))
    (fmt_u 2 10 ++ String ":" (fmt_u 2 30 ++ String ":" (fmt_u 2 0 ++ "Z")))
  = Ok (Some (set_offset (set_seconds (mk_time 2020 0 60 0 3600 false)
                            (3600 * 10 + 60 * 30 + 0)) 0)).
Proof.
  apply (parse_date_time_of_day (mk_host 0 (mk_time 2020 0 60 0 3600 false)) 10 30 0);
    [unfold valid_date; vm_compute; split; discriminate | lia | lia | lia].
Defined.



(** ** The timezone view *)

(** X28.  [crm_time_get_timezone] gives the hour and the minute of the time
    of day, not of the offset: its result does not change with the
    offset, and it is the hours and minutes of the seconds field. *)
Theorem crm_time_get_timezone_of_seconds (dt : crm_time) (o : Z) :
  in_int (seconds dt) ->
  crm_time_get_timezone (set_offset dt o) = crm_time_get_timezone dt /\
  let '(h, m) := crm_time_get_timezone dt in
  0 <= h /\ 0 <= m < 60 /\
  3600 * h + 60 * m <= Z.abs (seconds dt) < 3600 * h + 60 * m + 60.
Proof.
  intros Hs. split; [reflexivity |].
  unfold crm_time_get_timezone.
  pose proof (crm_time_get_sec_spec (seconds dt) Hs) as T.
  destruct (crm_time_get_sec (seconds dt)) as [[h m] s].
  destruct T as (T1 & T2 & T3 & T4 & _). lia.
Qed.

Lemma crm_time_get_timezone_of_seconds_witness :
  crm_time_get_timezone (set_offset (mk_time 2020 0 60 37800 0 false) 7200)
  = crm_time_get_timezone (mk_time 2020 0 60 37800 0 false) /\
  let '(h, m) := crm_time_get_timezone (mk_time 2020 0 60 37800 0 false) in
  0 <= h /\ 0 <= m < 60 /\
  3600 * h + 60 * m <= Z.abs (seconds (mk_time 2020 0 60 37800 0 false))
    < 3600 * h + 60 * m + 60.
Proof.
  apply (crm_time_get_timezone_of_seconds (mk_time 2020 0 60 37800 0 false) 7200).
  unfold in_int, INT_MIN, INT_MAX. cbn. lia.
Defined.

(** ** The ordinal and the week form *)

(** X29.  The ordinal text of a date and time in range is read back as the
    same value: as for the Gregorian form, with the date written as year
    and day of the year. *)
Theorem parse_date_of_ordinal_string (h : host) (v : crm_time) :
  crm_time_check (Some v) = true ->
  1 <= years v <= 9999 -> months v = 0 -> duration v = false ->
  -86400 < offset v < 86400 -> Z.rem (offset v) 60 = 0 ->
  exists s,
    crm_time_as_string (Some v) (Z.lor gregorian_timeofday_timezone crm_time_ordinal)
      = Ok (Some s) /\
    parse_date h s = Ok (Some v).
Proof.
  intros Hc Hy Hmo Hdu Ho Hr.
  pose proof Hc as Hc'. apply crm_time_check_iff in Hc'. destruct Hc' as [V S].
  unfold valid_date in V. pose proof (year_days_cases (years v)) as YD.
  set (flags := Z.lor gregorian_timeofday_timezone crm_time_ordinal).
  destruct (fmt_u_0 (years v) ltac:(lia)) as (A1 & L1 & V1).
  destruct (fmt_u_3 (days v) ltac:(lia)) as (A2 & L2 & V2).
  assert (N1 : fmt_u 0 (years v) <> EmptyString)
    by (intros E; rewrite E in L1; cbn in L1; lia).
  assert (N2 : fmt_u 3 (days v) <> EmptyString) by (eapply nonempty_of_length; eassumption).
  assert (C2 : Ascii.eqb (head (fmt_u 3 (days v))) ":" = false).
  { destruct (fmt_u 3 (days v)) as [| c r]; [contradiction |]. cbn in A2.
    apply andb_true_iff in A2. destruct A2 as [Hd _].
    destruct (digit_plain c Hd) as (_ & _ & _ & _ & C & _). exact C. }
  assert (LS : lacks " " (fmt_u 0 (years v) ++ String "-" (fmt_u 3 (days v))) = true).
  { apply lacks_digits_sep; try assumption; try reflexivity.
    apply all_digits_lacks; [reflexivity | assumption]. }
  assert (Len : (String.length (fmt_u 0 (years v) ++ String "-" (fmt_u 3 (days v))) <= 30)%nat)
    by (string_length; lia).
  pose proof (text_read_back h v flags _ _ Hc Hmo Hdu Ho Hr (or_introl eq_refl)
                A1 N1 N2 C2 LS Len) as R.
  eexists. split.
  - apply (crm_time_as_string_parts v v);
      [ change (has_flag flags crm_time_log_with_timezone) with true;
        cbn [negb]; rewrite andb_false_r; reflexivity
      | reflexivity | reflexivity | reflexivity | ].
    unfold date_string.
    change (has_flag flags crm_time_seconds) with false.
    change (has_flag flags crm_time_epoch) with false.
    change (has_flag flags crm_time_weeks) with false.
    change (has_flag flags crm_time_ordinal) with true.
    cbv iota. unfold crm_time_get_ordinal.
    rewrite (u32_small (years v)), (u32_small (days v)) by lia.
    cbn [append]. rewrite snprintf_short by (string_length; lia). reflexivity.
  - destruct (time_string v flags) as [time_s offset_s]. apply R.
    intros rest. rewrite append_assoc. cbn [append].
    apply ordinal_notation; lia.
Qed.

Lemma parse_date_of_ordinal_string_witness :
  exists s,
    crm_time_as_string (Some (mk_time 2005 0 25 36000 3600 false))
      (Z.lor gregorian_timeofday_timezone crm_time_ordinal) = Ok (Some s) /\
    parse_date (mk_host 0 calloc_time) s = Ok (Some (mk_time 2005 0 25 36000 3600 false)).
Proof.
  apply (parse_date_of_ordinal_string (mk_host 0 calloc_time)
           (mk_time 2005 0 25 36000 3600 false));
    [reflexivity | cbn; lia | reflexivity | reflexivity | cbn; lia | reflexivity].
Defined.

(** X30.  The ISO week text of a date and time in range is read back as the
    same value: as for the Gregorian form, with the date written as week
    year, week and weekday, for a year from 1 to 9998. *)
Theorem parse_date_of_week_string (h : host) (v : crm_time) :
  crm_time_check (Some v) = true ->
  1 <= years v <= 9998 -> months v = 0 -> duration v = false ->
  -86400 < offset v < 86400 -> Z.rem (offset v) 60 = 0 ->
  exists s,
    crm_time_as_string (Some v) (Z.lor gregorian_timeofday_timezone crm_time_weeks)
      = Ok (Some s) /\
    parse_date h s = Ok (Some v).
Proof.
  intros Hc Hy Hmo Hdu Ho Hr.
  pose proof Hc as Hc'. apply crm_time_check_iff in Hc'. destruct Hc' as [V S].
  set (flags := Z.lor gregorian_timeofday_timezone crm_time_weeks).
  destruct (crm_time_get_isoweek_spec v ltac:(unfold INT_MAX; lia) V)
    as (yn & w & d & E & Hyn & Ed & Hw & N).
  pose proof (weeks_in_year_range yn ltac:(lia)) as WR.
  assert (Hd : 1 <= d <= 7).
  { pose proof (Z.mod_pos_bound (day_number (years v) (days v) - 1) 7 ltac:(lia)). lia. }
  destruct (fmt_u_0 yn ltac:(lia)) as (A1 & L1 & V1).
  destruct (fmt_u_2 w ltac:(lia)) as (A2 & L2 & V2).
  destruct (fmt_u_0 d ltac:(lia)) as (A3 & L3 & V3).
  assert (N1 : fmt_u 0 yn <> EmptyString)
    by (intros E'; rewrite E' in L1; cbn in L1; lia).
  set (r := String "W" (fmt_u 2 w ++ String "-" (fmt_u 0 d))).
  assert (LS : lacks " " (fmt_u 0 yn ++ String "-" r) = true).
  { apply lacks_digits_sep; try assumption; try reflexivity.
    unfold r. cbn [lacks]. change (Ascii.eqb " " "W") with false. cbn [negb andb].
    apply lacks_digits_sep; try assumption; try reflexivity.
    apply all_digits_lacks; [reflexivity | assumption]. }
  assert (Len : (String.length (fmt_u 0 yn ++ String "-" r) <= 30)%nat)
    by (unfold r; string_length; lia).
  assert (W : week_date calloc_time yn w d = mk_time (years v) 0 (days v) 0 0 false).
  { destruct (week_date_spec yn w d) as (V' & N' & S' & O' & M' & D').
    rewrite <- N in N'.
    destruct (day_number_inj _ _ _ _ V' V N') as [Ey Edd].
    apply time_ext; cbn [years months days seconds offset duration]; assumption. }
  pose proof (text_read_back h v flags (fmt_u 0 yn) r Hc Hmo Hdu Ho Hr (or_introl eq_refl)
                A1 N1 ltac:(discriminate) eq_refl LS Len) as R.
  eexists. split.
  - apply (crm_time_as_string_parts v v);
      [ change (has_flag flags crm_time_log_with_timezone) with true;
        cbn [negb]; rewrite andb_false_r; reflexivity
      | reflexivity | reflexivity | reflexivity | ].
    unfold date_string.
    change (has_flag flags crm_time_seconds) with false.
    change (has_flag flags crm_time_epoch) with false.
    change (has_flag flags crm_time_weeks) with true.
    cbv iota. rewrite E.
    cbn [append]. rewrite snprintf_short by (string_length; lia). reflexivity.
  - destruct (time_string v flags) as [time_s offset_s]. apply R.
    intros rest. unfold r. rewrite append_assoc. cbn [append].
    rewrite append_assoc. cbn [append]. rewrite <- W.
    apply week_notation; lia.
Qed.

Lemma parse_date_of_week_string_witness :
  exists s,
    crm_time_as_string (Some (mk_time 2010 0 3 36000 3600 false))
      (Z.lor gregorian_timeofday_timezone crm_time_weeks) = Ok (Some s) /\
    parse_date (mk_host 0 calloc_time) s = Ok (Some (mk_time 2010 0 3 36000 3600 false)).
Proof.
  apply (parse_date_of_week_string (mk_host 0 calloc_time)
           (mk_time 2010 0 3 36000 3600 false));
    [reflexivity | cbn; lia | reflexivity | reflexivity | cbn; lia | reflexivity].
Defined.
